(** * BlitGL: a shallow embedding of ANGLE's GL blit/copy/clear helper

    The development follows [BlitGL.cpp] (found in this repository under
    [src/tests/deqp_support/tcuANGLEPlatform.h], second document).

    Every call the helper makes on one of its collaborators
    ([StateManagerGL], [FunctionsGL], [TextureGL], [gl::Framebuffer]) is
    recorded, in program order, in a call log.  Values the collaborators hand
    back (generated names, framebuffer status, compile status, ...) are read
    from a [Device], whose answers may depend on the whole log so far.  The
    helper's own fields ([mScratchTextures], [mScratchFBO], [mVAO],
    [mVertexBuffer], [mBlitPrograms]) are threaded explicitly. *)

From Stdlib Require Import ZArith List String Ascii Bool Lia.
From Stdlib Require Import SpecFloat.
Import ListNotations.

Local Open Scope string_scope.
Local Open Scope list_scope.
Local Open Scope Z_scope.

(** ** GL scalar types and the constants the helper names *)

Definition GLenum := Z.
Definition GLuint := Z.
Definition GLint := Z.
Definition GLbitfield := Z.

Definition GL_FALSE : GLint := 0.
Definition GL_TRUE : GLint := 1.
Definition GL_NONE : GLenum := 0.
Definition GL_ZERO : GLenum := 0.
Definition GL_ONE : GLenum := 1.
Definition GL_TRIANGLES : GLenum := 0x0004.
Definition GL_DEPTH_BUFFER_BIT : GLbitfield := 0x00000100.
Definition GL_STENCIL_BUFFER_BIT : GLbitfield := 0x00000400.
Definition GL_COLOR_BUFFER_BIT : GLbitfield := 0x00004000.
Definition GL_OUT_OF_MEMORY : GLenum := 0x0505.
Definition GL_TEXTURE_2D : GLenum := 0x0DE1.
Definition GL_UNSIGNED_BYTE : GLenum := 0x1401.
Definition GL_INT : GLenum := 0x1404.
Definition GL_UNSIGNED_INT : GLenum := 0x1405.
Definition GL_FLOAT : GLenum := 0x1406.
Definition GL_RED : GLenum := 0x1903.
Definition GL_GREEN : GLenum := 0x1904.
Definition GL_ALPHA : GLenum := 0x1906.
Definition GL_RGBA : GLenum := 0x1908.
Definition GL_LUMINANCE : GLenum := 0x1909.
Definition GL_LUMINANCE_ALPHA : GLenum := 0x190A.
Definition GL_NEAREST : GLenum := 0x2600.
Definition GL_LINEAR : GLenum := 0x2601.
Definition GL_TEXTURE_MAG_FILTER : GLenum := 0x2800.
Definition GL_TEXTURE_MIN_FILTER : GLenum := 0x2801.
Definition GL_TEXTURE_WRAP_S : GLenum := 0x2802.
Definition GL_TEXTURE_WRAP_T : GLenum := 0x2803.
Definition GL_RGBA8 : GLenum := 0x8058.
Definition GL_TEXTURE_3D : GLenum := 0x806F.
Definition GL_CLAMP_TO_EDGE : GLenum := 0x812F.
Definition GL_DEPTH_COMPONENT16 : GLenum := 0x81A5.
Definition GL_TEXTURE_RECTANGLE : GLenum := 0x84F5.
Definition GL_TEXTURE_CUBE_MAP_POSITIVE_X : GLenum := 0x8515.
Definition GL_MAX_VERTEX_ATTRIBS : GLenum := 0x8869.
Definition GL_ARRAY_BUFFER : GLenum := 0x8892.
Definition GL_STATIC_DRAW : GLenum := 0x88E4.
Definition GL_DEPTH24_STENCIL8 : GLenum := 0x88F0.
Definition GL_FRAGMENT_SHADER : GLenum := 0x8B30.
Definition GL_VERTEX_SHADER : GLenum := 0x8B31.
Definition GL_COMPILE_STATUS : GLenum := 0x8B81.
Definition GL_LINK_STATUS : GLenum := 0x8B82.
Definition GL_TEXTURE_2D_ARRAY : GLenum := 0x8C1A.
Definition GL_UNSIGNED_NORMALIZED : GLenum := 0x8C17.
Definition GL_READ_FRAMEBUFFER : GLenum := 0x8CA8.
Definition GL_DRAW_FRAMEBUFFER : GLenum := 0x8CA9.
Definition GL_FRAMEBUFFER_COMPLETE : GLenum := 0x8CD5.
Definition GL_FRAMEBUFFER_INCOMPLETE_ATTACHMENT : GLenum := 0x8CD6.
Definition GL_COLOR_ATTACHMENT0 : GLenum := 0x8CE0.
Definition GL_DEPTH_ATTACHMENT : GLenum := 0x8D00.
Definition GL_STENCIL_ATTACHMENT : GLenum := 0x8D20.
Definition GL_FRAMEBUFFER : GLenum := 0x8D40.
Definition GL_RENDERBUFFER : GLenum := 0x8D41.
Definition GL_STENCIL_INDEX8 : GLenum := 0x8D48.
Definition GL_TEXTURE_EXTERNAL_OES : GLenum := 0x8D65.
Definition GL_TEXTURE_SWIZZLE_RGBA : GLenum := 0x8E46.
Definition GL_SIGNED_NORMALIZED : GLenum := 0x8F9C.
Definition GL_TEXTURE_2D_MULTISAMPLE : GLenum := 0x9100.

(** ** [float]: IEEE-754 binary32, through the Standard Library's
    specification of floating-point numbers *)

Definition float := spec_float.

Definition float_prec : Z := 24.
Definition float_emax : Z := 128.

(** [static_cast<float>(int)] *)
Definition float_of_int (i : Z) : float :=
  binary_normalize float_prec float_emax i 0 false.

Definition fadd : float -> float -> float := SFadd float_prec float_emax.
Definition fmul : float -> float -> float := SFmul float_prec float_emax.
Definition fdiv : float -> float -> float := SFdiv float_prec float_emax.
Definition fneg : float -> float := SFopp.
Definition feqb : float -> float -> bool := SFeqb.

Definition f0 : float := S754_zero false.
Definition f1 : float := float_of_int 1.

(** [angle::Vector2] *)
Record Vector2 := mkVector2 { vx : float; vy : float }.

(** ** [gl::Rectangle], [gl::Extents], [gl::Offset] *)

Module gl.

Record Rectangle := mkRectangle { x : Z; y : Z; width : Z; height : Z }.
Record Extents := mkExtents { ewidth : Z; eheight : Z; edepth : Z }.
Record Offset := mkOffset { ox : Z; oy : Z; oz : Z }.

(** Modelled from the spec: [gl::Rectangle::isReversedX] is declared in
    libANGLE/angletypes.h, which is not part of the sources at hand.  The
    spec speaks of the "reversal sense" of a rectangle on an axis; a
    rectangle is reversed on X when its extent on X runs backwards, that is
    when its width is negative. *)
Definition isReversedX (r : Rectangle) : bool := width r <? 0.

(** Modelled from the spec: [gl::Rectangle::isReversedY], as
    [isReversedX], on the Y axis. *)
Definition isReversedY (r : Rectangle) : bool := height r <? 0.

(** Modelled from the spec: [gl::Rectangle::removeReversal] (absent, same
    header) "normalizes [a rectangle] to non-reversed form": the same set
    of pixels, described from its lower corner with positive extents. *)
Definition removeReversal (r : Rectangle) : Rectangle :=
  let r1 := if isReversedX r
            then mkRectangle (x r + width r) (y r) (- width r) (height r)
            else r in
  if isReversedY r1
  then mkRectangle (x r1) (y r1 + height r1) (width r1) (- height r1)
  else r1.

(** Modelled from the spec: [gl::ClipRectangle] (absent, libANGLE/angletypes)
    "clips the [...] source rectangle against the source's actual extents";
    it reports whether the intersection is non-empty and, when it is,
    yields the intersection.  [None] stands for the [false] return. *)
Definition ClipRectangle (source clip : Rectangle) : option Rectangle :=
  let x0 := Z.max (x source) (x clip) in
  let y0 := Z.max (y source) (y clip) in
  let x1 := Z.min (x source + width source) (x clip + width clip) in
  let y1 := Z.min (y source + height source) (y clip + height clip) in
  if (x1 <=? x0) || (y1 <=? y0)
  then None
  else Some (mkRectangle x0 y0 (x1 - x0) (y1 - y0)).

End gl.

(** ** Enumerations of the GL front end *)

Inductive TextureType :=
| TextureType_2D | TextureType_2DArray | TextureType_2DMultisample
| TextureType_3D | TextureType_External | TextureType_Rectangle
| TextureType_CubeMap.

Inductive TextureTarget :=
| TextureTarget_2D | TextureTarget_2DArray | TextureTarget_2DMultisample
| TextureTarget_3D | TextureTarget_External | TextureTarget_Rectangle
| TextureTarget_CubeMapPositiveX | TextureTarget_CubeMapNegativeX
| TextureTarget_CubeMapPositiveY | TextureTarget_CubeMapNegativeY
| TextureTarget_CubeMapPositiveZ | TextureTarget_CubeMapNegativeZ.

(** [gl::ToGLenum]: the GL enumerant of a target. *)
Definition ToGLenum (t : TextureTarget) : GLenum :=
  match t with
  | TextureTarget_2D => GL_TEXTURE_2D
  | TextureTarget_2DArray => GL_TEXTURE_2D_ARRAY
  | TextureTarget_2DMultisample => GL_TEXTURE_2D_MULTISAMPLE
  | TextureTarget_3D => GL_TEXTURE_3D
  | TextureTarget_External => GL_TEXTURE_EXTERNAL_OES
  | TextureTarget_Rectangle => GL_TEXTURE_RECTANGLE
  | TextureTarget_CubeMapPositiveX => GL_TEXTURE_CUBE_MAP_POSITIVE_X
  | TextureTarget_CubeMapNegativeX => GL_TEXTURE_CUBE_MAP_POSITIVE_X + 1
  | TextureTarget_CubeMapPositiveY => GL_TEXTURE_CUBE_MAP_POSITIVE_X + 2
  | TextureTarget_CubeMapNegativeY => GL_TEXTURE_CUBE_MAP_POSITIVE_X + 3
  | TextureTarget_CubeMapPositiveZ => GL_TEXTURE_CUBE_MAP_POSITIVE_X + 4
  | TextureTarget_CubeMapNegativeZ => GL_TEXTURE_CUBE_MAP_POSITIVE_X + 5
  end.

Definition TextureTarget_eqb (a b : TextureTarget) : bool :=
  ToGLenum a =? ToGLenum b.

Inductive BufferBinding := BufferBinding_Array | BufferBinding_PixelUnpack.

Inductive StandardGL := STANDARD_GL_DESKTOP | STANDARD_GL_ES.

(** [BlitGL::BlitProgramType] *)
Inductive BlitProgramType := FLOAT_TO_FLOAT | FLOAT_TO_UINT | UINT_TO_UINT.

Definition BlitProgramType_eqb (a b : BlitProgramType) : bool :=
  match a, b with
  | FLOAT_TO_FLOAT, FLOAT_TO_FLOAT
  | FLOAT_TO_UINT, FLOAT_TO_UINT
  | UINT_TO_UINT, UINT_TO_UINT => true
  | _, _ => false
  end.

(** [BlitGL::BlitProgram] *)
Record BlitProgram := mkBlitProgram {
  program : GLuint;
  sourceTextureLocation : GLint;
  scaleLocation : GLint;
  offsetLocation : GLint;
  multiplyAlphaLocation : GLint;
  unMultiplyAlphaLocation : GLint
}.

(** A default-constructed entry of the cache: [program == 0] is the code's
    test for "not built yet"; the locations are not read before they are set. *)
Definition emptyBlitProgram : BlitProgram := mkBlitProgram 0 (-1) (-1) (-1) (-1) (-1).

(** What the helper reads of a [gl::InternalFormat]. *)
Record InternalFormat := mkInternalFormat { depthBits : Z; stencilBits : Z }.

(** [gl::PixelUnpackState]; a default-constructed one has alignment 4. *)
Record PixelUnpackState := mkPixelUnpackState { alignment : Z }.
Definition defaultPixelUnpackState : PixelUnpackState := mkPixelUnpackState 4.

(** ** The call log *)

Inductive GLCall :=
(* StateManagerGL *)
| setScissorTestEnabled (enabled : bool)
| setViewport (viewport : gl.Rectangle)
| setDepthRange (near far : float)
| setBlendEnabled (enabled : bool)
| setColorMask (r g b a : bool)
| setSampleAlphaToCoverageEnabled (enabled : bool)
| setSampleCoverageEnabled (enabled : bool)
| setDepthTestEnabled (enabled : bool)
| setStencilTestEnabled (enabled : bool)
| setCullFaceEnabled (enabled : bool)
| setPolygonOffsetFillEnabled (enabled : bool)
| setRasterizerDiscardEnabled (enabled : bool)
| pauseTransformFeedback
| pauseAllQueries
| resumeAllQueries
| bindSampler (unit sampler : GLuint)
| setClearColor (r g b a : float)
| setDepthMask (mask : bool)
| setClearDepth (depth : float)
| setClearStencil (stencil : GLint)
| bindFramebuffer (target : GLenum) (framebuffer : GLuint)
| bindTexture (type : TextureType) (texture : GLuint)
| bindBuffer (binding : BufferBinding) (buffer : GLuint)
| bindVertexArray (vao elementBuffer : GLuint)
| setPixelUnpackState (unpack : PixelUnpackState)
| setPixelUnpackBuffer (buffer : option GLuint)
| activeTexture (unit : GLuint)
| useProgram (prog : GLuint)
(* FunctionsGL *)
| genTextures
| genFramebuffers
| genBuffers
| genVertexArrays
| bufferData (target : GLenum) (size : Z) (data : list float) (usage : GLenum)
| getIntegerv (pname : GLenum)
| enableVertexAttribArray (index : GLuint)
| vertexAttribPointer (index : GLuint) (size : GLint) (type : GLenum)
                      (normalized : GLint) (stride : Z)
| texImage2D (target : GLenum) (level : GLint) (internalFormat : GLenum)
             (w h : Z) (border : GLint) (format type : GLenum)
| copyTexImage2D (target : GLenum) (level : GLint) (internalFormat : GLenum)
                 (sx sy w h : Z) (border : GLint)
| copyTexSubImage2D (target : GLenum) (level : GLint) (xoffset yoffset : Z)
                    (sx sy w h : Z)
| copyTexSubImage3D (target : GLenum) (level : GLint) (xoffset yoffset zoffset : Z)
                    (sx sy w h : Z)
| texParameteri (target pname param : GLenum)
| texParameteriv (target pname : GLenum) (params : list GLenum)
| framebufferTexture2D (target attachment textarget : GLenum) (texture : GLuint)
                       (level : GLint)
| framebufferTexture (target attachment : GLenum) (texture : GLuint) (level : GLint)
| framebufferTextureLayer (target attachment : GLenum) (texture : GLuint)
                          (level layer : GLint)
| framebufferRenderbuffer (target attachment renderbuffertarget : GLenum)
                          (renderbuffer : GLuint)
| checkFramebufferStatus (target : GLenum)
| clear (mask : GLbitfield)
| uniform1i (location : GLint) (v : GLint)
| uniform2f (location : GLint) (v0 v1 : float)
| drawArrays (mode : GLenum) (first count : GLint)
| createProgram
| createShader (type : GLenum)
| shaderSource (shader : GLuint) (source : string)
| compileShader (shader : GLuint)
| getShaderiv (shader : GLuint) (pname : GLenum)
| attachShader (prog shader : GLuint)
| deleteShader (shader : GLuint)
| linkProgram (prog : GLuint)
| getProgramiv (prog : GLuint) (pname : GLenum)
| getUniformLocation (prog : GLuint) (name : string)
(* TextureGL *)
| setSwizzle (texture : GLuint) (swizzle : list GLenum)
| setMinFilter (texture : GLuint) (filter : GLenum)
| setMagFilter (texture : GLuint) (filter : GLenum)
| setBaseLevel (texture : GLuint) (level : GLuint)
(* gl::Framebuffer *)
| getImplementationColorReadFormat (framebuffer : GLuint)
| getImplementationColorReadType (framebuffer : GLuint).

(** ** Errors and results *)

(** [gl::Error]: an error code and its message. *)
Record Error := mkError { errorCode : GLenum; errorMessage : string }.

Definition OutOfMemory (msg : string) : Error := mkError GL_OUT_OF_MEMORY msg.

Inductive Result (A : Type) :=
| Ok (a : A)
| Failed (e : Error).
Arguments Ok {A} a.
Arguments Failed {A} e.

(** ** The collaborators' answers *)

Record Device := mkDevice {
  (* FunctionsGL: which entry points exist, which flavour of GL *)
  standard : StandardGL;
  has_bindSampler : bool;
  has_framebufferTexture : bool;
  (* format tables of libANGLE and of the GL back end *)
  GetSizedInternalFormatInfo : GLenum -> InternalFormat;
  GetUnsizedFormat : GLenum -> GLenum;
  GetCopyTexImageImageFormat : GLenum -> GLenum -> GLenum;
  (* answers of the driver, given the calls made so far *)
  generated_name : list GLCall -> GLuint;
  framebuffer_status : list GLCall -> GLenum;
  integer_value : list GLCall -> GLint;
  shader_status : list GLCall -> GLint;
  program_status : list GLCall -> GLint;
  uniform_location : list GLCall -> GLint;
  (* answers of the front-end objects *)
  base_level_result : list GLCall -> Result unit;
  color_read_format : list GLCall -> Result GLenum;
  color_read_type : list GLCall -> Result GLenum
}.

(** ** The helper's fields and the monad of its methods *)

Record BlitGL := mkBlitGL {
  mScratchTextures : GLuint * GLuint;
  mScratchFBO : GLuint;
  mVAO : GLuint;
  mVertexBuffer : GLuint;
  mBlitPrograms : BlitProgramType -> BlitProgram
}.

(** The constructor's initial values. *)
Definition BlitGL_new : BlitGL :=
  mkBlitGL (0, 0) 0 0 0 (fun _ => emptyBlitProgram).

Record World := mkWorld { self : BlitGL; calls : list GLCall }.

Definition M (A : Type) : Type := World -> Result A * World.

Definition ret {A} (a : A) : M A := fun w => (Ok a, w).

Definition bind {A B} (m : M A) (k : A -> M B) : M B :=
  fun w =>
    match m w with
    | (Ok a, w') => k a w'
    | (Failed e, w') => (Failed e, w')
    end.

Definition fail {A} (e : Error) : M A := fun w => (Failed e, w).

Declare Scope blit_scope.
Delimit Scope blit_scope with blit.
Notation "x <- m ;; k" := (bind m (fun x => k))
  (at level 61, m at next level, right associativity) : blit_scope.
Notation "m ;; k" := (bind m (fun _ => k))
  (at level 61, right associativity) : blit_scope.
Local Open Scope blit_scope.

(** A call whose result the helper does not use. *)
Definition call (c : GLCall) : M unit :=
  fun w => (Ok tt, mkWorld (self w) (calls w ++ [c])).

(** A call whose answer the helper uses; the answer may depend on every call
    made so far, this one included. *)
Definition ask {A} (c : GLCall) (answer : list GLCall -> A) : M A :=
  fun w => let l := calls w ++ [c] in (Ok (answer l), mkWorld (self w) l).

(** A call that returns a [gl::Error], under [ANGLE_TRY]. *)
Definition tryCall {A} (c : GLCall) (answer : list GLCall -> Result A) : M A :=
  fun w =>
    let l := calls w ++ [c] in
    (answer l, mkWorld (self w) l).

Definition getSelf : M BlitGL := fun w => (Ok (self w), w).
Definition putSelf (b : BlitGL) : M unit := fun w => (Ok tt, mkWorld b (calls w)).

Definition when (b : bool) (m : M unit) : M unit := if b then m else ret tt.

(** [for (x : xs) body] *)
Fixpoint forEach {A} (xs : list A) (body : A -> M unit) : M unit :=
  match xs with
  | [] => ret tt
  | a :: xs' => body a ;; forEach xs' body
  end.

(** The values [0, 1, ..., n-1] of [for (GLint i = 0; i < n; i++)]. *)
Definition range (n : Z) : list Z := map Z.of_nat (seq 0 (Z.to_nat n)).

(** A loop whose body may [return] from the enclosing function: [Some r]
    leaves the function with [r], [None] goes on with the next element. *)
Fixpoint forEachReturning {A R} (xs : list A) (body : A -> M (option R)) : M (option R) :=
  match xs with
  | [] => ret None
  | a :: xs' =>
      r <- body a ;;
      match r with
      | Some v => ret (Some v)
      | None => forEachReturning xs' body
      end
  end.

(** ** Front-end objects handed to the helper (their public accessors) *)

Record FramebufferAttachment := mkFramebufferAttachment {
  getSamples : Z;
  getSize : gl.Extents;
  getFormat : GLenum        (* getFormat().info->internalFormat *)
}.

Record Framebuffer := mkFramebuffer {
  getFramebufferID : GLuint;
  getReadColorbuffer : FramebufferAttachment
}.

Record TextureGL := mkTextureGL { getType : TextureType; getTextureID : GLuint }.

Record ImageIndex := mkImageIndex {
  getTarget : TextureTarget;
  getLevelIndex : GLint;
  hasLayer : bool;
  getLayerIndex : GLint;
  getLayerCount : GLint
}.

(** [context->getGLState().getTargetBuffer(gl::BufferBinding::PixelUnpack)] *)
Record Context := mkContext { getPixelUnpackBuffer : option GLuint }.

(** Modelled from the spec: [nativegl::UseTexImage2D] (renderergl_utils, not
    part of the sources at hand) separates what the spec calls "2D-class
    targets" from "3D/array-class targets". *)
Definition UseTexImage2D (t : TextureType) : bool :=
  match t with
  | TextureType_2D | TextureType_CubeMap | TextureType_Rectangle => true
  | _ => false
  end.

(** Modelled from the spec: [nativegl::UseTexImage3D], the "3D/array-class". *)
Definition UseTexImage3D (t : TextureType) : bool :=
  match t with
  | TextureType_2DArray | TextureType_3D => true
  | _ => false
  end.

(** ** Field updates of [BlitGL] and of a cached [BlitProgram] *)

Definition set_mScratchTextures (v : GLuint * GLuint) (b : BlitGL) : BlitGL :=
  mkBlitGL v (mScratchFBO b) (mVAO b) (mVertexBuffer b) (mBlitPrograms b).
Definition set_mScratchFBO (v : GLuint) (b : BlitGL) : BlitGL :=
  mkBlitGL (mScratchTextures b) v (mVAO b) (mVertexBuffer b) (mBlitPrograms b).
Definition set_mVAO (v : GLuint) (b : BlitGL) : BlitGL :=
  mkBlitGL (mScratchTextures b) (mScratchFBO b) v (mVertexBuffer b) (mBlitPrograms b).
Definition set_mVertexBuffer (v : GLuint) (b : BlitGL) : BlitGL :=
  mkBlitGL (mScratchTextures b) (mScratchFBO b) (mVAO b) v (mBlitPrograms b).
Definition set_mBlitPrograms (v : BlitProgramType -> BlitProgram) (b : BlitGL) : BlitGL :=
  mkBlitGL (mScratchTextures b) (mScratchFBO b) (mVAO b) (mVertexBuffer b) v.

Definition modifySelf (f : BlitGL -> BlitGL) : M unit :=
  fun w => (Ok tt, mkWorld (f (self w)) (calls w)).

(** [mBlitPrograms[type]] is a [std::map] lookup that default-constructs the
    entry; assignments through the returned reference update the entry. *)
Definition modifyProgram (type : BlitProgramType) (f : BlitProgram -> BlitProgram) : M unit :=
  modifySelf (fun b =>
    set_mBlitPrograms
      (fun t => if BlitProgramType_eqb t type then f (mBlitPrograms b t) else mBlitPrograms b t)
      b).

Definition set_program (v : GLuint) (p : BlitProgram) : BlitProgram :=
  mkBlitProgram v (sourceTextureLocation p) (scaleLocation p) (offsetLocation p)
                (multiplyAlphaLocation p) (unMultiplyAlphaLocation p).
Definition set_sourceTextureLocation (v : GLint) (p : BlitProgram) : BlitProgram :=
  mkBlitProgram (program p) v (scaleLocation p) (offsetLocation p)
                (multiplyAlphaLocation p) (unMultiplyAlphaLocation p).
Definition set_scaleLocation (v : GLint) (p : BlitProgram) : BlitProgram :=
  mkBlitProgram (program p) (sourceTextureLocation p) v (offsetLocation p)
                (multiplyAlphaLocation p) (unMultiplyAlphaLocation p).
Definition set_offsetLocation (v : GLint) (p : BlitProgram) : BlitProgram :=
  mkBlitProgram (program p) (sourceTextureLocation p) (scaleLocation p) v
                (multiplyAlphaLocation p) (unMultiplyAlphaLocation p).
Definition set_multiplyAlphaLocation (v : GLint) (p : BlitProgram) : BlitProgram :=
  mkBlitProgram (program p) (sourceTextureLocation p) (scaleLocation p) (offsetLocation p)
                v (unMultiplyAlphaLocation p).
Definition set_unMultiplyAlphaLocation (v : GLint) (p : BlitProgram) : BlitProgram :=
  mkBlitProgram (program p) (sourceTextureLocation p) (scaleLocation p) (offsetLocation p)
                (multiplyAlphaLocation p) v.

(** ** Shader synthesis ([BlitGL::getBlitProgram], the text it streams) *)

Definition nl : string := String (ascii_of_nat 10) EmptyString.

Fixpoint cat (pieces : list string) : string :=
  match pieces with
  | [] => EmptyString
  | s :: rest => (s ++ cat rest)%string
  end.

Record ShaderQualifiers := mkShaderQualifiers {
  version : string;
  vsInputVariableQualifier : string;
  vsOutputVariableQualifier : string;
  fsInputVariableQualifier : string;
  fsOutputVariableQualifier : string;
  sampleFunction : string
}.

Definition shaderQualifiers (std : StandardGL) (type : BlitProgramType) : ShaderQualifiers :=
  match type with
  | FLOAT_TO_FLOAT => mkShaderQualifiers "100" "attribute" "varying" "varying" "" "texture2D"
  | _ =>
      mkShaderQualifiers
        (match std with STANDARD_GL_DESKTOP => "330" | STANDARD_GL_ES => "300 es" end)
        "in" "out" "in" "out" "texture"
  end.

Definition vertexShaderSource (q : ShaderQualifiers) : string :=
  cat [ "#version "; version q; nl;
        vsInputVariableQualifier q; " vec2 a_texcoord;"; nl;
        "uniform vec2 u_scale;"; nl;
        "uniform vec2 u_offset;"; nl;
        vsOutputVariableQualifier q; " vec2 v_texcoord;"; nl;
        nl;
        "void main()"; nl;
        "{"; nl;
        "    gl_Position = vec4((a_texcoord * 2.0) - 1.0, 0.0, 1.0);"; nl;
        "    v_texcoord = a_texcoord * u_scale + u_offset;"; nl;
        "}"; nl ].

Definition samplerType (type : BlitProgramType) : string :=
  match type with
  | FLOAT_TO_FLOAT | FLOAT_TO_UINT => "sampler2D"
  | UINT_TO_UINT => "usampler2D"
  end.

Definition samplerResultType (type : BlitProgramType) : string :=
  match type with
  | FLOAT_TO_FLOAT | FLOAT_TO_UINT => "vec4"
  | UINT_TO_UINT => "uvec4"
  end.

Definition outputType (type : BlitProgramType) : string :=
  match type with
  | FLOAT_TO_FLOAT => ""
  | FLOAT_TO_UINT | UINT_TO_UINT => "uvec4"
  end.

Definition outputVariableName (type : BlitProgramType) : string :=
  match type with
  | FLOAT_TO_FLOAT => "gl_FragColor"
  | FLOAT_TO_UINT | UINT_TO_UINT => "outputUint"
  end.

Definition outputMultiplier (type : BlitProgramType) : string :=
  match type with
  | FLOAT_TO_FLOAT => "1.0"
  | FLOAT_TO_UINT | UINT_TO_UINT => "255.0"
  end.

Definition string_empty (s : string) : bool :=
  match s with EmptyString => true | _ => false end.

(** The premultiply / unmultiply block of the fragment shader, as streamed. *)
Definition multiplyAlphaBlock : string :=
  cat [ "    if (u_multiply_alpha)"; nl;
        "    {"; nl;
        "        color.xyz = color.xyz * color.a;"; nl;
        "    }"; nl ].

Definition unmultiplyAlphaBlock : string :=
  cat [ "    if (u_unmultiply_alpha && color.a != 0.0)"; nl;
        "    {"; nl;
        "         color.xyz = color.xyz / color.a;"; nl;
        "    }"; nl ].

Definition fragmentShaderSource (q : ShaderQualifiers) (type : BlitProgramType) : string :=
  cat [ "#version "; version q; nl;
        "precision highp float;"; nl;
        "uniform "; samplerType type; " u_source_texture;"; nl;
        "uniform bool u_multiply_alpha;"; nl;
        "uniform bool u_unmultiply_alpha;"; nl;
        fsInputVariableQualifier q; " vec2 v_texcoord;"; nl;
        (if string_empty (outputType type) then ""
         else cat [ fsOutputVariableQualifier q; " "; outputType type; " ";
                    outputVariableName type; ";"; nl ]);
        nl;
        "void main()"; nl;
        "{"; nl;
        "    if (clamp(v_texcoord, vec2(0.0), vec2(1.0)) != v_texcoord)"; nl;
        "    {"; nl;
        "        discard;"; nl;
        "    }"; nl;
        "    "; samplerResultType type; " color = "; sampleFunction q;
        "(u_source_texture, v_texcoord);"; nl;
        multiplyAlphaBlock;
        unmultiplyAlphaBlock;
        "    color = color * "; outputMultiplier type; ";"; nl;
        "    "; outputVariableName type; " = "; outputType type; "(color);"; nl;
        "}"; nl ].

(** [BlitGL::getBlitProgramType].  The two [ASSERT]s (a [GL_UNSIGNED_INT]
    source has a [GL_UNSIGNED_INT] destination; the source is not [GL_INT])
    are the callers' obligations, stated as [blitTypesAccepted]. *)
Definition getBlitProgramType (sourceComponentType destComponentType : GLenum)
  : BlitProgramType :=
  if sourceComponentType =? GL_UNSIGNED_INT then UINT_TO_UINT
  else if destComponentType =? GL_UNSIGNED_INT then FLOAT_TO_UINT
  else FLOAT_TO_FLOAT.

Definition blitTypesAccepted (sourceComponentType destComponentType : GLenum) : bool :=
  if sourceComponentType =? GL_UNSIGNED_INT
  then destComponentType =? GL_UNSIGNED_INT
  else negb (sourceComponentType =? GL_INT).

(** ** The methods of [BlitGL] *)

Section Methods.

Variable dev : Device.

(** *** Anonymous-namespace helpers.  An [ASSERT] aborts a debug build and
    is compiled out of a release build; the definitions follow the release
    build, and what the assertions demand is stated where a theorem needs it. *)

Definition CheckCompileStatus (shader : GLuint) : M unit :=
  compileStatus <- ask (getShaderiv shader GL_COMPILE_STATUS) (shader_status dev) ;;
  if compileStatus =? GL_FALSE
  then fail (OutOfMemory "Failed to compile internal blit shader.")
  else ret tt.

Definition CheckLinkStatus (prog : GLuint) : M unit :=
  linkStatus <- ask (getProgramiv prog GL_LINK_STATUS) (program_status dev) ;;
  if linkStatus =? GL_FALSE
  then fail (OutOfMemory "Failed to link internal blit program.")
  else ret tt.

(** [ScopedGLState]: the constructor, the destructor, and the scope they
    delimit.  [ANGLE_SWALLOW_ERR] drops the error of the two query calls. *)
Definition KEEP_SCISSOR : Z := 1.

Definition ScopedGLState_ctor (viewport : gl.Rectangle) (keepState : Z) : M unit :=
  when (Z.land keepState KEEP_SCISSOR =? 0) (call (setScissorTestEnabled false)) ;;
  call (setViewport viewport) ;;
  call (setDepthRange f0 f1) ;;
  call (setBlendEnabled false) ;;
  call (setColorMask true true true true) ;;
  call (setSampleAlphaToCoverageEnabled false) ;;
  call (setSampleCoverageEnabled false) ;;
  call (setDepthTestEnabled false) ;;
  call (setStencilTestEnabled false) ;;
  call (setCullFaceEnabled false) ;;
  call (setPolygonOffsetFillEnabled false) ;;
  call (setRasterizerDiscardEnabled false) ;;
  call pauseTransformFeedback ;;
  call pauseAllQueries.

Definition ScopedGLState_dtor : M unit :=
  call resumeAllQueries.

Definition willUseTextureUnit (textureUnit : GLuint) : M unit :=
  when (has_bindSampler dev) (call (bindSampler textureUnit 0)).

(** The block in which a [ScopedGLState] local lives: the destructor runs
    when the block is left, whichever way. *)
Definition withScopedGLState {A} (viewport : gl.Rectangle) (keepState : Z)
           (body : M A) : M A :=
  fun w =>
    let (_, w1) := ScopedGLState_ctor viewport keepState w in
    let (r, w2) := body w1 in
    let (_, w3) := ScopedGLState_dtor w2 in
    (r, w3).

(** [SetClearState]; the value returned is [*outClearMask]. *)
Definition SetClearState (colorClear depthClear stencilClear : bool) : M GLbitfield :=
  let mask0 := 0 in
  mask1 <- (if colorClear
            then call (setClearColor f0 f0 f0 f0) ;;
                 call (setColorMask true true true true) ;;
                 ret (Z.lor mask0 GL_COLOR_BUFFER_BIT)
            else ret mask0) ;;
  mask2 <- (if depthClear
            then call (setDepthMask true) ;;
                 call (setClearDepth f1) ;;
                 ret (Z.lor mask1 GL_DEPTH_BUFFER_BIT)
            else ret mask1) ;;
  mask3 <- (if stencilClear
            then call (setClearStencil 0) ;;
                 ret (Z.lor mask2 GL_STENCIL_BUFFER_BIT)
            else ret mask2) ;;
  call (setScissorTestEnabled false) ;;
  ret mask3.

(** The three flags [PrepareForClear] derives from the format. *)
Definition bindDepth (f : InternalFormat) : bool := 0 <? depthBits f.
Definition bindStencil (f : InternalFormat) : bool := 0 <? stencilBits f.
Definition bindColor (f : InternalFormat) : bool :=
  negb (bindDepth f) && negb (bindStencil f).

(** [outBindtargets] after the three [push_back]s. *)
Definition clearBindTargets (f : InternalFormat) : list GLenum :=
  (if bindColor f then [GL_COLOR_ATTACHMENT0] else [])
  ++ (if bindDepth f then [GL_DEPTH_ATTACHMENT] else [])
  ++ (if bindStencil f then [GL_STENCIL_ATTACHMENT] else []).

(** [PrepareForClear]: yields [(outBindtargets, outClearMask)]. *)
Definition PrepareForClear (sizedInternalFormat : GLenum) : M (list GLenum * GLbitfield) :=
  let internalFormatInfo := GetSizedInternalFormatInfo dev sizedInternalFormat in
  let outBindtargets := clearBindTargets internalFormatInfo in
  outClearMask <- SetClearState (bindColor internalFormatInfo)
                                (bindDepth internalFormatInfo)
                                (bindStencil internalFormatInfo) ;;
  ret (outBindtargets, outClearMask).

Definition UnbindAttachments (framebufferTarget : GLenum) (bindTargets : list GLenum)
  : M unit :=
  forEach bindTargets (fun bindTarget =>
    call (framebufferRenderbuffer framebufferTarget bindTarget GL_RENDERBUFFER 0)).

(** *** Scratch resources *)

Definition vertexData : list float :=
  let half := fdiv f1 (float_of_int 2) in
  [ fneg half; f0; fadd f1 half; f0; half; float_of_int 2 ].

Definition initializeResources : M unit :=
  (* for (i < ArraySize(mScratchTextures)) *)
  b <- getSelf ;;
  when (fst (mScratchTextures b) =? 0)
       (t <- ask genTextures (generated_name dev) ;;
        modifySelf (fun b => set_mScratchTextures (t, snd (mScratchTextures b)) b)) ;;
  b <- getSelf ;;
  when (snd (mScratchTextures b) =? 0)
       (t <- ask genTextures (generated_name dev) ;;
        modifySelf (fun b => set_mScratchTextures (fst (mScratchTextures b), t) b)) ;;
  b <- getSelf ;;
  when (mScratchFBO b =? 0)
       (f <- ask genFramebuffers (generated_name dev) ;;
        modifySelf (set_mScratchFBO f)) ;;
  b <- getSelf ;;
  when (mVertexBuffer b =? 0)
       (v <- ask genBuffers (generated_name dev) ;;
        modifySelf (set_mVertexBuffer v) ;;
        call (bindBuffer BufferBinding_Array v) ;;
        call (bufferData GL_ARRAY_BUFFER (4 * 6) vertexData GL_STATIC_DRAW)) ;;
  b <- getSelf ;;
  when (mVAO b =? 0)
       (a <- ask genVertexArrays (generated_name dev) ;;
        modifySelf (set_mVAO a) ;;
        call (bindVertexArray a 0) ;;
        call (bindBuffer BufferBinding_Array (mVertexBuffer b)) ;;
        maxAttributes <- ask (getIntegerv GL_MAX_VERTEX_ATTRIBS) (integer_value dev) ;;
        forEach (range maxAttributes) (fun i =>
          call (enableVertexAttribArray i) ;;
          call (vertexAttribPointer i 2 GL_FLOAT GL_FALSE 0))).

Definition scratchTextures (b : BlitGL) : list GLuint :=
  [fst (mScratchTextures b); snd (mScratchTextures b)].

Definition orphanScratchTextures : M unit :=
  b <- getSelf ;;
  forEach (scratchTextures b) (fun texture =>
    call (bindTexture TextureType_2D texture) ;;
    call (setPixelUnpackState defaultPixelUnpackState) ;;
    call (setPixelUnpackBuffer None) ;;
    call (texImage2D GL_TEXTURE_2D 0 GL_RGBA 0 0 0 GL_RGBA GL_UNSIGNED_BYTE)).

Definition setScratchTextureParameter (param value : GLenum) : M unit :=
  b <- getSelf ;;
  forEach (scratchTextures b) (fun texture =>
    call (bindTexture TextureType_2D texture) ;;
    call (texParameteri GL_TEXTURE_2D param value) ;;
    call (texParameteri GL_TEXTURE_2D param value)).

(** *** The program cache *)

Definition getBlitProgram (type : BlitProgramType) : M BlitProgram :=
  b <- getSelf ;;
  (if program (mBlitPrograms b type) =? 0
   then
     prog <- ask createProgram (generated_name dev) ;;
     modifyProgram type (set_program prog) ;;
     let q := shaderQualifiers (standard dev) type in
     (* vertex shader *)
     vs <- ask (createShader GL_VERTEX_SHADER) (generated_name dev) ;;
     call (shaderSource vs (vertexShaderSource q)) ;;
     call (compileShader vs) ;;
     CheckCompileStatus vs ;;
     call (attachShader prog vs) ;;
     call (deleteShader vs) ;;
     (* fragment shader *)
     fs <- ask (createShader GL_FRAGMENT_SHADER) (generated_name dev) ;;
     call (shaderSource fs (fragmentShaderSource q type)) ;;
     call (compileShader fs) ;;
     CheckCompileStatus fs ;;
     call (attachShader prog fs) ;;
     call (deleteShader fs) ;;
     call (linkProgram prog) ;;
     CheckLinkStatus prog ;;
     l <- ask (getUniformLocation prog "u_source_texture") (uniform_location dev) ;;
     modifyProgram type (set_sourceTextureLocation l) ;;
     l <- ask (getUniformLocation prog "u_scale") (uniform_location dev) ;;
     modifyProgram type (set_scaleLocation l) ;;
     l <- ask (getUniformLocation prog "u_offset") (uniform_location dev) ;;
     modifyProgram type (set_offsetLocation l) ;;
     l <- ask (getUniformLocation prog "u_multiply_alpha") (uniform_location dev) ;;
     modifyProgram type (set_multiplyAlphaLocation l) ;;
     l <- ask (getUniformLocation prog "u_unmultiply_alpha") (uniform_location dev) ;;
     modifyProgram type (set_unMultiplyAlphaLocation l)
   else ret tt) ;;
  b <- getSelf ;;
  ret (mBlitPrograms b type).

(** *** Casts.  [int] arithmetic on rectangles is taken without overflow
    (signed overflow is undefined behaviour in C++). *)

Definition static_cast_GLint (n : Z) : GLint :=
  (n + 2 ^ 31) mod 2 ^ 32 - 2 ^ 31.

Definition static_cast_GLuint (n : Z) : GLuint := n mod 2 ^ 32.

(** *** LUMA workaround copies *)

Definition is3DTarget (target : TextureTarget) : bool :=
  TextureTarget_eqb target TextureTarget_3D || TextureTarget_eqb target TextureTarget_2DArray.

Definition copySubImageToLUMAWorkaroundTexture
           (context : Context) (texture : GLuint) (textureType : TextureType)
           (target : TextureTarget) (lumaFormat : GLenum) (level : Z)
           (destOffset : gl.Offset) (sourceArea : gl.Rectangle) (source : Framebuffer)
  : M unit :=
  initializeResources ;;
  blitProgram <- getBlitProgram FLOAT_TO_FLOAT ;;
  (* Blit the framebuffer to the first scratch texture *)
  call (bindFramebuffer GL_FRAMEBUFFER (getFramebufferID source)) ;;
  readFormat <- tryCall (getImplementationColorReadFormat (getFramebufferID source))
                    (color_read_format dev) ;;
  readType <- tryCall (getImplementationColorReadType (getFramebufferID source))
                  (color_read_type dev) ;;
  let copyTexImageFormat := GetCopyTexImageImageFormat dev readFormat readType in
  b <- getSelf ;;
  call (bindTexture TextureType_2D (fst (mScratchTextures b))) ;;
  call (copyTexImage2D GL_TEXTURE_2D 0 copyTexImageFormat
                       (gl.x sourceArea) (gl.y sourceArea)
                       (gl.width sourceArea) (gl.height sourceArea) 0) ;;
  let swizzle :=
    [ if lumaFormat =? GL_ALPHA then GL_ALPHA else GL_RED;
      if lumaFormat =? GL_LUMINANCE_ALPHA then GL_ALPHA else GL_ZERO;
      GL_ZERO; GL_ZERO ] in
  call (texParameteriv GL_TEXTURE_2D GL_TEXTURE_SWIZZLE_RGBA swizzle) ;;
  (* A temporary framebuffer on the second scratch texture *)
  call (bindTexture TextureType_2D (snd (mScratchTextures b))) ;;
  call (texImage2D GL_TEXTURE_2D 0 copyTexImageFormat
                   (gl.width sourceArea) (gl.height sourceArea) 0
                   (GetUnsizedFormat dev copyTexImageFormat) readType) ;;
  call (bindFramebuffer GL_FRAMEBUFFER (mScratchFBO b)) ;;
  call (framebufferTexture2D GL_FRAMEBUFFER GL_COLOR_ATTACHMENT0 GL_TEXTURE_2D
                             (snd (mScratchTextures b)) 0) ;;
  (* Render to the destination texture, sampling from the scratch texture *)
  withScopedGLState
    (gl.mkRectangle 0 0 (gl.width sourceArea) (gl.height sourceArea)) 0
    (willUseTextureUnit 0 ;;
     setScratchTextureParameter GL_TEXTURE_MIN_FILTER GL_NEAREST ;;
     setScratchTextureParameter GL_TEXTURE_MAG_FILTER GL_NEAREST ;;
     call (activeTexture 0) ;;
     call (bindTexture TextureType_2D (fst (mScratchTextures b))) ;;
     call (useProgram (program blitProgram)) ;;
     call (uniform1i (sourceTextureLocation blitProgram) 0) ;;
     call (uniform2f (scaleLocation blitProgram) f1 f1) ;;
     call (uniform2f (offsetLocation blitProgram) f0 f0) ;;
     call (uniform1i (multiplyAlphaLocation blitProgram) 0) ;;
     call (uniform1i (unMultiplyAlphaLocation blitProgram) 0) ;;
     call (bindVertexArray (mVAO b) 0) ;;
     call (drawArrays GL_TRIANGLES 0 3) ;;
     (* Copy the swizzled texture to the destination texture *)
     call (bindTexture textureType texture) ;;
     (if is3DTarget target
      then call (copyTexSubImage3D (ToGLenum target) (static_cast_GLint level)
                                   (gl.ox destOffset) (gl.oy destOffset) (gl.oz destOffset)
                                   0 0 (gl.width sourceArea) (gl.height sourceArea))
      else call (copyTexSubImage2D (ToGLenum target) (static_cast_GLint level)
                                   (gl.ox destOffset) (gl.oy destOffset)
                                   0 0 (gl.width sourceArea) (gl.height sourceArea))) ;;
     (* Finally orphan the scratch textures so they can be GCed by the driver. *)
     orphanScratchTextures).

Definition copyImageToLUMAWorkaroundTexture
           (context : Context) (texture : GLuint) (textureType : TextureType)
           (target : TextureTarget) (lumaFormat : GLenum) (level : Z)
           (sourceArea : gl.Rectangle) (internalFormat : GLenum) (source : Framebuffer)
  : M unit :=
  call (bindTexture textureType texture) ;;
  (* Allocate the texture memory *)
  let format := GetUnsizedFormat dev internalFormat in
  readType <- tryCall (getImplementationColorReadType (getFramebufferID source))
                  (color_read_type dev) ;;
  call (setPixelUnpackState defaultPixelUnpackState) ;;
  call (setPixelUnpackBuffer (getPixelUnpackBuffer context)) ;;
  call (texImage2D (ToGLenum target) (static_cast_GLint level) internalFormat
                   (gl.width sourceArea) (gl.height sourceArea) 0 format readType) ;;
  copySubImageToLUMAWorkaroundTexture context texture textureType target lumaFormat level
                                      (gl.mkOffset 0 0 0) sourceArea source.

(** *** Shader blit between framebuffers *)

(** The texture-coordinate offset and scale of the sampled area, with the
    reversals applied; [sourceArea] is already relative to the copied image. *)
Definition blitTexCoords (reverseX reverseY : bool) (sourceArea inBoundsSource : gl.Rectangle)
  : Vector2 * Vector2 :=
  let texCoordOffset :=
    mkVector2 (fdiv (float_of_int (gl.x sourceArea)) (float_of_int (gl.width inBoundsSource)))
              (fdiv (float_of_int (gl.y sourceArea)) (float_of_int (gl.height inBoundsSource))) in
  let texCoordScale :=
    mkVector2 (fdiv (float_of_int (gl.width sourceArea)) (float_of_int (gl.width inBoundsSource)))
              (fdiv (float_of_int (gl.height sourceArea)) (float_of_int (gl.height inBoundsSource))) in
  let '(texCoordOffset, texCoordScale) :=
    if reverseX
    then (mkVector2 (fadd (vx texCoordOffset) (vx texCoordScale)) (vy texCoordOffset),
          mkVector2 (fneg (vx texCoordScale)) (vy texCoordScale))
    else (texCoordOffset, texCoordScale) in
  if reverseY
  then (mkVector2 (vx texCoordOffset) (fadd (vy texCoordOffset) (vy texCoordScale)),
        mkVector2 (vx texCoordScale) (fneg (vy texCoordScale)))
  else (texCoordOffset, texCoordScale).

(** [reverseX] and [reverseY]: [!=] on the two rectangles' reversal. *)
Definition blitReversal (sourceAreaIn destAreaIn : gl.Rectangle) : bool * bool :=
  (xorb (gl.isReversedX sourceAreaIn) (gl.isReversedX destAreaIn),
   xorb (gl.isReversedY sourceAreaIn) (gl.isReversedY destAreaIn)).

Definition blitColorBufferWithShader
           (source dest : Framebuffer) (sourceAreaIn destAreaIn : gl.Rectangle)
           (filter : GLenum) : M unit :=
  initializeResources ;;
  blitProgram <- getBlitProgram FLOAT_TO_FLOAT ;;
  let '(reverseX, reverseY) := blitReversal sourceAreaIn destAreaIn in
  let sourceArea := gl.removeReversal sourceAreaIn in
  let destArea := gl.removeReversal destAreaIn in
  let readAttachment := getReadColorbuffer source in
  (* Compute the part of the source that will be sampled. *)
  let sourceSize := getSize readAttachment in
  let sourceBounds := gl.mkRectangle 0 0 (gl.ewidth sourceSize) (gl.eheight sourceSize) in
  match gl.ClipRectangle sourceArea sourceBounds with
  | None =>
      (* Early out when the sampled part is empty as the blit will be a noop,
         and it prevents a division by zero in later computations. *)
      ret tt
  | Some inBoundsSource =>
      b <- getSelf ;;
      let textureId := fst (mScratchTextures b) in
      let format := getFormat readAttachment in
      call (bindFramebuffer GL_READ_FRAMEBUFFER (getFramebufferID source)) ;;
      call (bindTexture TextureType_2D textureId) ;;
      call (copyTexImage2D GL_TEXTURE_2D 0 format
                           (gl.x inBoundsSource) (gl.y inBoundsSource)
                           (gl.width inBoundsSource) (gl.height inBoundsSource) 0) ;;
      (* Translate sourceArea to be relative to the copied image. *)
      let sourceArea :=
        gl.mkRectangle (gl.x sourceArea - gl.x inBoundsSource)
                       (gl.y sourceArea - gl.y inBoundsSource)
                       (gl.width sourceArea) (gl.height sourceArea) in
      setScratchTextureParameter GL_TEXTURE_MIN_FILTER filter ;;
      setScratchTextureParameter GL_TEXTURE_MAG_FILTER filter ;;
      setScratchTextureParameter GL_TEXTURE_WRAP_S GL_CLAMP_TO_EDGE ;;
      setScratchTextureParameter GL_TEXTURE_WRAP_T GL_CLAMP_TO_EDGE ;;
      let '(texCoordOffset, texCoordScale) :=
        blitTexCoords reverseX reverseY sourceArea inBoundsSource in
      withScopedGLState destArea KEEP_SCISSOR
        (willUseTextureUnit 0 ;;
         call (activeTexture 0) ;;
         call (bindTexture TextureType_2D textureId) ;;
         call (useProgram (program blitProgram)) ;;
         call (uniform1i (sourceTextureLocation blitProgram) 0) ;;
         call (uniform2f (scaleLocation blitProgram) (vx texCoordScale) (vy texCoordScale)) ;;
         call (uniform2f (offsetLocation blitProgram) (vx texCoordOffset) (vy texCoordOffset)) ;;
         call (uniform1i (multiplyAlphaLocation blitProgram) 0) ;;
         call (uniform1i (unMultiplyAlphaLocation blitProgram) 0) ;;
         call (bindFramebuffer GL_DRAW_FRAMEBUFFER (getFramebufferID dest)) ;;
         call (bindVertexArray (mVAO b) 0) ;;
         call (drawArrays GL_TRIANGLES 0 3))
  end.

(** *** Shader copy between textures *)

(** The swizzle applied to a LUMA-emulated source. *)
Definition lumaSwizzle (lumaFormat : GLenum) : list GLenum :=
  let luminance := if lumaFormat =? GL_ALPHA then GL_ZERO else GL_RED in
  let alpha :=
    if lumaFormat =? GL_LUMINANCE then GL_ONE
    else if lumaFormat =? GL_LUMINANCE_ALPHA then GL_GREEN
    else GL_RED in
  [luminance; luminance; luminance; alpha].

Definition copySubTextureCoords (sourceSize : gl.Extents) (sourceArea : gl.Rectangle)
           (unpackFlipY : bool) : Vector2 * Vector2 :=
  let scale :=
    mkVector2 (fdiv (float_of_int (gl.width sourceArea)) (float_of_int (gl.ewidth sourceSize)))
              (fdiv (float_of_int (gl.height sourceArea)) (float_of_int (gl.eheight sourceSize))) in
  let offset :=
    mkVector2 (fdiv (float_of_int (gl.x sourceArea)) (float_of_int (gl.ewidth sourceSize)))
              (fdiv (float_of_int (gl.y sourceArea)) (float_of_int (gl.eheight sourceSize))) in
  if unpackFlipY
  then (mkVector2 (vx scale) (fneg (vy scale)),
        mkVector2 (vx offset) (fadd (vy offset) (vy scale)))
  else (scale, offset).

Definition copySubTexture
           (context : Context) (source : TextureGL) (sourceLevel : Z)
           (sourceComponentType : GLenum) (dest : TextureGL) (destTarget : TextureTarget)
           (destLevel : Z) (destComponentType : GLenum) (sourceSize : gl.Extents)
           (sourceArea : gl.Rectangle) (destOffset : gl.Offset)
           (needsLumaWorkaround : bool) (lumaFormat : GLenum)
           (unpackFlipY unpackPremultiplyAlpha unpackUnmultiplyAlpha : bool)
  : M bool :=
  initializeResources ;;
  (* Make sure the destination texture can be rendered to before setting
     anything else up. *)
  b <- getSelf ;;
  call (bindFramebuffer GL_FRAMEBUFFER (mScratchFBO b)) ;;
  call (framebufferTexture2D GL_FRAMEBUFFER GL_COLOR_ATTACHMENT0 (ToGLenum destTarget)
                             (getTextureID dest) (static_cast_GLint destLevel)) ;;
  status <- ask (checkFramebufferStatus GL_FRAMEBUFFER) (framebuffer_status dev) ;;
  if negb (status =? GL_FRAMEBUFFER_COMPLETE)
  then ret false
  else
    let blitProgramType := getBlitProgramType sourceComponentType destComponentType in
    blitProgram <- getBlitProgram blitProgramType ;;
    (* Setup the source texture *)
    when needsLumaWorkaround
         (call (setSwizzle (getTextureID source) (lumaSwizzle lumaFormat))) ;;
    call (setMinFilter (getTextureID source) GL_NEAREST) ;;
    call (setMagFilter (getTextureID source) GL_NEAREST) ;;
    tryCall (setBaseLevel (getTextureID source) (static_cast_GLuint sourceLevel))
        (base_level_result dev) ;;
    (* Render to the destination texture, sampling from the source texture *)
    withScopedGLState
      (gl.mkRectangle (gl.ox destOffset) (gl.oy destOffset)
                      (gl.width sourceArea) (gl.height sourceArea)) 0
      (willUseTextureUnit 0 ;;
       call (activeTexture 0) ;;
       call (bindTexture TextureType_2D (getTextureID source)) ;;
       let '(scale, offset) := copySubTextureCoords sourceSize sourceArea unpackFlipY in
       call (useProgram (program blitProgram)) ;;
       call (uniform1i (sourceTextureLocation blitProgram) 0) ;;
       call (uniform2f (scaleLocation blitProgram) (vx scale) (vy scale)) ;;
       call (uniform2f (offsetLocation blitProgram) (vx offset) (vy offset)) ;;
       (if Bool.eqb unpackPremultiplyAlpha unpackUnmultiplyAlpha
        then call (uniform1i (multiplyAlphaLocation blitProgram) 0) ;;
             call (uniform1i (unMultiplyAlphaLocation blitProgram) 0)
        else call (uniform1i (multiplyAlphaLocation blitProgram)
                             (Z.b2z unpackPremultiplyAlpha)) ;;
             call (uniform1i (unMultiplyAlphaLocation blitProgram)
                             (Z.b2z unpackUnmultiplyAlpha))) ;;
       call (bindVertexArray (mVAO b) 0) ;;
       call (drawArrays GL_TRIANGLES 0 3) ;;
       ret true).

(** *** Native sub-image copy *)

Definition copyTexSubImage
           (source : TextureGL) (sourceLevel : Z) (dest : TextureGL)
           (destTarget : TextureTarget) (destLevel : Z)
           (sourceArea : gl.Rectangle) (destOffset : gl.Offset) : M bool :=
  initializeResources ;;
  b <- getSelf ;;
  call (bindFramebuffer GL_FRAMEBUFFER (mScratchFBO b)) ;;
  call (framebufferTexture2D GL_FRAMEBUFFER GL_COLOR_ATTACHMENT0 GL_TEXTURE_2D
                             (getTextureID source) (static_cast_GLint sourceLevel)) ;;
  status <- ask (checkFramebufferStatus GL_FRAMEBUFFER) (framebuffer_status dev) ;;
  if negb (status =? GL_FRAMEBUFFER_COMPLETE)
  then ret false
  else
    call (bindTexture (getType dest) (getTextureID dest)) ;;
    call (copyTexSubImage2D (ToGLenum destTarget) (static_cast_GLint destLevel)
                            (gl.ox destOffset) (gl.oy destOffset)
                            (gl.x sourceArea) (gl.y sourceArea)
                            (gl.width sourceArea) (gl.height sourceArea)) ;;
    ret true.

(** *** Clears *)

(** Attach with [attach], check, then clear, or unbind and leave the
    function with [false]: the block the three paths of
    [clearRenderableTexture] share.  [None] means "go on". *)
Definition attachCheckClear (bindTargets : list GLenum) (clearMask : GLbitfield)
           (attach : GLenum -> GLCall) : M (option bool) :=
  forEach bindTargets (fun bindTarget => call (attach bindTarget)) ;;
  status <- ask (checkFramebufferStatus GL_FRAMEBUFFER) (framebuffer_status dev) ;;
  if status =? GL_FRAMEBUFFER_COMPLETE
  then call (clear clearMask) ;; ret None
  else UnbindAttachments GL_FRAMEBUFFER bindTargets ;; ret (Some false).

(** The per-layer loop of [clearRenderableTexture]. *)
Definition clearLayers (source : TextureGL) (imageIndex : ImageIndex)
           (bindTargets : list GLenum) (clearMask : GLbitfield)
           (firstLayer layerCount : GLint) : M (option bool) :=
  forEachReturning (range layerCount) (fun layer =>
    attachCheckClear bindTargets clearMask (fun bindTarget =>
      framebufferTextureLayer GL_FRAMEBUFFER bindTarget (getTextureID source)
                              (getLevelIndex imageIndex) (layer + firstLayer))).

Definition clearRenderableTexture
           (source : TextureGL) (sizedInternalFormat : GLenum) (numTextureLayers : Z)
           (imageIndex : ImageIndex) : M bool :=
  initializeResources ;;
  prepared <- PrepareForClear sizedInternalFormat ;;
  let bindTargets := fst prepared in
  let clearMask := snd prepared in
  b <- getSelf ;;
  call (bindFramebuffer GL_FRAMEBUFFER (mScratchFBO b)) ;;
  returned <-
    (if UseTexImage2D (getType source)
     then
       attachCheckClear bindTargets clearMask (fun bindTarget =>
         framebufferTexture2D GL_FRAMEBUFFER bindTarget (ToGLenum (getTarget imageIndex))
                              (getTextureID source) (getLevelIndex imageIndex))
     else
       (* Check if it's possible to bind all layers of the texture at once *)
       if has_framebufferTexture dev && negb (hasLayer imageIndex)
       then
         attachCheckClear bindTargets clearMask (fun bindTarget =>
           framebufferTexture GL_FRAMEBUFFER bindTarget (getTextureID source)
                              (getLevelIndex imageIndex))
       else
         let firstLayer := if hasLayer imageIndex then getLayerIndex imageIndex else 0 in
         let layerCount :=
           if hasLayer imageIndex then getLayerCount imageIndex else numTextureLayers in
         clearLayers source imageIndex bindTargets clearMask firstLayer layerCount) ;;
  match returned with
  | Some r => ret r
  | None => UnbindAttachments GL_FRAMEBUFFER bindTargets ;; ret true
  end.

Definition clearRenderbuffer (renderbufferID : GLuint) (sizedInternalFormat : GLenum)
  : M unit :=
  initializeResources ;;
  prepared <- PrepareForClear sizedInternalFormat ;;
  let bindTargets := fst prepared in
  let clearMask := snd prepared in
  b <- getSelf ;;
  call (bindFramebuffer GL_FRAMEBUFFER (mScratchFBO b)) ;;
  forEach bindTargets (fun bindTarget =>
    call (framebufferRenderbuffer GL_FRAMEBUFFER bindTarget GL_RENDERBUFFER renderbufferID)) ;;
  call (clear clearMask) ;;
  forEach bindTargets (fun bindTarget =>
    call (framebufferRenderbuffer GL_FRAMEBUFFER bindTarget GL_RENDERBUFFER 0)).

Definition clearFramebuffer (framebufferID : GLuint) : M unit :=
  clearMask <- SetClearState true true true ;;
  call (bindFramebuffer GL_FRAMEBUFFER framebufferID) ;;
  call (clear clearMask).

End Methods.

(** ** Reading a call log *)

(** Copy and draw commands. *)
Definition isCopyOrDraw (c : GLCall) : bool :=
  match c with
  | copyTexImage2D _ _ _ _ _ _ _ _
  | copyTexSubImage2D _ _ _ _ _ _ _ _
  | copyTexSubImage3D _ _ _ _ _ _ _ _ _
  | drawArrays _ _ _ => true
  | _ => false
  end.

(** Calls that build a program. *)
Definition isProgramBuild (c : GLCall) : bool :=
  match c with
  | createProgram | createShader _ | shaderSource _ _ | compileShader _
  | getShaderiv _ _ | attachShader _ _ | deleteShader _ | linkProgram _
  | getProgramiv _ _ | getUniformLocation _ _ => true
  | _ => false
  end.

(** Calls that change the state of the source [TextureGL]. *)
Definition isSourceTextureState (c : GLCall) : bool :=
  match c with
  | setSwizzle _ _ | setMinFilter _ _ | setMagFilter _ _ | setBaseLevel _ _ => true
  | _ => false
  end.

Definition isDraw (c : GLCall) : bool :=
  match c with drawArrays _ _ _ => true | _ => false end.

(** Calls [initializeResources] may make. *)
Definition isResourceSetup (c : GLCall) : bool :=
  match c with
  | genTextures | genFramebuffers | genBuffers | genVertexArrays
  | bindBuffer _ _ | bufferData _ _ _ _ | bindVertexArray _ _ | getIntegerv _
  | enableVertexAttribArray _ | vertexAttribPointer _ _ _ _ _ => true
  | _ => false
  end.

(** Calls [SetClearState] may make. *)
Definition isClearState (c : GLCall) : bool :=
  match c with
  | setClearColor _ _ _ _ | setColorMask _ _ _ _ | setDepthMask _ | setClearDepth _
  | setClearStencil _ | setScissorTestEnabled _ => true
  | _ => false
  end.

(** The layers that received a clear: each [clear] is charged to the layer
    most recently attached with [framebufferTextureLayer]. *)
Fixpoint clearedLayersFrom (attached : option GLint) (l : list GLCall) : list GLint :=
  match l with
  | [] => []
  | framebufferTextureLayer _ _ _ _ layer :: l' => clearedLayersFrom (Some layer) l'
  | clear _ :: l' =>
      match attached with
      | Some layer => layer :: clearedLayersFrom attached l'
      | None => clearedLayersFrom attached l'
      end
  | _ :: l' => clearedLayersFrom attached l'
  end.

Definition clearedLayers (l : list GLCall) : list GLint := clearedLayersFrom None l.

(** The layers ever attached. *)
Fixpoint attachedLayers (l : list GLCall) : list GLint :=
  match l with
  | [] => []
  | framebufferTextureLayer _ _ _ _ layer :: l' => layer :: attachedLayers l'
  | _ :: l' => attachedLayers l'
  end.

(** *** The render state the [StateManagerGL] calls of the guard address *)

Record RenderState := mkRenderState {
  scissorTest : bool;
  viewport : gl.Rectangle;
  depthRange : float * float;
  blend : bool;
  colorMask : bool * bool * bool * bool;
  sampleAlphaToCoverage : bool;
  sampleCoverage : bool;
  depthTest : bool;
  stencilTest : bool;
  cullFace : bool;
  polygonOffsetFill : bool;
  rasterizerDiscard : bool;
  transformFeedbackPaused : bool;
  queriesPaused : bool
}.

Definition applyCall (c : GLCall) (s : RenderState) : RenderState :=
  match s with
  | mkRenderState sc vp dr bl cm sa sv dt st cf po rd tf qp =>
      match c with
      | setScissorTestEnabled e => mkRenderState e vp dr bl cm sa sv dt st cf po rd tf qp
      | setViewport v => mkRenderState sc v dr bl cm sa sv dt st cf po rd tf qp
      | setDepthRange n f => mkRenderState sc vp (n, f) bl cm sa sv dt st cf po rd tf qp
      | setBlendEnabled e => mkRenderState sc vp dr e cm sa sv dt st cf po rd tf qp
      | setColorMask r g b a => mkRenderState sc vp dr bl (r, g, b, a) sa sv dt st cf po rd tf qp
      | setSampleAlphaToCoverageEnabled e =>
          mkRenderState sc vp dr bl cm e sv dt st cf po rd tf qp
      | setSampleCoverageEnabled e => mkRenderState sc vp dr bl cm sa e dt st cf po rd tf qp
      | setDepthTestEnabled e => mkRenderState sc vp dr bl cm sa sv e st cf po rd tf qp
      | setStencilTestEnabled e => mkRenderState sc vp dr bl cm sa sv dt e cf po rd tf qp
      | setCullFaceEnabled e => mkRenderState sc vp dr bl cm sa sv dt st e po rd tf qp
      | setPolygonOffsetFillEnabled e => mkRenderState sc vp dr bl cm sa sv dt st cf e rd tf qp
      | setRasterizerDiscardEnabled e => mkRenderState sc vp dr bl cm sa sv dt st cf po e tf qp
      | pauseTransformFeedback => mkRenderState sc vp dr bl cm sa sv dt st cf po rd true qp
      | pauseAllQueries => mkRenderState sc vp dr bl cm sa sv dt st cf po rd tf true
      | resumeAllQueries => mkRenderState sc vp dr bl cm sa sv dt st cf po rd tf false
      | _ => s
      end
  end.

Definition stateAfter (l : list GLCall) (s : RenderState) : RenderState :=
  fold_left (fun s c => applyCall c s) l s.

Definition touchesRenderState (c : GLCall) : bool :=
  match c with
  | setScissorTestEnabled _ | setViewport _ | setDepthRange _ _ | setBlendEnabled _
  | setColorMask _ _ _ _ | setSampleAlphaToCoverageEnabled _ | setSampleCoverageEnabled _
  | setDepthTestEnabled _ | setStencilTestEnabled _ | setCullFaceEnabled _
  | setPolygonOffsetFillEnabled _ | setRasterizerDiscardEnabled _
  | pauseTransformFeedback | pauseAllQueries | resumeAllQueries => true
  | _ => false
  end.

(** The state in which a closed guard leaves the device: what the
    constructor forced, with the queries resumed. *)
Definition guardedState (viewport : gl.Rectangle) (keepState : Z) (s : RenderState)
  : RenderState :=
  mkRenderState (if Z.land keepState 1 =? 0 then false else scissorTest s)
                viewport (f0, f1) false (true, true, true, true)
                false false false false false false false true false.

(** *** Texture storage: the size of each level of each texture, as the
    allocation calls on [GL_TEXTURE_2D] leave it *)

Record TextureStore := mkTextureStore {
  activeUnit : GLuint;
  bound2D : GLuint -> GLuint;                 (* unit -> texture bound to 2D *)
  levelSize : GLuint -> GLint -> Z * Z        (* texture -> level -> (w, h) *)
}.

Definition update {V} (m : Z -> V) (k : Z) (v : V) : Z -> V :=
  fun k' => if k' =? k then v else m k'.

Definition allocate (st : TextureStore) (level : GLint) (size : Z * Z) : TextureStore :=
  let texture := bound2D st (activeUnit st) in
  mkTextureStore (activeUnit st) (bound2D st)
                 (update (levelSize st) texture (update (levelSize st texture) level size)).

Definition storeCall (c : GLCall) (st : TextureStore) : TextureStore :=
  match c with
  | activeTexture u => mkTextureStore u (bound2D st) (levelSize st)
  | bindTexture TextureType_2D t =>
      mkTextureStore (activeUnit st) (update (bound2D st) (activeUnit st) t) (levelSize st)
  | texImage2D target level _ w h _ _ _ =>
      if target =? GL_TEXTURE_2D then allocate st level (w, h) else st
  | copyTexImage2D target level _ _ _ w h _ =>
      if target =? GL_TEXTURE_2D then allocate st level (w, h) else st
  | _ => st
  end.

Definition storeAfter (l : list GLCall) (st : TextureStore) : TextureStore :=
  fold_left (fun st c => storeCall c st) l st.

Definition emptyStore : TextureStore :=
  mkTextureStore 0 (fun _ => 0) (fun _ _ => (0, 0)).

(** A texture is orphaned when its base level has no extent. *)
Definition orphaned (st : TextureStore) (texture : GLuint) : bool :=
  let '(w, h) := levelSize st texture 0 in (w =? 0) && (h =? 0).

(** ** What the alpha block of the fragment shader computes

    [color] is a [vec4] in the two FLOAT variants and a [uvec4] in
    UINT_TO_UINT; the block reads
<<
    if (u_multiply_alpha)                      { color.xyz = color.xyz * color.a; }
    if (u_unmultiply_alpha && color.a != 0.0)  { color.xyz = color.xyz / color.a; }
>>
    The evaluation below also reports every divisor a division was run with. *)




Record Color (T : Type) := mkColor { cr : T; cg : T; cb : T; ca : T }.
Arguments mkColor {T} _ _ _ _.
Arguments cr {T} _.
Arguments cg {T} _.
Arguments cb {T} _.
Arguments ca {T} _.




(** The number of places at which [pat] occurs in [s]. *)
Fixpoint occurrences (pat s : string) : nat :=
  match s with
  | EmptyString => if string_empty pat then 1%nat else 0%nat
  | String _ s' => ((if prefix pat s then 1 else 0) + occurrences pat s')%nat
  end.

(** ** Vocabulary of the statements *)

(** The calls a computation makes are appended to the log, and all satisfy [p]. *)
Definition issues {A} (p : GLCall -> bool) (m : M A) : Prop :=
  forall w, exists l, calls (snd (m w)) = calls w ++ l /\ forallb p l = true.

(** The computation returns a value, never an error. *)
Definition succeeds {A} (m : M A) : Prop :=
  forall w, exists a, fst (m w) = Ok a.

(** The effect on the render state of the calls a computation makes. *)
Definition transforms {A} (m : M A) (R : RenderState -> RenderState -> Prop) : Prop :=
  forall w, exists l, calls (snd (m w)) = calls w ++ l /\ forall s, R s (stateAfter l s).

(** The device on which the generated shaders compile and link, which
    [CheckCompileStatus] and [CheckLinkStatus] assert. *)
Definition shadersCompile (dev : Device) : Prop :=
  forall l, shader_status dev l <> GL_FALSE /\ program_status dev l <> GL_FALSE.

(** The mask [SetClearState] leaves in [*outClearMask] under [PrepareForClear]. *)
Definition clearMaskOf (f : InternalFormat) : GLbitfield :=
  Z.lor (Z.lor (Z.lor 0 (if bindColor f then GL_COLOR_BUFFER_BIT else 0))
               (if bindDepth f then GL_DEPTH_BUFFER_BIT else 0))
        (if bindStencil f then GL_STENCIL_BUFFER_BIT else 0).

Definition isFloatComponentType (componentType : GLenum) : bool :=
  negb (componentType =? GL_UNSIGNED_INT) && negb (componentType =? GL_INT).

(** The calls that attach one layer to every bind target. *)
Definition attachLayer (source : TextureGL) (imageIndex : ImageIndex)
           (bindTargets : list GLenum) (layer : GLint) : list GLCall :=
  map (fun bindTarget =>
         framebufferTextureLayer GL_FRAMEBUFFER bindTarget (getTextureID source)
                                 (getLevelIndex imageIndex) layer)
      bindTargets.

Definition unbindCalls (bindTargets : list GLenum) : list GLCall :=
  map (fun bindTarget => framebufferRenderbuffer GL_FRAMEBUFFER bindTarget GL_RENDERBUFFER 0)
      bindTargets.

(** The allocation step of [copyImageToLUMAWorkaroundTexture], on its own:
    the destination level gets storage of the source area's size, typed with
    the framebuffer's implementation read type. *)
Definition allocateLevelStorage (dev : Device) (context : Context) (texture : GLuint)
           (textureType : TextureType) (target : TextureTarget) (level : Z)
           (sourceArea : gl.Rectangle) (internalFormat : GLenum) (source : Framebuffer)
  : M unit :=
  call (bindTexture textureType texture) ;;
  readType <- tryCall (getImplementationColorReadType (getFramebufferID source))
                  (color_read_type dev) ;;
  call (setPixelUnpackState defaultPixelUnpackState) ;;
  call (setPixelUnpackBuffer (getPixelUnpackBuffer context)) ;;
  call (texImage2D (ToGLenum target) (static_cast_GLint level) internalFormat
                   (gl.width sourceArea) (gl.height sourceArea) 0
                   (GetUnsizedFormat dev internalFormat) readType).

(** The calls of the [ScopedGLState] constructor, in order. *)
Definition guardCalls (viewport : gl.Rectangle) (keepState : Z) : list GLCall :=
  (if Z.land keepState KEEP_SCISSOR =? 0 then [setScissorTestEnabled false] else [])
  ++ [ setViewport viewport; setDepthRange f0 f1; setBlendEnabled false;
       setColorMask true true true true; setSampleAlphaToCoverageEnabled false;
       setSampleCoverageEnabled false; setDepthTestEnabled false;
       setStencilTestEnabled false; setCullFaceEnabled false;
       setPolygonOffsetFillEnabled false; setRasterizerDiscardEnabled false;
       pauseTransformFeedback; pauseAllQueries ].

(** Neither a program build, nor a change of the source texture, nor a draw. *)
Definition isBeforeCopy (c : GLCall) : bool :=
  negb (isProgramBuild c || isSourceTextureState c || isDraw c).

(** The attachment of the destination and the completeness check that open
    [copySubTexture]. *)
Definition destinationCheck (scratchFBO : GLuint) (dest : TextureGL)
           (destTarget : TextureTarget) (destLevel : Z) : list GLCall :=
  [ bindFramebuffer GL_FRAMEBUFFER scratchFBO;
    framebufferTexture2D GL_FRAMEBUFFER GL_COLOR_ATTACHMENT0 (ToGLenum destTarget)
                         (getTextureID dest) (static_cast_GLint destLevel);
    checkFramebufferStatus GL_FRAMEBUFFER ].

Definition anyCall (c : GLCall) : bool := true.

(** Neither a clear nor the attachment of a layer. *)
Definition isQuiet (c : GLCall) : bool :=
  match c with
  | clear _ | framebufferTextureLayer _ _ _ _ _ => false
  | _ => true
  end.

(** The calls with which [clearRenderableTexture] handles one layer, up to
    the completeness check. *)
Definition layerStep (source : TextureGL) (imageIndex : ImageIndex)
           (bindTargets : list GLenum) (layer : GLint) : list GLCall :=
  attachLayer source imageIndex bindTargets layer ++ [checkFramebufferStatus GL_FRAMEBUFFER].

(** The component type of [color] in each variant ([samplerResultType]). *)
Definition sampledScalar (type : BlitProgramType) : Type :=
  match type with
  | FLOAT_TO_FLOAT | FLOAT_TO_UINT => float
  | UINT_TO_UINT => Z
  end.


(** The component is exactly zero (of either sign, for a float). *)
Definition exactZero (type : BlitProgramType) : sampledScalar type -> Prop :=
  match type with
  | FLOAT_TO_FLOAT | FLOAT_TO_UINT => fun v : float => exists s, v = S754_zero s
  | UINT_TO_UINT => fun v : Z => v = 0
  end.

(** A call that leaves the render state alone. *)
Definition isNeutral (c : GLCall) : bool := negb (touchesRenderState c).

(** Whether a result is a success, and whether it is the value [true]. *)
Definition returnedOk {A} (r : Result A) : bool :=
  match r with Ok _ => true | Failed _ => false end.

Definition returnedTrue (r : Result bool) : bool :=
  match r with Ok true => true | _ => false end.

(** What an operation that may open the guard on [viewport] with [keepState]
    does to the render state; [opened] tells from the result whether the
    guard was opened.  If it was, the calls made are: calls that leave the
    render state alone, the constructor's calls, the calls of the guarded
    block, which leave the render state alone, and the destructor's
    [resumeAllQueries]; whatever the state before, the state after is the
    one the constructor forced, with the queries resumed.  If it was not, no
    call made touches the render state. *)
Definition guardOutcome {A} (opened : Result A -> bool) (viewport : gl.Rectangle)
           (keepState : Z) (m : M A) : Prop :=
  forall w,
    exists issued,
      calls (snd (m w)) = calls w ++ issued
      /\ if opened (fst (m w))
         then (exists before body,
                  issued = before ++ guardCalls viewport keepState ++ body
                           ++ [resumeAllQueries]
                  /\ forallb isNeutral before = true
                  /\ forallb isNeutral body = true)
              /\ forall s, stateAfter issued s = guardedState viewport keepState s
         else forallb isNeutral issued = true.

(** The calls of [orphanScratchTextures]. *)
Definition orphanCalls (b : BlitGL) : list GLCall :=
  flat_map (fun texture =>
              [ bindTexture TextureType_2D texture;
                setPixelUnpackState defaultPixelUnpackState;
                setPixelUnpackBuffer None;
                texImage2D GL_TEXTURE_2D 0 GL_RGBA 0 0 0 GL_RGBA GL_UNSIGNED_BYTE ])
           (scratchTextures b).

(** When the computation succeeds, its log ends with [tail]. *)
Definition endsWith {A} (tail : BlitGL -> list GLCall) (m : M A) : Prop :=
  forall w a w', m w = (Ok a, w') -> exists before, calls w' = before ++ tail (self w').

(** The calls of the prologue shared by the shader operations: scratch
    resources and program build. *)
Definition isPrologue (c : GLCall) : bool := isResourceSetup c || isProgramBuild c.

(** The uniforms that carry the texture-coordinate scale and offset. *)
Definition isCoordUniform (c : GLCall) : bool :=
  match c with uniform2f _ _ _ => true | _ => false end.

(** Calls that give a texture level its storage. *)
Definition isAllocation (c : GLCall) : bool :=
  match c with
  | texImage2D _ _ _ _ _ _ _ _ | copyTexImage2D _ _ _ _ _ _ _ _ => true
  | _ => false
  end.

(** ** The fragment shader, read back from its text

    The text [getBlitProgram] hands to the driver is split into tokens and
    the body of [main] is parsed into statements; the statements are then
    run on the values of one fragment.  The language covered is what the
    generated text uses: [if] with a braced body, [discard], declarations
    with an initializer, assignments to a variable or to its components,
    and expressions built from variables, literals, component selection,
    calls, [*], [/], [==], [!=] and [&&]. *)

Inductive Token :=
| TIdent (name : string)
| TNumber (digits : string)
| TPunct (symbol : string).

Inductive LexMode := LexSkip | LexWord | LexNumber | LexPending | LexDirective.

Definition isLetter (c : ascii) : bool :=
  let n := nat_of_ascii c in
  ((65 <=? n) && (n <=? 90) || (97 <=? n) && (n <=? 122) || (n =? 95))%nat.

Definition isDigit (c : ascii) : bool :=
  let n := nat_of_ascii c in ((48 <=? n) && (n <=? 57))%nat.

Definition isSpace (c : ascii) : bool :=
  let n := nat_of_ascii c in ((n =? 32) || (n =? 10) || (n =? 9) || (n =? 13))%nat.

Definition isNewline (c : ascii) : bool := (nat_of_ascii c =? 10)%nat.

(** The characters that may open a two-character operator, and those
    operators. *)
Definition startsOperator (c : ascii) : bool :=
  existsb (Ascii.eqb c) ["!"; "&"; "="; "|"; "<"; ">"]%char.

Definition isOperator2 (s : string) : bool :=
  existsb (String.eqb s) ["!="; "&&"; "=="; "||"; "<="; ">="].

Definition lexStart (c : ascii) : list Token * LexMode * string :=
  if isSpace c then ([], LexSkip, "")
  else if Ascii.eqb c "#" then ([], LexDirective, "")
  else if isLetter c then ([], LexWord, String c "")
  else if isDigit c then ([], LexNumber, String c "")
  else if startsOperator c then ([], LexPending, String c "")
  else ([TPunct (String c "")], LexSkip, "").

Definition lexFlush (mode : LexMode) (acc : string) : list Token :=
  match mode with
  | LexWord => [TIdent acc]
  | LexNumber => [TNumber acc]
  | LexPending => [TPunct acc]
  | LexSkip | LexDirective => []
  end.

(** A preprocessor line ([#version ...]) is dropped up to its newline. *)
Fixpoint lexFrom (mode : LexMode) (acc : string) (s : string) : list Token :=
  match s with
  | EmptyString => lexFlush mode acc
  | String c s' =>
      let extended := (acc ++ String c "")%string in
      let extends :=
        match mode with
        | LexDirective => true
        | LexWord => isLetter c || isDigit c
        | LexNumber => isDigit c || Ascii.eqb c "."
        | LexPending => isOperator2 extended
        | LexSkip => false
        end in
      if extends
      then match mode with
           | LexDirective =>
               if isNewline c then lexFrom LexSkip "" s' else lexFrom LexDirective "" s'
           | LexPending => TPunct extended :: lexFrom LexSkip "" s'
           | _ => lexFrom mode extended s'
           end
      else let '(emitted, mode', acc') := lexStart c in
           lexFlush mode acc ++ emitted ++ lexFrom mode' acc' s'
  end.

Definition tokens (source : string) : list Token := lexFrom LexSkip "" source.

Inductive BinOp := OpMul | OpDiv | OpEq | OpNeq | OpAnd.

#[warnings="-register-all"]
Inductive Expr :=
| EVar (name : string)
| ENum (literal : string)
| EField (e : Expr) (field : string)
| ECall (function : string) (args : list Expr)
| EBin (op : BinOp) (lhs rhs : Expr).

#[warnings="-register-all"]
Inductive Stmt :=
| SIf (cond : Expr) (body : list Stmt)
| SDiscard
| SDecl (type name : string) (init : Expr)
| SAssign (target value : Expr).

(** The binary operators by precedence level, loosest first. *)
Definition binOpAt (level : nat) (symbol : string) : option BinOp :=
  match level with
  | 0%nat => if String.eqb symbol "&&" then Some OpAnd else None
  | 1%nat =>
      if String.eqb symbol "!=" then Some OpNeq
      else if String.eqb symbol "==" then Some OpEq else None
  | 2%nat =>
      if String.eqb symbol "*" then Some OpMul
      else if String.eqb symbol "/" then Some OpDiv else None
  | _ => None
  end.

Definition expect (symbol : string) (ts : list Token) : option (list Token) :=
  match ts with
  | TPunct s :: ts' => if String.eqb s symbol then Some ts' else None
  | _ => None
  end.

(** [e.x.y ...] *)
Fixpoint parseFields (e : Expr) (ts : list Token) : Expr * list Token :=
  match ts with
  | TPunct s :: ((TIdent field :: ts') as rest) =>
      if String.eqb s "." then parseFields (EField e field) ts' else (e, ts)
  | _ => (e, ts)
  end.

Fixpoint parseExpr (fuel level : nat) (ts : list Token) {struct fuel}
  : option (Expr * list Token) :=
  match fuel with
  | O => None
  | S fuel' =>
      match level with
      | 0%nat | 1%nat | 2%nat =>
          match parseExpr fuel' (S level) ts with
          | Some (lhs, ts1) => parseOperands fuel' level lhs ts1
          | None => None
          end
      | _ =>
          match parsePrimary fuel' ts with
          | Some (e, ts1) => Some (parseFields e ts1)
          | None => None
          end
      end
  end
with parseOperands (fuel level : nat) (lhs : Expr) (ts : list Token) {struct fuel}
  : option (Expr * list Token) :=
  match fuel with
  | O => None
  | S fuel' =>
      match ts with
      | TPunct symbol :: ts1 =>
          match binOpAt level symbol with
          | Some op =>
              match parseExpr fuel' (S level) ts1 with
              | Some (rhs, ts2) => parseOperands fuel' level (EBin op lhs rhs) ts2
              | None => None
              end
          | None => Some (lhs, ts)
          end
      | _ => Some (lhs, ts)
      end
  end
with parsePrimary (fuel : nat) (ts : list Token) {struct fuel}
  : option (Expr * list Token) :=
  match fuel with
  | O => None
  | S fuel' =>
      match ts with
      | TNumber n :: ts1 => Some (ENum n, ts1)
      | TIdent x :: ts1 =>
          match expect "(" ts1 with
          | Some ts2 =>
              match parseArgs fuel' ts2 with
              | Some (args, ts3) => Some (ECall x args, ts3)
              | None => None
              end
          | None => Some (EVar x, ts1)
          end
      | TPunct s :: ts1 =>
          if String.eqb s "("
          then match parseExpr fuel' 0 ts1 with
               | Some (e, ts2) =>
                   match expect ")" ts2 with
                   | Some ts3 => Some (e, ts3)
                   | None => None
                   end
               | None => None
               end
          else None
      | [] => None
      end
  end
with parseArgs (fuel : nat) (ts : list Token) {struct fuel}
  : option (list Expr * list Token) :=
  match fuel with
  | O => None
  | S fuel' =>
      match expect ")" ts with
      | Some ts1 => Some ([], ts1)
      | None =>
          match parseExpr fuel' 0 ts with
          | Some (e, ts1) =>
              match expect "," ts1 with
              | Some ts2 =>
                  match parseArgs fuel' ts2 with
                  | Some (es, ts3) => Some (e :: es, ts3)
                  | None => None
                  end
              | None =>
                  match expect ")" ts1 with
                  | Some ts2 => Some ([e], ts2)
                  | None => None
                  end
              end
          | None => None
          end
      end
  end.

Definition parseAssigned (fuel : nat) (ts : list Token) : option (Expr * list Token) :=
  match expect "=" ts with
  | Some ts1 =>
      match parseExpr fuel 0 ts1 with
      | Some (e, ts2) =>
          match expect ";" ts2 with
          | Some ts3 => Some (e, ts3)
          | None => None
          end
      | None => None
      end
  | None => None
  end.

Fixpoint parseStmt (fuel : nat) (ts : list Token) {struct fuel}
  : option (Stmt * list Token) :=
  match fuel with
  | O => None
  | S fuel' =>
      match ts with
      | TIdent word :: ts1 =>
          if String.eqb word "if"
          then match expect "(" ts1 with
               | Some ts2 =>
                   match parseExpr fuel' 0 ts2 with
                   | Some (cond, ts3) =>
                       match expect ")" ts3 with
                       | Some ts4 =>
                           match expect "{" ts4 with
                           | Some ts5 =>
                               match parseStmts fuel' ts5 with
                               | Some (body, ts6) => Some (SIf cond body, ts6)
                               | None => None
                               end
                           | None => None
                           end
                       | None => None
                       end
                   | None => None
                   end
               | None => None
               end
          else if String.eqb word "discard"
          then match expect ";" ts1 with
               | Some ts2 => Some (SDiscard, ts2)
               | None => None
               end
          else match ts1 with
               | TIdent name :: ts2 =>
                   match parseAssigned fuel' ts2 with
                   | Some (init, ts3) => Some (SDecl word name init, ts3)
                   | None => None
                   end
               | _ =>
                   let '(target, ts2) := parseFields (EVar word) ts1 in
                   match parseAssigned fuel' ts2 with
                   | Some (value, ts3) => Some (SAssign target value, ts3)
                   | None => None
                   end
               end
      | _ => None
      end
  end
with parseStmts (fuel : nat) (ts : list Token) {struct fuel}
  : option (list Stmt * list Token) :=
  match fuel with
  | O => None
  | S fuel' =>
      match expect "}" ts with
      | Some ts1 => Some ([], ts1)
      | None =>
          match parseStmt fuel' ts with
          | Some (s, ts1) =>
              match parseStmts fuel' ts1 with
              | Some (rest, ts2) => Some (s :: rest, ts2)
              | None => None
              end
          | None => None
          end
      end
  end.

(** The tokens of the body of [main], after its opening brace. *)
Fixpoint afterMainHeader (ts : list Token) : option (list Token) :=
  match ts with
  | [] => None
  | TIdent a :: ((TIdent b :: TPunct c :: TPunct d :: TPunct e :: body) as rest) =>
      if String.eqb a "void" && String.eqb b "main" && String.eqb c "("
         && String.eqb d ")" && String.eqb e "{"
      then Some body
      else afterMainHeader rest
  | _ :: rest => afterMainHeader rest
  end.

(** The statements of [main]; nothing may follow its closing brace. *)
Definition parseMain (source : string) : option (list Stmt) :=
  match afterMainHeader (tokens source) with
  | Some body =>
      match parseStmts (8 * List.length body + 8) body with
      | Some (statements, []) => Some statements
      | _ => None
      end
  | None => None
  end.


(** *** Running the statements on one fragment

    A value is a boolean, a [float], a [uint], a vector of either, or a
    sampler, which stands for the texel it returns at the fragment's
    coordinates.  The evaluation is dynamically typed: what it cannot
    evaluate makes the run [Stuck], it rejects nothing a compiler would.
    Every scalar division run is reported with its divisor. *)

Inductive Value :=
| VBool (b : bool)
| VFloat (x : float)
| VUint (n : Z)
| VVec (xs : list float)
| VUvec (ns : list Z)
| VSampler (texel : Value).

Definition Env := list (string * Value).

Fixpoint lookupVar (x : string) (env : Env) : option Value :=
  match env with
  | [] => None
  | (y, v) :: env' => if String.eqb x y then Some v else lookupVar x env'
  end.

(** An assignment changes the innermost binding of a declared variable. *)
Fixpoint assignVar (x : string) (v : Value) (env : Env) : option Env :=
  match env with
  | [] => None
  | (y, w) :: env' =>
      if String.eqb x y then Some ((y, v) :: env')
      else match assignVar x v env' with
           | Some env'' => Some ((y, w) :: env'')
           | None => None
           end
  end.

Definition fltb : float -> float -> bool := SFltb.

(** [max], [min] and [clamp] of GLSL: [max(x, y)] is [y] if [x < y], else [x]. *)
Definition fmax (x y : float) : float := if fltb x y then y else x.
Definition fmin (x y : float) : float := if fltb y x then y else x.
Definition fclamp (x lo hi : float) : float := fmin (fmax x lo) hi.

(** A literal with a zero fractional part, as a [float]. *)
Fixpoint digitsValue (acc : Z) (s : string) : option Z :=
  match s with
  | EmptyString => Some acc
  | String c s' =>
      if isDigit c
      then digitsValue (10 * acc + Z.of_nat (nat_of_ascii c - 48)) s'
      else None
  end.

Fixpoint allZeros (s : string) : bool :=
  match s with
  | EmptyString => true
  | String c s' => Ascii.eqb c "0" && allZeros s'
  end.

Fixpoint splitAtDot (s : string) : string * option string :=
  match s with
  | EmptyString => (EmptyString, None)
  | String c s' =>
      if Ascii.eqb c "."
      then (EmptyString, Some s')
      else let '(whole, fraction) := splitAtDot s' in (String c whole, fraction)
  end.

Definition literal (s : string) : option float :=
  match splitAtDot s with
  | (whole, Some fraction) =>
      if allZeros fraction
      then match digitsValue 0 whole with
           | Some i => Some (float_of_int i)
           | None => None
           end
      else None
  | (_, None) => None
  end.

(** Component selection: [x y z w], [r g b a] and [s t p q] name the
    components 0 to 3. *)
Definition componentIndex (c : ascii) : option nat :=
  if existsb (Ascii.eqb c) ["x"; "r"; "s"]%char then Some 0%nat
  else if existsb (Ascii.eqb c) ["y"; "g"; "t"]%char then Some 1%nat
  else if existsb (Ascii.eqb c) ["z"; "b"; "p"]%char then Some 2%nat
  else if existsb (Ascii.eqb c) ["w"; "a"; "q"]%char then Some 3%nat
  else None.

Fixpoint componentIndices (field : string) : option (list nat) :=
  match field with
  | EmptyString => Some []
  | String c field' =>
      match componentIndex c, componentIndices field' with
      | Some i, Some more => Some (i :: more)
      | _, _ => None
      end
  end.

Fixpoint selectAll {A} (xs : list A) (indices : list nat) : option (list A) :=
  match indices with
  | [] => Some []
  | i :: indices' =>
      match nth_error xs i, selectAll xs indices' with
      | Some x, Some rest => Some (x :: rest)
      | _, _ => None
      end
  end.

Fixpoint setNth {A} (xs : list A) (i : nat) (v : A) : option (list A) :=
  match xs, i with
  | [], _ => None
  | _ :: xs', O => Some (v :: xs')
  | x :: xs', S i' =>
      match setNth xs' i' v with
      | Some r => Some (x :: r)
      | None => None
      end
  end.

Fixpoint setAll {A} (xs : list A) (indices : list nat) (vs : list A) : option (list A) :=
  match indices, vs with
  | [], [] => Some xs
  | i :: indices', v :: vs' =>
      match setNth xs i v with
      | Some xs' => setAll xs' indices' vs'
      | None => None
      end
  | _, _ => None
  end.

Definition selected {A} (scalar : A -> Value) (vector : list A -> Value) (xs : list A)
           (field : string) : option Value :=
  match componentIndices field with
  | Some indices =>
      match selectAll xs indices with
      | Some [x] => Some (scalar x)
      | Some (x :: y :: more) => Some (vector (x :: y :: more))
      | _ => None
      end
  | None => None
  end.

Definition evalField (v : Value) (field : string) : option Value :=
  match v with
  | VVec xs => selected VFloat VVec xs field
  | VUvec ns => selected VUint VUvec ns field
  | _ => None
  end.

(** The components [field] of [old] replaced by [new]. *)
Definition storeField (old : Value) (field : string) (new : Value) : option Value :=
  match componentIndices field with
  | Some indices =>
      match old, new with
      | VVec xs, VFloat x => option_map VVec (setAll xs indices [x])
      | VVec xs, VVec ys => option_map VVec (setAll xs indices ys)
      | VUvec ns, VUint n => option_map VUvec (setAll ns indices [n])
      | VUvec ns, VUvec ms => option_map VUvec (setAll ns indices ms)
      | _, _ => None
      end
  | None => None
  end.

Fixpoint zipWith {A} (f : A -> A -> A) (xs ys : list A) : option (list A) :=
  match xs, ys with
  | [], [] => Some []
  | x :: xs', y :: ys' => option_map (cons (f x y)) (zipWith f xs' ys')
  | _, _ => None
  end.

Fixpoint allEqual {A} (eqb : A -> A -> bool) (xs ys : list A) : option bool :=
  match xs, ys with
  | [], [] => Some true
  | x :: xs', y :: ys' => option_map (andb (eqb x y)) (allEqual eqb xs' ys')
  | _, _ => None
  end.

Definition uint_mul (a b : Z) : Z := (a * b) mod 2 ^ 32.
Definition uint_div (a b : Z) : Z := a / b.

(** [a == b].  A [uint] compared with a [float] is converted to [float]
    first (the implicit conversion of desktop GLSL). *)
Definition evalEq (a b : Value) : option bool :=
  match a, b with
  | VBool x, VBool y => Some (Bool.eqb x y)
  | VFloat x, VFloat y => Some (feqb x y)
  | VUint x, VUint y => Some (x =? y)
  | VUint x, VFloat y => Some (feqb (float_of_int x) y)
  | VFloat x, VUint y => Some (feqb x (float_of_int y))
  | VVec xs, VVec ys => allEqual feqb xs ys
  | VUvec xs, VUvec ys => allEqual Z.eqb xs ys
  | _, _ => None
  end.

Definition evalMul (a b : Value) : option Value :=
  match a, b with
  | VFloat x, VFloat y => Some (VFloat (fmul x y))
  | VVec xs, VFloat y => Some (VVec (map (fun x => fmul x y) xs))
  | VFloat x, VVec ys => Some (VVec (map (fun y => fmul x y) ys))
  | VVec xs, VVec ys => option_map VVec (zipWith fmul xs ys)
  | VUint x, VUint y => Some (VUint (uint_mul x y))
  | VUvec xs, VUint y => Some (VUvec (map (fun x => uint_mul x y) xs))
  | VUint x, VUvec ys => Some (VUvec (map (fun y => uint_mul x y) ys))
  | VUvec xs, VUvec ys => option_map VUvec (zipWith uint_mul xs ys)
  | _, _ => None
  end.

(** [a / b], with the divisor of every scalar division run.  What a
    division of a [uint] by zero gives is left open by GLSL; the value taken
    here is that of [Z.div]. *)
Definition evalDiv (a b : Value) : option (Value * list Value) :=
  match a, b with
  | VFloat x, VFloat y => Some (VFloat (fdiv x y), [VFloat y])
  | VVec xs, VFloat y =>
      Some (VVec (map (fun x => fdiv x y) xs), map (fun _ => VFloat y) xs)
  | VFloat x, VVec ys => Some (VVec (map (fun y => fdiv x y) ys), map VFloat ys)
  | VVec xs, VVec ys =>
      option_map (fun r => (VVec r, map VFloat ys)) (zipWith fdiv xs ys)
  | VUint x, VUint y => Some (VUint (uint_div x y), [VUint y])
  | VUvec xs, VUint y =>
      Some (VUvec (map (fun x => uint_div x y) xs), map (fun _ => VUint y) xs)
  | VUint x, VUvec ys => Some (VUvec (map (fun y => uint_div x y) ys), map VUint ys)
  | VUvec xs, VUvec ys =>
      option_map (fun r => (VUvec r, map VUint ys)) (zipWith uint_div xs ys)
  | _, _ => None
  end.

Definition evalBin (op : BinOp) (a b : Value) : option (Value * list Value) :=
  match op with
  | OpMul => option_map (fun v => (v, [])) (evalMul a b)
  | OpDiv => evalDiv a b
  | OpEq => option_map (fun r => (VBool r, [])) (evalEq a b)
  | OpNeq => option_map (fun r => (VBool (negb r), [])) (evalEq a b)
  | OpAnd => None
  end.

Fixpoint zipWith3 {A} (f : A -> A -> A -> A) (xs ys zs : list A) : option (list A) :=
  match xs, ys, zs with
  | [], [], [] => Some []
  | x :: xs', y :: ys', z :: zs' => option_map (cons (f x y z)) (zipWith3 f xs' ys' zs')
  | _, _, _ => None
  end.

(** The built-in functions the text calls on the way to the alpha block. *)
Definition evalCall (function : string) (args : list Value) : option Value :=
  if String.eqb function "texture2D" || String.eqb function "texture"
  then match args with
       | [VSampler texel; VVec [_; _]] => Some texel
       | _ => None
       end
  else if String.eqb function "vec2"
  then match args with
       | [VFloat x] => Some (VVec [x; x])
       | [VFloat x; VFloat y] => Some (VVec [x; y])
       | _ => None
       end
  else if String.eqb function "clamp"
  then match args with
       | [VFloat x; VFloat lo; VFloat hi] => Some (VFloat (fclamp x lo hi))
       | [VVec xs; VVec los; VVec his] => option_map VVec (zipWith3 fclamp xs los his)
       | _ => None
       end
  else None.

(** [&&] evaluates its right operand only when the left one is true. *)
Fixpoint evalExpr (env : Env) (e : Expr) : option (Value * list Value) :=
  match e with
  | EVar x => option_map (fun v => (v, [])) (lookupVar x env)
  | ENum n => option_map (fun x => (VFloat x, [])) (literal n)
  | EField e' field =>
      match evalExpr env e' with
      | Some (v, divisors) => option_map (fun r => (r, divisors)) (evalField v field)
      | None => None
      end
  | ECall function args =>
      match (fix evalArgs (l : list Expr) : option (list Value * list Value) :=
               match l with
               | [] => Some ([], [])
               | a :: l' =>
                   match evalExpr env a with
                   | Some (v, d1) =>
                       match evalArgs l' with
                       | Some (vs, d2) => Some (v :: vs, d1 ++ d2)
                       | None => None
                       end
                   | None => None
                   end
               end) args with
      | Some (vs, divisors) => option_map (fun r => (r, divisors)) (evalCall function vs)
      | None => None
      end
  | EBin OpAnd a b =>
      match evalExpr env a with
      | Some (VBool false, d1) => Some (VBool false, d1)
      | Some (VBool true, d1) =>
          match evalExpr env b with
          | Some (VBool r, d2) => Some (VBool r, d1 ++ d2)
          | _ => None
          end
      | _ => None
      end
  | EBin op a b =>
      match evalExpr env a with
      | Some (va, d1) =>
          match evalExpr env b with
          | Some (vb, d2) =>
              match evalBin op va vb with
              | Some (r, d3) => Some (r, d1 ++ d2 ++ d3)
              | None => None
              end
          | None => None
          end
      | None => None
      end
  end.

Definition assign (env : Env) (target : Expr) (v : Value) : option Env :=
  match target with
  | EVar x => assignVar x v env
  | EField (EVar x) field =>
      match lookupVar x env with
      | Some old =>
          match storeField old field v with
          | Some new => assignVar x new env
          | None => None
          end
      | None => None
      end
  | _ => None
  end.

Inductive Outcome :=
| Continue (env : Env)
| Discarded
| Stuck.

(** A statement, run in [env]: the divisors of the divisions it ran, and
    how it ended. *)
Fixpoint execStmt (env : Env) (s : Stmt) : list Value * Outcome :=
  match s with
  | SDiscard => ([], Discarded)
  | SDecl _ x init =>
      match evalExpr env init with
      | Some (v, divisors) => (divisors, Continue ((x, v) :: env))
      | None => ([], Stuck)
      end
  | SAssign target value =>
      match evalExpr env value with
      | Some (v, divisors) =>
          match assign env target v with
          | Some env' => (divisors, Continue env')
          | None => (divisors, Stuck)
          end
      | None => ([], Stuck)
      end
  | SIf cond body =>
      match evalExpr env cond with
      | Some (VBool true, d1) =>
          let '(d2, outcome) :=
            (fix execBody (env0 : Env) (l : list Stmt) : list Value * Outcome :=
               match l with
               | [] => ([], Continue env0)
               | s' :: l' =>
                   match execStmt env0 s' with
                   | (d, Continue env1) =>
                       let '(d', outcome) := execBody env1 l' in (d ++ d', outcome)
                   | stopped => stopped
                   end
               end) env body in
          (d1 ++ d2, outcome)
      | Some (VBool false, d1) => (d1, Continue env)
      | _ => ([], Stuck)
      end
  end.

Fixpoint execStmts (env : Env) (l : list Stmt) : list Value * Outcome :=
  match l with
  | [] => ([], Continue env)
  | s :: l' =>
      match execStmt env s with
      | (d, Continue env1) => let '(d', outcome) := execStmts env1 l' in (d ++ d', outcome)
      | stopped => stopped
      end
  end.

(** The divisions in the text of a statement. *)
Fixpoint divisionsInExpr (e : Expr) : nat :=
  match e with
  | EVar _ | ENum _ => 0
  | EField e' _ => divisionsInExpr e'
  | ECall _ args => fold_right (fun a n => divisionsInExpr a + n)%nat 0%nat args
  | EBin op a b =>
      ((match op with OpDiv => 1 | _ => 0 end) + divisionsInExpr a + divisionsInExpr b)%nat
  end.

Fixpoint divisionsIn (s : Stmt) : nat :=
  match s with
  | SDiscard => 0
  | SDecl _ _ init => divisionsInExpr init
  | SAssign target value => (divisionsInExpr target + divisionsInExpr value)%nat
  | SIf cond body =>
      (divisionsInExpr cond + fold_right (fun s' n => divisionsIn s' + n)%nat 0%nat body)%nat
  end.

Definition isZeroValue (v : Value) : bool :=
  match v with
  | VFloat x => feqb x f0
  | VUint n => n =? 0
  | _ => false
  end.

(** The sampled color as the value of its GLSL type ([vec4] or [uvec4]). *)
Definition colorValue (type : BlitProgramType) : Color (sampledScalar type) -> Value :=
  match type with
  | FLOAT_TO_FLOAT | FLOAT_TO_UINT =>
      fun color : Color float => VVec [cr color; cg color; cb color; ca color]
  | UINT_TO_UINT =>
      fun color : Color Z => VUvec [cr color; cg color; cb color; ca color]
  end.

Definition scalarValue (type : BlitProgramType) : sampledScalar type -> Value :=
  match type with
  | FLOAT_TO_FLOAT | FLOAT_TO_UINT => fun x : float => VFloat x
  | UINT_TO_UINT => fun n : Z => VUint n
  end.

(** The inputs of one fragment: the uniforms, the interpolated texture
    coordinates, and the texel the source texture returns there. *)
Definition fragmentInputs (type : BlitProgramType) (u_multiply_alpha u_unmultiply_alpha : bool)
           (v_texcoord : Vector2) (texel : Color (sampledScalar type)) : Env :=
  [ ("u_source_texture", VSampler (colorValue type texel));
    ("u_multiply_alpha", VBool u_multiply_alpha);
    ("u_unmultiply_alpha", VBool u_unmultiply_alpha);
    ("v_texcoord", VVec [vx v_texcoord; vy v_texcoord]) ].

(** ** A test device and test inputs *)

(** Bit counts of a few sized formats of OpenGL ES 3.0. *)
Definition testFormatInfo (sizedInternalFormat : GLenum) : InternalFormat :=
  if sizedInternalFormat =? GL_DEPTH24_STENCIL8 then mkInternalFormat 24 8
  else if sizedInternalFormat =? GL_DEPTH_COMPONENT16 then mkInternalFormat 16 0
  else if sizedInternalFormat =? GL_STENCIL_INDEX8 then mkInternalFormat 0 8
  else mkInternalFormat 0 0.

(** A device that hands out the length of the log as a fresh name, compiles
    every shader, and answers framebuffer status with [status]. *)
Definition testDeviceWith (status : list GLCall -> GLenum) : Device :=
  mkDevice STANDARD_GL_ES true true
           testFormatInfo (fun _ => GL_RGBA) (fun _ _ => GL_RGBA8)
           (fun l => Z.of_nat (List.length l)) status (fun _ => 2)
           (fun _ => GL_TRUE) (fun _ => GL_TRUE) (fun l => Z.of_nat (List.length l))
           (fun _ => Ok tt) (fun _ => Ok GL_RGBA) (fun _ => Ok GL_UNSIGNED_BYTE).

Definition testDevice : Device := testDeviceWith (fun _ => GL_FRAMEBUFFER_COMPLETE).

(** A device on which the framebuffer is incomplete once [layer] is attached. *)
Definition incompleteAtLayer (layer : GLint) (l : list GLCall) : GLenum :=
  if existsb (Z.eqb layer) (attachedLayers l)
  then GL_FRAMEBUFFER_INCOMPLETE_ATTACHMENT
  else GL_FRAMEBUFFER_COMPLETE.

Definition freshWorld : World := mkWorld BlitGL_new [].

Definition testFramebuffer (id : GLuint) : Framebuffer :=
  mkFramebuffer id (mkFramebufferAttachment 0 (gl.mkExtents 4 4 1) GL_RGBA8).

Definition testRenderState : RenderState :=
  mkRenderState true (gl.mkRectangle 0 0 16 16) (f0, f1) true (true, true, true, false)
                false false true false true false false false false.

(** A device on which no framebuffer is ever complete. *)
Definition incompleteDevice : Device :=
  testDeviceWith (fun _ => GL_FRAMEBUFFER_INCOMPLETE_ATTACHMENT).

Definition testTexture (type : TextureType) (id : GLuint) : TextureGL := mkTextureGL type id.

(** ** Vocabulary of the further properties *)

(** All five scratch handles are allocated. *)
Definition resourcesReady (b : BlitGL) : Prop :=
  fst (mScratchTextures b) <> 0 /\ snd (mScratchTextures b) <> 0
  /\ mScratchFBO b <> 0 /\ mVertexBuffer b <> 0 /\ mVAO b <> 0.

(** The driver never hands out the name 0 (the GL rule for generated names). *)
Definition namesNonZero (dev : Device) : Prop :=
  forall l c, generated_name dev (l ++ [c]) <> 0.

(** A handle is either the one held before or, if none was held, a new one. *)
Definition keptOrWasZero (before after : GLuint) : Prop := before = 0 \/ after = before.

(** [name] is declared as a uniform in the shader text [source]. *)
Definition declaresUniform (name source : string) : bool :=
  existsb (fun type =>
             (0 <? occurrences (cat ["uniform "; type; " "; name; ";"; nl]) source)%nat)
          ["vec2"; "bool"; "sampler2D"; "usampler2D"].

(** A call of [getBlitProgram] agrees with the shader text of the variant:
    a source handed to the driver is the variant's vertex or fragment text,
    and a uniform looked up is declared in one of the two. *)
Definition agreesWithSources (std : StandardGL) (type : BlitProgramType) (c : GLCall) : bool :=
  let vs := vertexShaderSource (shaderQualifiers std type) in
  let fs := fragmentShaderSource (shaderQualifiers std type) type in
  match c with
  | shaderSource _ source => String.eqb source vs || String.eqb source fs
  | getUniformLocation _ name => declaresUniform name vs || declaresUniform name fs
  | _ => true
  end.

(** When the computation fails, the calls it made all satisfy [p]. *)
Definition failsClean {A} (p : GLCall -> bool) (m : M A) : Prop :=
  forall w e w', m w = (Failed e, w') ->
                 exists l, calls w' = calls w ++ l /\ forallb p l = true.

(** No render state touched, nothing copied or drawn, no texture storage
    allocated. *)
Definition isHarmless (c : GLCall) : bool :=
  isNeutral c && negb (isCopyOrDraw c) && negb (isAllocation c).

(** The render state a clear leaves: scissor test off, and the full color
    mask when the color buffer is cleared. *)
Definition clearedState (colorClear : bool) (s : RenderState) : RenderState :=
  mkRenderState false (viewport s) (depthRange s) (blend s)
                (if colorClear then (true, true, true, true) else colorMask s)
                (sampleAlphaToCoverage s) (sampleCoverage s) (depthTest s) (stencilTest s)
                (cullFace s) (polygonOffsetFill s) (rasterizerDiscard s)
                (transformFeedbackPaused s) (queriesPaused s).

(** The layers the per-layer path of [clearRenderableTexture] walks. *)
Definition layersInRange (numTextureLayers : Z) (imageIndex : ImageIndex) : list GLint :=
  let firstLayer := if hasLayer imageIndex then getLayerIndex imageIndex else 0 in
  let layerCount :=
    if hasLayer imageIndex then getLayerCount imageIndex else numTextureLayers in
  map (fun layer => layer + firstLayer) (range layerCount).

(** The calls of the per-layer loop on layers that passed their check:
    attach, check, clear, layer after layer. *)
Definition clearedSteps (source : TextureGL) (imageIndex : ImageIndex)
           (bindTargets : list GLenum) (clearMask : GLbitfield) (layers : list GLint)
  : list GLCall :=
  flat_map (fun layer => layerStep source imageIndex bindTargets layer ++ [clear clearMask])
           layers.

(** The calls on layer number [k] when the loop stops there: attach and
    check, no clear.  Nothing when the range has no such layer. *)
Definition stoppedStep (source : TextureGL) (imageIndex : ImageIndex)
           (bindTargets : list GLenum) (layers : list GLint) (k : nat) : list GLCall :=
  match nth_error layers k with
  | Some layer => layerStep source imageIndex bindTargets layer
  | None => []
  end.

Definition isStatusCheck (c : GLCall) : bool :=
  match c with checkFramebufferStatus _ => true | _ => false end.

(** A device on which no shader compiles. *)
Definition brokenCompilerDevice : Device :=
  mkDevice STANDARD_GL_ES true true
           testFormatInfo (fun _ => GL_RGBA) (fun _ _ => GL_RGBA8)
           (fun l => Z.of_nat (List.length l)) (fun _ => GL_FRAMEBUFFER_COMPLETE) (fun _ => 2)
           (fun _ => GL_FALSE) (fun _ => GL_TRUE) (fun l => Z.of_nat (List.length l))
           (fun _ => Ok tt) (fun _ => Ok GL_RGBA) (fun _ => Ok GL_UNSIGNED_BYTE).


(** The helper's fields satisfy [I] after the computation if they did before. *)
Definition keepsSelf {A} (I : BlitGL -> Prop) (m : M A) : Prop :=
  forall w, I (self w) -> I (self (snd (m w))).

(** Every error the computation can return satisfies [P]. *)
Definition failsWith {A} (P : Error -> Prop) (m : M A) : Prop :=
  forall w e w', m w = (Failed e, w') -> P e.

(** The fields of the helper other than the cache entry of [type] are those
    of [b0]. *)
Definition sameButEntry (type : BlitProgramType) (b0 b : BlitGL) : Prop :=
  mScratchTextures b = mScratchTextures b0
  /\ mScratchFBO b = mScratchFBO b0
  /\ mVAO b = mVAO b0
  /\ mVertexBuffer b = mVertexBuffer b0
  /\ forall t, mBlitPrograms b t
               = if BlitProgramType_eqb t type then mBlitPrograms b type
                 else mBlitPrograms b0 t.


(** * Properties *)

(** ** The log only grows: composition rules for [issues] and [succeeds] *)

Section Composition.

Context {A B : Type}.
Variable p : GLCall -> bool.

Lemma issues_ret (a : A) : issues p (ret a).
Proof. intros w. exists []. simpl. now rewrite app_nil_r. Qed.

Lemma issues_fail (e : Error) : issues p (@fail A e).
Proof. intros w. exists []. simpl. now rewrite app_nil_r. Qed.

Lemma issues_call (c : GLCall) : p c = true -> issues p (call c).
Proof. intros H w. exists [c]. simpl. now rewrite H. Qed.

Lemma issues_ask (c : GLCall) (f : list GLCall -> A) : p c = true -> issues p (ask c f).
Proof. intros H w. exists [c]. simpl. now rewrite H. Qed.

Lemma issues_try (c : GLCall) (f : list GLCall -> Result A) :
  p c = true -> issues p (tryCall c f).
Proof. intros H w. exists [c]. simpl. now rewrite H. Qed.

Lemma issues_bind (m : M A) (k : A -> M B) :
  issues p m -> (forall a, issues p (k a)) -> issues p (bind m k).
Proof.
  intros Hm Hk w. unfold bind.
  destruct (Hm w) as [l1 [E1 F1]].
  destruct (m w) as [[a | e] w1]; simpl in E1.
  - destruct (Hk a w1) as [l2 [E2 F2]].
    exists (l1 ++ l2). rewrite E2, E1, app_assoc, forallb_app, F1, F2. auto.
  - exists l1. simpl. auto.
Qed.

Lemma issues_forEach (xs : list A) (body : A -> M unit) :
  (forall a, issues p (body a)) -> issues p (forEach xs body).
Proof.
  intros Hb. induction xs as [| a xs IH]; simpl.
  - intros w. exists []. simpl. now rewrite app_nil_r.
  - intros w. unfold bind.
    destruct (Hb a w) as [l1 [E1 F1]].
    destruct (body a w) as [[u | e] w1]; simpl in E1.
    + destruct (IH w1) as [l2 [E2 F2]].
      exists (l1 ++ l2). rewrite E2, E1, app_assoc, forallb_app, F1, F2. auto.
    + exists l1. simpl. auto.
Qed.

Lemma succeeds_ret (a : A) : succeeds (ret a).
Proof. intros w. now exists a. Qed.

Lemma succeeds_ask (c : GLCall) (f : list GLCall -> A) : succeeds (ask c f).
Proof. intros w. now eexists. Qed.

Lemma succeeds_bind (m : M A) (k : A -> M B) :
  succeeds m -> (forall a, succeeds (k a)) -> succeeds (bind m k).
Proof.
  intros Hm Hk w. unfold bind.
  destruct (Hm w) as [a Ea].
  destruct (m w) as [[a' | e] w1]; simpl in Ea; [| discriminate].
  apply Hk.
Qed.

Lemma succeeds_forEach (xs : list A) (body : A -> M unit) :
  (forall a, succeeds (body a)) -> succeeds (forEach xs body).
Proof.
  intros Hb. induction xs as [| a xs IH]; simpl.
  - intros w. now exists tt.
  - intros w. unfold bind.
    destruct (Hb a w) as [u Eu].
    destruct (body a w) as [[u' | e] w1]; simpl in Eu; [| discriminate].
    apply IH.
Qed.

End Composition.

Lemma issues_getSelf p : issues p getSelf.
Proof. intros w. exists []. simpl. now rewrite app_nil_r. Qed.

Lemma issues_modifySelf p f : issues p (modifySelf f).
Proof. intros w. exists []. simpl. now rewrite app_nil_r. Qed.

Lemma issues_when p b m : issues p m -> issues p (when b m).
Proof. intros H. destruct b; simpl; [exact H | apply issues_ret]. Qed.

Lemma issues_weaken {A} (p q : GLCall -> bool) (m : M A) :
  (forall c, p c = true -> q c = true) -> issues p m -> issues q m.
Proof.
  intros Hpq Hm w. destruct (Hm w) as [l [E F]]. exists l. split; [exact E |].
  rewrite forallb_forall in *. auto.
Qed.

Lemma succeeds_call c : succeeds (call c).
Proof. intros w. now exists tt. Qed.

Lemma succeeds_getSelf : succeeds getSelf.
Proof. intros w. now eexists. Qed.

Lemma succeeds_modifySelf f : succeeds (modifySelf f).
Proof. intros w. now exists tt. Qed.

Lemma succeeds_when b m : succeeds m -> succeeds (when b m).
Proof. intros H. destruct b; simpl; [exact H | apply succeeds_ret]. Qed.

(** A computation that succeeds and issues only [p]-calls, run from [w]. *)
Lemma run_total {A} (p : GLCall -> bool) (m : M A) (w : World) :
  succeeds m -> issues p m ->
  exists a w' l, m w = (Ok a, w') /\ calls w' = calls w ++ l /\ forallb p l = true.
Proof.
  intros Hs Hi. destruct (Hs w) as [a Ea]. destruct (Hi w) as [l [El Fl]].
  destruct (m w) as [r w'] eqn:E. simpl in *. subst r.
  now exists a, w', l.
Qed.

Ltac step_issues :=
  lazymatch goal with
  | |- issues _ (bind _ _) => apply issues_bind; [| intro]
  | |- issues _ (ret _) => apply issues_ret
  | |- issues _ (fail _) => apply issues_fail
  | |- issues _ (call _) => apply issues_call; reflexivity
  | |- issues _ (ask _ _) => apply issues_ask; reflexivity
  | |- issues _ (tryCall _ _) => apply issues_try; reflexivity
  | |- issues _ getSelf => apply issues_getSelf
  | |- issues _ (modifySelf _) => apply issues_modifySelf
  | |- issues _ (modifyProgram _ _) => apply issues_modifySelf
  | |- issues _ (when _ _) => apply issues_when
  | |- issues _ (forEach _ _) => apply issues_forEach; intro
  | |- issues _ (if ?b then _ else _) => destruct b
  | |- issues _ (let '(_, _) := ?x in _) => destruct x
  end.

Ltac step_succeeds :=
  lazymatch goal with
  | |- succeeds (bind _ _) => apply succeeds_bind; [| intro]
  | |- succeeds (ret _) => apply succeeds_ret
  | |- succeeds (call _) => apply succeeds_call
  | |- succeeds (ask _ _) => apply succeeds_ask
  | |- succeeds getSelf => apply succeeds_getSelf
  | |- succeeds (modifySelf _) => apply succeeds_modifySelf
  | |- succeeds (modifyProgram _ _) => apply succeeds_modifySelf
  | |- succeeds (when _ _) => apply succeeds_when
  | |- succeeds (forEach _ _) => apply succeeds_forEach; intro
  | |- succeeds (if ?b then _ else _) => destruct b
  | |- succeeds (let '(_, _) := ?x in _) => destruct x
  end.

(** ** Scratch resources and the program cache *)

Lemma initializeResources_issues dev : issues isResourceSetup (initializeResources dev).
Proof. unfold initializeResources. repeat step_issues. Qed.

Lemma initializeResources_succeeds dev : succeeds (initializeResources dev).
Proof. unfold initializeResources. repeat step_succeeds. Qed.

Lemma CheckCompileStatus_succeeds dev shader :
  shadersCompile dev -> succeeds (CheckCompileStatus dev shader).
Proof.
  intros Hc w. unfold CheckCompileStatus, bind, ask. simpl.
  destruct (Z.eqb_spec (shader_status dev (calls w ++ [getShaderiv shader GL_COMPILE_STATUS]))
                       GL_FALSE) as [E | _].
  - now apply (Hc _) in E.
  - now exists tt.
Qed.

Lemma CheckLinkStatus_succeeds dev prog :
  shadersCompile dev -> succeeds (CheckLinkStatus dev prog).
Proof.
  intros Hc w. unfold CheckLinkStatus, bind, ask. simpl.
  destruct (Z.eqb_spec (program_status dev (calls w ++ [getProgramiv prog GL_LINK_STATUS]))
                       GL_FALSE) as [E | _].
  - now apply (Hc _) in E.
  - now exists tt.
Qed.

Lemma CheckCompileStatus_issues dev shader :
  issues isProgramBuild (CheckCompileStatus dev shader).
Proof. unfold CheckCompileStatus. repeat step_issues. Qed.

Lemma CheckLinkStatus_issues dev prog :
  issues isProgramBuild (CheckLinkStatus dev prog).
Proof. unfold CheckLinkStatus. repeat step_issues. Qed.

Lemma getBlitProgram_issues dev type : issues isProgramBuild (getBlitProgram dev type).
Proof.
  unfold getBlitProgram.
  repeat lazymatch goal with
         | |- issues _ (CheckCompileStatus _ _) => apply CheckCompileStatus_issues
         | |- issues _ (CheckLinkStatus _ _) => apply CheckLinkStatus_issues
         | |- _ => step_issues
         end.
Qed.

Lemma getBlitProgram_succeeds dev type :
  shadersCompile dev -> succeeds (getBlitProgram dev type).
Proof.
  intros Hc. unfold getBlitProgram.
  repeat lazymatch goal with
         | |- succeeds (CheckCompileStatus _ _) => apply (CheckCompileStatus_succeeds dev _ Hc)
         | |- succeeds (CheckLinkStatus _ _) => apply (CheckLinkStatus_succeeds dev _ Hc)
         | |- _ => step_succeeds
         end.
Qed.

(** ** Clipping of the blit source *)

Lemma ClipRectangle_extent source clip r :
  gl.ClipRectangle source clip = Some r -> 0 < gl.width r /\ 0 < gl.height r.
Proof.
  unfold gl.ClipRectangle. intros H.
  destruct (Z.leb_spec (Z.min (gl.x source + gl.width source) (gl.x clip + gl.width clip))
                       (Z.max (gl.x source) (gl.x clip))) as [Hx | Hx];
    simpl in H; [discriminate |].
  destruct (Z.leb_spec (Z.min (gl.y source + gl.height source) (gl.y clip + gl.height clip))
                       (Z.max (gl.y source) (gl.y clip))) as [Hy | Hy];
    simpl in H; [discriminate |].
  inversion H; subst; simpl. lia.
Qed.

Lemma blit_prologue_issues dev :
  issues isPrologue
         (initializeResources dev ;; _ <- getBlitProgram dev FLOAT_TO_FLOAT ;; ret tt).
Proof.
  apply issues_bind; [| intros _; apply issues_bind; [| intro; apply issues_ret]].
  - apply (issues_weaken isResourceSetup); [| apply initializeResources_issues].
    unfold isPrologue. intros c H. now rewrite H.
  - apply (issues_weaken isProgramBuild); [| apply getBlitProgram_issues].
    unfold isPrologue. intros c H. rewrite H. apply orb_true_r.
Qed.

Lemma blit_prologue_succeeds dev :
  shadersCompile dev ->
  succeeds (initializeResources dev ;; _ <- getBlitProgram dev FLOAT_TO_FLOAT ;; ret tt).
Proof.
  intros Hc.
  apply succeeds_bind; [apply initializeResources_succeeds | intros _].
  apply succeeds_bind; [now apply getBlitProgram_succeeds | intro; apply succeeds_ret].
Qed.

Lemma isPrologue_no_copy c :
  isPrologue c = true -> isCopyOrDraw c = false /\ isCoordUniform c = false.
Proof. unfold isPrologue. destruct c; simpl; intros H; split; congruence. Qed.

(** C1.  In [blitColorBufferWithShader], when clipping the normalized source
    rectangle against the bounds of the read attachment gives an empty
    intersection, the run is the prologue alone (scratch resources and the
    cached program): no copy or draw call is made, the texture-coordinate
    divisions of [blitTexCoords] are not reached and no scale or offset is
    sent, and the result is success (on a device that compiles the generated
    shaders, as the code asserts).  When the intersection is not empty, its
    width and height are not negative. *)
Theorem blit_empty_intersection_is_noop :
  forall dev source dest sourceAreaIn destAreaIn filter w,
    let run := blitColorBufferWithShader dev source dest sourceAreaIn destAreaIn filter w in
    let sourceSize := getSize (getReadColorbuffer source) in
    let sourceBounds := gl.mkRectangle 0 0 (gl.ewidth sourceSize) (gl.eheight sourceSize) in
    match gl.ClipRectangle (gl.removeReversal sourceAreaIn) sourceBounds with
    | None =>
        run = (initializeResources dev ;; _ <- getBlitProgram dev FLOAT_TO_FLOAT ;; ret tt) w
        /\ (exists issued,
              calls (snd run) = calls w ++ issued
              /\ forallb (fun c => isPrologue c && negb (isCopyOrDraw c)
                                   && negb (isCoordUniform c)) issued = true)
        /\ (shadersCompile dev -> fst run = Ok tt)
    | Some inBoundsSource =>
        0 <= gl.width inBoundsSource /\ 0 <= gl.height inBoundsSource
    end.
Proof.
  intros dev source dest sourceAreaIn destAreaIn filter w run sourceSize sourceBounds.
  destruct (gl.ClipRectangle (gl.removeReversal sourceAreaIn) sourceBounds)
    as [inBoundsSource |] eqn:Hclip.
  - apply ClipRectangle_extent in Hclip. lia.
  - assert (Hrun :
      run = (initializeResources dev ;; _ <- getBlitProgram dev FLOAT_TO_FLOAT ;; ret tt) w).
    { unfold run, blitColorBufferWithShader, blitReversal. cbv beta iota zeta.
      fold sourceSize. fold sourceBounds. now rewrite Hclip. }
    split; [exact Hrun | split].
    + destruct (blit_prologue_issues dev w) as [issued [E F]].
      exists issued. rewrite Hrun. split; [exact E |].
      rewrite forallb_forall in *. intros c Hin. specialize (F c Hin).
      destruct (isPrologue_no_copy c F) as [H1 H2]. now rewrite F, H1, H2.
    + intros Hc. rewrite Hrun.
      destruct (blit_prologue_succeeds dev Hc w) as [[] E]. exact E.
Qed.

Lemma testDevice_compiles status : shadersCompile (testDeviceWith status).
Proof. intros l. split; discriminate. Qed.

Lemma blit_empty_intersection_is_noop_witness :
  fst (blitColorBufferWithShader testDevice (testFramebuffer 7) (testFramebuffer 8)
                                 (gl.mkRectangle 6 6 (-4) 4) (gl.mkRectangle 0 0 4 4)
                                 GL_NEAREST freshWorld)
  = Ok tt.
Proof.
  apply (proj2 (proj2 (blit_empty_intersection_is_noop
                         testDevice (testFramebuffer 7) (testFramebuffer 8)
                         (gl.mkRectangle 6 6 (-4) 4) (gl.mkRectangle 0 0 4 4)
                         GL_NEAREST freshWorld))).
  intros l. split; simpl; discriminate.
Defined.

(** ** Reversal *)

Lemma removeReversal_not_reversed r :
  gl.isReversedX (gl.removeReversal r) = false /\ gl.isReversedY (gl.removeReversal r) = false.
Proof.
  destruct r as [x y w h].
  unfold gl.removeReversal, gl.isReversedX, gl.isReversedY; simpl.
  destruct (Z.ltb_spec w 0); simpl; destruct (Z.ltb_spec h 0); simpl;
    split; apply Z.ltb_ge; lia.
Qed.

Lemma removeReversal_fixpoint r :
  gl.isReversedX r = false -> gl.isReversedY r = false -> gl.removeReversal r = r.
Proof. intros Hx Hy. unfold gl.removeReversal. now rewrite Hx, Hy. Qed.

Lemma removeReversal_idempotent r :
  gl.removeReversal (gl.removeReversal r) = gl.removeReversal r.
Proof.
  destruct (removeReversal_not_reversed r). now apply removeReversal_fixpoint.
Qed.

(** C2.  The X (resp. Y) reversal flag of [blitColorBufferWithShader] is set
    exactly when the source and destination rectangles disagree on reversal
    on that axis.  Hence, whichever of the four combinations of reversal on X
    and on Y the two rectangles share, the blit runs exactly as the blit of
    the two rectangles with their reversal removed: same result, same calls,
    and in particular the same scale and offset uniforms. *)
Theorem blit_reversal_flags :
  forall sourceAreaIn destAreaIn,
    (fst (blitReversal sourceAreaIn destAreaIn) = true
     <-> gl.isReversedX sourceAreaIn <> gl.isReversedX destAreaIn)
    /\ (snd (blitReversal sourceAreaIn destAreaIn) = true
        <-> gl.isReversedY sourceAreaIn <> gl.isReversedY destAreaIn)
    /\ forall (reversedX reversedY : bool) dev source dest filter w,
         gl.isReversedX sourceAreaIn = reversedX ->
         gl.isReversedX destAreaIn = reversedX ->
         gl.isReversedY sourceAreaIn = reversedY ->
         gl.isReversedY destAreaIn = reversedY ->
         blitColorBufferWithShader dev source dest sourceAreaIn destAreaIn filter w
         = blitColorBufferWithShader dev source dest
                                     (gl.removeReversal sourceAreaIn)
                                     (gl.removeReversal destAreaIn) filter w.
Proof.
  intros sourceAreaIn destAreaIn. unfold blitReversal; simpl.
  split; [| split].
  - destruct (gl.isReversedX sourceAreaIn), (gl.isReversedX destAreaIn);
      simpl; split; congruence.
  - destruct (gl.isReversedY sourceAreaIn), (gl.isReversedY destAreaIn);
      simpl; split; congruence.
  - intros reversedX reversedY dev source dest filter w Hsx Hdx Hsy Hdy.
    unfold blitColorBufferWithShader, blitReversal.
    destruct (removeReversal_not_reversed sourceAreaIn) as [Nsx Nsy].
    destruct (removeReversal_not_reversed destAreaIn) as [Ndx Ndy].
    rewrite Hsx, Hdx, Hsy, Hdy, Nsx, Nsy, Ndx, Ndy.
    rewrite !removeReversal_idempotent.
    now rewrite !xorb_nilpotent.
Qed.

Lemma blit_reversal_flags_witness :
  blitColorBufferWithShader testDevice (testFramebuffer 7) (testFramebuffer 8)
                            (gl.mkRectangle 4 3 (-3) (-2)) (gl.mkRectangle 4 4 (-4) (-4))
                            GL_LINEAR freshWorld
  = blitColorBufferWithShader testDevice (testFramebuffer 7) (testFramebuffer 8)
                              (gl.mkRectangle 1 1 3 2) (gl.mkRectangle 0 0 4 4)
                              GL_LINEAR freshWorld.
Proof.
  exact (proj2 (proj2 (blit_reversal_flags (gl.mkRectangle 4 3 (-3) (-2))
                                           (gl.mkRectangle 4 4 (-4) (-4))))
               true true testDevice (testFramebuffer 7) (testFramebuffer 8)
               GL_LINEAR freshWorld eq_refl eq_refl eq_refl eq_refl).
Defined.

(** ** Selection of the blit variant *)

(** C3.  For component types [copySubTexture] accepts, [getBlitProgramType]
    selects UINT_TO_UINT whenever the source is [GL_UNSIGNED_INT] (and the
    destination is then [GL_UNSIGNED_INT] too), FLOAT_TO_UINT when the source
    is a float type and the destination is [GL_UNSIGNED_INT], and
    FLOAT_TO_FLOAT when both are float types. *)
Theorem getBlitProgramType_selection :
  forall sourceComponentType destComponentType,
    blitTypesAccepted sourceComponentType destComponentType = true ->
    (sourceComponentType = GL_UNSIGNED_INT ->
     getBlitProgramType sourceComponentType destComponentType = UINT_TO_UINT
     /\ destComponentType = GL_UNSIGNED_INT)
    /\ (isFloatComponentType sourceComponentType = true ->
        destComponentType = GL_UNSIGNED_INT ->
        getBlitProgramType sourceComponentType destComponentType = FLOAT_TO_UINT)
    /\ (isFloatComponentType sourceComponentType = true ->
        isFloatComponentType destComponentType = true ->
        getBlitProgramType sourceComponentType destComponentType = FLOAT_TO_FLOAT).
Proof.
  intros s d Hacc.
  unfold blitTypesAccepted, getBlitProgramType, isFloatComponentType in *.
  destruct (Z.eqb_spec s GL_UNSIGNED_INT) as [Hs | Hs]; simpl.
  - apply Z.eqb_eq in Hacc. repeat split; auto; discriminate.
  - split; [intros E; contradiction |].
    split.
    + intros _ Hd. rewrite Hd. reflexivity.
    + intros _ Hd. apply andb_prop in Hd. destruct Hd as [Hd _].
      apply negb_true_iff in Hd. now rewrite Hd.
Qed.

Lemma getBlitProgramType_selection_witness :
  (getBlitProgramType GL_UNSIGNED_INT GL_UNSIGNED_INT = UINT_TO_UINT
   /\ GL_UNSIGNED_INT = GL_UNSIGNED_INT)
  /\ getBlitProgramType GL_UNSIGNED_NORMALIZED GL_UNSIGNED_INT = FLOAT_TO_UINT
  /\ getBlitProgramType GL_FLOAT GL_UNSIGNED_NORMALIZED = FLOAT_TO_FLOAT.
Proof.
  split; [| split].
  - exact (proj1 (getBlitProgramType_selection GL_UNSIGNED_INT GL_UNSIGNED_INT eq_refl)
                 eq_refl).
  - exact (proj1 (proj2 (getBlitProgramType_selection GL_UNSIGNED_NORMALIZED GL_UNSIGNED_INT
                                                      eq_refl))
                 eq_refl eq_refl).
  - exact (proj2 (proj2 (getBlitProgramType_selection GL_FLOAT GL_UNSIGNED_NORMALIZED
                                                      eq_refl))
                 eq_refl eq_refl).
Defined.

(** ** Running straight-line code *)

Lemma bind_run {A B} (m : M A) (k : A -> M B) w :
  bind m k w = match m w with
               | (Ok a, w') => k a w'
               | (Failed e, w') => (Failed e, w')
               end.
Proof. reflexivity. Qed.

Lemma bind_ret {A B} (a : A) (k : A -> M B) w : bind (ret a) k w = k a w.
Proof. reflexivity. Qed.

Lemma bind_getSelf {B} (k : BlitGL -> M B) w : bind getSelf k w = k (self w) w.
Proof. reflexivity. Qed.

Lemma bind_call {B} c (k : unit -> M B) w :
  bind (call c) k w = k tt (mkWorld (self w) (calls w ++ [c])).
Proof. reflexivity. Qed.

Lemma bind_ask {A B} c (f : list GLCall -> A) (k : A -> M B) w :
  bind (ask c f) k w = k (f (calls w ++ [c])) (mkWorld (self w) (calls w ++ [c])).
Proof. reflexivity. Qed.

Lemma bind_assoc {A B C} (m : M A) (k : A -> M B) (h : B -> M C) w :
  bind (bind m k) h w = bind m (fun a => bind (k a) h) w.
Proof. unfold bind. destruct (m w) as [[a | e] w']; reflexivity. Qed.

Lemma forEach_calls {A} (f : A -> GLCall) (xs : list A) w :
  forEach xs (fun a => call (f a)) w = (Ok tt, mkWorld (self w) (calls w ++ map f xs)).
Proof.
  revert w. induction xs as [| a xs IH]; intros w; simpl.
  - unfold ret. rewrite app_nil_r. now destruct w.
  - rewrite bind_call, IH. simpl. now rewrite <- app_assoc.
Qed.

Lemma ScopedGLState_ctor_run viewport keepState w :
  ScopedGLState_ctor viewport keepState w
  = (Ok tt, mkWorld (self w) (calls w ++ guardCalls viewport keepState)).
Proof.
  unfold ScopedGLState_ctor, guardCalls.
  destruct (Z.land keepState KEEP_SCISSOR =? 0); simpl;
    unfold bind, call, ret; simpl; repeat rewrite <- app_assoc; reflexivity.
Qed.

Lemma withScopedGLState_run {A} viewport keepState (body : M A) w :
  withScopedGLState viewport keepState body w
  = let (r, w2) := body (mkWorld (self w) (calls w ++ guardCalls viewport keepState)) in
    (r, mkWorld (self w2) (calls w2 ++ [resumeAllQueries])).
Proof.
  unfold withScopedGLState. rewrite ScopedGLState_ctor_run.
  destruct (body _) as [r w2]. reflexivity.
Qed.

Lemma guardCalls_touch viewport keepState :
  forallb touchesRenderState (guardCalls viewport keepState) = true.
Proof. unfold guardCalls. destruct (Z.land keepState KEEP_SCISSOR =? 0); reflexivity. Qed.

Lemma issues_withScopedGLState {A} p viewport keepState (body : M A) :
  (forall c, touchesRenderState c = true -> p c = true) ->
  issues p body -> issues p (withScopedGLState viewport keepState body).
Proof.
  intros Hp Hb w. rewrite withScopedGLState_run.
  destruct (Hb (mkWorld (self w) (calls w ++ guardCalls viewport keepState))) as [l [E F]].
  destruct (body _) as [r w2]. simpl in *.
  exists (guardCalls viewport keepState ++ l ++ [resumeAllQueries]).
  split.
  - rewrite E. now rewrite <- !app_assoc.
  - assert (G : forallb p (guardCalls viewport keepState) = true).
    { apply forallb_forall. intros c Hc. apply Hp.
      pose proof (guardCalls_touch viewport keepState) as G.
      rewrite forallb_forall in G. auto. }
    rewrite !forallb_app, F, G. simpl. now rewrite (Hp resumeAllQueries eq_refl).
Qed.

Lemma willUseTextureUnit_issues p dev u :
  p (bindSampler u 0) = true -> issues p (willUseTextureUnit dev u).
Proof. intros H. unfold willUseTextureUnit. apply issues_when. now apply issues_call. Qed.

Lemma setScratchTextureParameter_issues p param value :
  (forall t, p (bindTexture TextureType_2D t) = true) ->
  p (texParameteri GL_TEXTURE_2D param value) = true ->
  issues p (setScratchTextureParameter param value).
Proof.
  intros Hb Ht. unfold setScratchTextureParameter.
  apply issues_bind; [apply issues_getSelf | intro].
  apply issues_forEach. intro.
  repeat (apply issues_bind; [| intro]); apply issues_call; auto.
Qed.

Lemma any_issues_initializeResources dev : issues anyCall (initializeResources dev).
Proof.
  apply (issues_weaken isResourceSetup); [reflexivity | apply initializeResources_issues].
Qed.

Lemma any_issues_getBlitProgram dev type : issues anyCall (getBlitProgram dev type).
Proof.
  apply (issues_weaken isProgramBuild); [reflexivity | apply getBlitProgram_issues].
Qed.

Ltac step_any :=
  lazymatch goal with
  | |- issues _ (initializeResources _) => apply any_issues_initializeResources
  | |- issues _ (getBlitProgram _ _) => apply any_issues_getBlitProgram
  | |- issues _ (withScopedGLState _ _ _) => apply issues_withScopedGLState; [reflexivity |]
  | |- issues _ (willUseTextureUnit _ _) => apply willUseTextureUnit_issues; reflexivity
  | |- issues _ (setScratchTextureParameter _ _) =>
      apply setScratchTextureParameter_issues; [reflexivity | reflexivity]
  | |- _ => step_issues
  end.

(** ** [copySubTexture]: the destination is validated first *)

Lemma copySubTexture_unfold
      dev context source sourceLevel sourceComponentType dest destTarget destLevel
      destComponentType sourceSize sourceArea destOffset needsLumaWorkaround lumaFormat
      unpackFlipY unpackPremultiplyAlpha unpackUnmultiplyAlpha w w1 :
  initializeResources dev w = (Ok tt, w1) ->
  let checked :=
    mkWorld (self w1)
            (calls w1 ++ destinationCheck (mScratchFBO (self w1)) dest destTarget destLevel) in
  exists continue : M bool,
    issues anyCall continue
    /\ copySubTexture dev context source sourceLevel sourceComponentType dest destTarget
                      destLevel destComponentType sourceSize sourceArea destOffset
                      needsLumaWorkaround lumaFormat unpackFlipY unpackPremultiplyAlpha
                      unpackUnmultiplyAlpha w
       = if negb (framebuffer_status dev (calls checked) =? GL_FRAMEBUFFER_COMPLETE)
         then (Ok false, checked)
         else continue checked.
Proof.
  intros Ei checked.
  unfold copySubTexture.
  rewrite bind_run, Ei. cbv beta iota.
  rewrite bind_getSelf, !bind_call, bind_ask. cbn [self calls].
  assert (El : ((calls w1 ++ [bindFramebuffer GL_FRAMEBUFFER (mScratchFBO (self w1))])
                ++ [framebufferTexture2D GL_FRAMEBUFFER GL_COLOR_ATTACHMENT0
                                         (ToGLenum destTarget) (getTextureID dest)
                                         (static_cast_GLint destLevel)])
               ++ [checkFramebufferStatus GL_FRAMEBUFFER]
               = calls checked).
  { unfold checked, destinationCheck. cbn [calls]. now rewrite <- !app_assoc. }
  rewrite El. fold checked.
  eexists. split; [| destruct (negb _); [reflexivity | reflexivity]].
  repeat step_any.
Qed.

(** C4.  [copySubTexture] attaches the destination level to the scratch
    framebuffer and checks completeness right after [initializeResources]:
    no program is built, no state of the source texture is changed and
    nothing is drawn before the check.  If the framebuffer is incomplete the
    result is the value [false], not an error, and the check is the last call
    made. *)
Theorem copySubTexture_checks_destination_first :
  forall dev context source sourceLevel sourceComponentType dest destTarget destLevel
         destComponentType sourceSize sourceArea destOffset needsLumaWorkaround lumaFormat
         unpackFlipY unpackPremultiplyAlpha unpackUnmultiplyAlpha w,
    let run :=
      copySubTexture dev context source sourceLevel sourceComponentType dest destTarget
                     destLevel destComponentType sourceSize sourceArea destOffset
                     needsLumaWorkaround lumaFormat unpackFlipY unpackPremultiplyAlpha
                     unpackUnmultiplyAlpha w in
    let w1 := snd (initializeResources dev w) in
    let check := destinationCheck (mScratchFBO (self w1)) dest destTarget destLevel in
    (exists setup, calls w1 = calls w ++ setup /\ forallb isBeforeCopy setup = true)
    /\ forallb isBeforeCopy check = true
    /\ (exists rest, calls (snd run) = calls w1 ++ check ++ rest)
    /\ (framebuffer_status dev (calls w1 ++ check) <> GL_FRAMEBUFFER_COMPLETE ->
        run = (Ok false, mkWorld (self w1) (calls w1 ++ check))).
Proof.
  intros. subst run.
  destruct (run_total _ _ w (initializeResources_succeeds dev) (initializeResources_issues dev))
    as [[] [w1' [setup [Ei [Es Fs]]]]].
  assert (Ew : w1 = w1') by (unfold w1; now rewrite Ei). clearbody w1. subst w1'.
  destruct (copySubTexture_unfold
              dev context source sourceLevel sourceComponentType dest destTarget destLevel
              destComponentType sourceSize sourceArea destOffset needsLumaWorkaround
              lumaFormat unpackFlipY unpackPremultiplyAlpha unpackUnmultiplyAlpha w w1 Ei)
    as [continue [Hc Hrun]].
  cbn [calls] in Hrun. fold check in Hrun.
  split; [| split; [| split]].
  - exists setup. split; [exact Es |].
    rewrite forallb_forall in *. intros c Hin. specialize (Fs c Hin).
    unfold isBeforeCopy. destruct c; simpl in *; congruence.
  - reflexivity.
  - rewrite Hrun. destruct (negb _).
    + exists []. cbn [snd calls]. now rewrite app_nil_r.
    + destruct (Hc (mkWorld (self w1) (calls w1 ++ check))) as [rest [Er _]].
      exists rest. rewrite Er. cbn [calls]. now rewrite app_assoc.
  - intros Hs. rewrite Hrun.
    apply Z.eqb_neq in Hs. now rewrite Hs.
Qed.

Lemma copySubTexture_checks_destination_first_witness :
  let w1 := snd (initializeResources incompleteDevice freshWorld) in
  copySubTexture incompleteDevice (mkContext None) (testTexture TextureType_2D 5) 0 GL_FLOAT
                 (testTexture TextureType_CubeMap 6) TextureTarget_CubeMapPositiveX 0 GL_FLOAT
                 (gl.mkExtents 4 4 1) (gl.mkRectangle 0 0 4 4) (gl.mkOffset 0 0 0)
                 false GL_NONE false false false freshWorld
  = (Ok false,
     mkWorld (self w1)
             (calls w1 ++ destinationCheck (mScratchFBO (self w1))
                                           (testTexture TextureType_CubeMap 6)
                                           TextureTarget_CubeMapPositiveX 0)).
Proof.
  intro w1.
  apply (proj2 (proj2 (proj2 (copySubTexture_checks_destination_first
           incompleteDevice (mkContext None) (testTexture TextureType_2D 5) 0 GL_FLOAT
           (testTexture TextureType_CubeMap 6) TextureTarget_CubeMapPositiveX 0 GL_FLOAT
           (gl.mkExtents 4 4 1) (gl.mkRectangle 0 0 4 4) (gl.mkOffset 0 0 0)
           false GL_NONE false false false freshWorld)))).
  simpl. discriminate.
Defined.

(** ** Clears *)

Lemma clearBindTargets_nonempty f : clearBindTargets f <> [].
Proof.
  unfold clearBindTargets, bindColor.
  destruct (bindDepth f), (bindStencil f); simpl; discriminate.
Qed.

Lemma PrepareForClear_run dev sizedInternalFormat w :
  let f := GetSizedInternalFormatInfo dev sizedInternalFormat in
  exists l,
    PrepareForClear dev sizedInternalFormat w
    = (Ok (clearBindTargets f, clearMaskOf f), mkWorld (self w) (calls w ++ l))
    /\ forallb isClearState l = true.
Proof.
  intros f. unfold PrepareForClear, SetClearState, clearMaskOf. fold f.
  destruct (bindColor f), (bindDepth f), (bindStencil f);
    unfold bind, call, ret; simpl; repeat rewrite <- app_assoc; simpl;
    eexists; (split; [reflexivity | reflexivity]).
Qed.

Lemma UnbindAttachments_run bindTargets w :
  UnbindAttachments GL_FRAMEBUFFER bindTargets w
  = (Ok tt, mkWorld (self w) (calls w ++ unbindCalls bindTargets)).
Proof. unfold UnbindAttachments. apply forEach_calls. Qed.

Lemma attachCheckClear_run dev bindTargets clearMask attach w :
  let log := calls w ++ map attach bindTargets ++ [checkFramebufferStatus GL_FRAMEBUFFER] in
  attachCheckClear dev bindTargets clearMask attach w
  = if framebuffer_status dev log =? GL_FRAMEBUFFER_COMPLETE
    then (Ok None, mkWorld (self w) (log ++ [clear clearMask]))
    else (Ok (Some false), mkWorld (self w) (log ++ unbindCalls bindTargets)).
Proof.
  intros log. unfold attachCheckClear.
  rewrite bind_run, forEach_calls. cbv beta iota.
  rewrite bind_ask. cbn [self calls].
  replace ((calls w ++ map attach bindTargets) ++ [checkFramebufferStatus GL_FRAMEBUFFER])
    with log by (unfold log; now rewrite app_assoc).
  destruct (framebuffer_status dev log =? GL_FRAMEBUFFER_COMPLETE).
  - rewrite bind_call. reflexivity.
  - rewrite bind_run, UnbindAttachments_run. reflexivity.
Qed.

Lemma clearedLayersFrom_quiet attached l l' :
  forallb isQuiet l = true ->
  clearedLayersFrom attached (l ++ l') = clearedLayersFrom attached l'.
Proof.
  induction l as [| c l IH]; simpl; [reflexivity |].
  intros H. apply andb_prop in H. destruct H as [Hc Hl].
  destruct c; simpl in Hc; try discriminate; auto.
Qed.

Lemma clearedLayersFrom_attach source imageIndex bindTargets layer attached l' :
  bindTargets <> [] ->
  clearedLayersFrom attached (attachLayer source imageIndex bindTargets layer ++ l')
  = clearedLayersFrom (Some layer) l'.
Proof.
  intros Hne. destruct bindTargets as [| t ts]; [contradiction |].
  clear Hne. simpl.
  induction ts as [| t' ts IH]; simpl; [reflexivity | exact IH].
Qed.

Lemma attachedLayers_quiet l l' :
  forallb isQuiet l = true -> attachedLayers (l ++ l') = attachedLayers l'.
Proof.
  induction l as [| c l IH]; simpl; [reflexivity |].
  intros H. apply andb_prop in H. destruct H as [Hc Hl].
  destruct c; simpl in Hc; try discriminate; auto.
Qed.

Lemma attachedLayers_step source imageIndex bindTargets layer l' :
  attachedLayers (layerStep source imageIndex bindTargets layer ++ l')
  = repeat layer (List.length bindTargets) ++ attachedLayers l'.
Proof.
  unfold layerStep, attachLayer. rewrite <- app_assoc.
  induction bindTargets as [| t ts IH]; simpl in *; [reflexivity | now rewrite IH].
Qed.

Lemma unbindCalls_quiet bindTargets : forallb isQuiet (unbindCalls bindTargets) = true.
Proof. induction bindTargets; simpl; auto. Qed.

Lemma clearRenderableTexture_prologue dev source sizedInternalFormat numTextureLayers
      imageIndex w :
  let f := GetSizedInternalFormatInfo dev sizedInternalFormat in
  exists b prologue,
    forallb isQuiet prologue = true
    /\ clearRenderableTexture dev source sizedInternalFormat numTextureLayers imageIndex w
       = (returned <-
            (if UseTexImage2D (getType source)
             then
               attachCheckClear dev (clearBindTargets f) (clearMaskOf f) (fun bindTarget =>
                 framebufferTexture2D GL_FRAMEBUFFER bindTarget
                                      (ToGLenum (getTarget imageIndex))
                                      (getTextureID source) (getLevelIndex imageIndex))
             else
               if has_framebufferTexture dev && negb (hasLayer imageIndex)
               then
                 attachCheckClear dev (clearBindTargets f) (clearMaskOf f) (fun bindTarget =>
                   framebufferTexture GL_FRAMEBUFFER bindTarget (getTextureID source)
                                      (getLevelIndex imageIndex))
               else
                 clearLayers dev source imageIndex (clearBindTargets f) (clearMaskOf f)
                             (if hasLayer imageIndex then getLayerIndex imageIndex else 0)
                             (if hasLayer imageIndex then getLayerCount imageIndex
                              else numTextureLayers)) ;;
          match returned with
          | Some r => ret r
          | None => UnbindAttachments GL_FRAMEBUFFER (clearBindTargets f) ;; ret true
          end) (mkWorld b (calls w ++ prologue)).
Proof.
  intros f.
  destruct (run_total _ _ w (initializeResources_succeeds dev) (initializeResources_issues dev))
    as [[] [w1 [setup [Ei [Es Fs]]]]].
  destruct (PrepareForClear_run dev sizedInternalFormat w1) as [lc [Ep Fc]].
  fold f in Ep.
  exists (self w1), (setup ++ lc ++ [bindFramebuffer GL_FRAMEBUFFER (mScratchFBO (self w1))]).
  split.
  - rewrite !forallb_app. simpl.
    assert (Q1 : forallb isQuiet setup = true).
    { rewrite forallb_forall in *. intros c Hc. specialize (Fs c Hc).
      destruct c; simpl in *; congruence. }
    assert (Q2 : forallb isQuiet lc = true).
    { rewrite forallb_forall in *. intros c Hc. specialize (Fc c Hc).
      destruct c; simpl in *; congruence. }
    now rewrite Q1, Q2.
  - unfold clearRenderableTexture.
    rewrite bind_run, Ei. cbv beta iota.
    rewrite bind_run, Ep. cbv beta iota. cbn [fst snd].
    rewrite bind_getSelf, bind_call. cbn [self calls].
    rewrite Es. now rewrite <- !app_assoc.
Qed.

(** C5.  [clearRenderableTexture] on a 3D-class texture of 4 layers with the
    layer range first = 1, count = 2 attaches and checks layer 1, clears it
    if complete, then does the same with layer 2.  Layers 0 and 3 are never
    attached.  The result is [true] exactly when both checks report a complete
    framebuffer; at the first incomplete layer the function unbinds and
    returns [false], the later layer is left alone, and the clear already made
    stays in the log. *)
Theorem clearRenderableTexture_layer_range :
  forall dev source sizedInternalFormat target level w,
    UseTexImage2D (getType source) = false ->
    let imageIndex := mkImageIndex target level true 1 2 in
    let run := clearRenderableTexture dev source sizedInternalFormat 4 imageIndex w in
    let f := GetSizedInternalFormatInfo dev sizedInternalFormat in
    let bindTargets := clearBindTargets f in
    let step := layerStep source imageIndex bindTargets in
    exists prologue,
      forallb isQuiet prologue = true /\
      let issued1 := prologue ++ step 1 in
      let issued2 := issued1 ++ [clear (clearMaskOf f)] ++ step 2 in
      let complete1 :=
        framebuffer_status dev (calls w ++ issued1) =? GL_FRAMEBUFFER_COMPLETE in
      let complete2 :=
        framebuffer_status dev (calls w ++ issued2) =? GL_FRAMEBUFFER_COMPLETE in
      let issued :=
        (if complete1
         then if complete2 then issued2 ++ [clear (clearMaskOf f)] else issued2
         else issued1) ++ unbindCalls bindTargets in
      fst run = Ok (complete1 && complete2)
      /\ calls (snd run) = calls w ++ issued
      /\ clearedLayers issued
         = (if complete1 then if complete2 then [1; 2] else [1] else [])
      /\ (forall layer, In layer (attachedLayers issued) -> layer = 1 \/ layer = 2).
Proof.
  intros dev source sizedInternalFormat target level w H3D imageIndex run f bindTargets step.
  destruct (clearRenderableTexture_prologue dev source sizedInternalFormat 4 imageIndex w)
    as [b [prologue [Hq Hrun]]].
  fold f in Hrun. fold bindTargets in Hrun.
  exists prologue. split; [exact Hq |].
  intros issued1 issued2 complete1 complete2 issued.
  assert (Hne : bindTargets <> []) by apply clearBindTargets_nonempty.
  assert (Hattached : forall k l',
             attachedLayers (step k ++ l') = repeat k (List.length bindTargets) ++ attachedLayers l').
  { intros k l'. apply attachedLayers_step. }
  assert (Hcleared : forall a k l',
             clearedLayersFrom a (step k ++ l') = clearedLayersFrom (Some k) l').
  { intros a k l'. unfold step, layerStep. rewrite <- app_assoc.
    now rewrite clearedLayersFrom_attach. }
  (* the run, layer by layer *)
  assert (Erun : run = (Ok (complete1 && complete2), mkWorld b (calls w ++ issued))).
  { unfold run. rewrite Hrun. rewrite H3D.
    replace (has_framebufferTexture dev && negb (hasLayer imageIndex)) with false
      by (simpl; now rewrite andb_false_r).
    cbn [hasLayer getLayerIndex getLayerCount imageIndex].
    unfold clearLayers. change (range 2) with [0; 1]. cbn [forEachReturning].
    rewrite bind_run, bind_run, attachCheckClear_run. cbn [self calls].
    change (0 + 1) with 1.
    replace (((calls w ++ prologue)
              ++ map (fun bindTarget =>
                        framebufferTextureLayer GL_FRAMEBUFFER bindTarget (getTextureID source)
                                                (getLevelIndex imageIndex) 1) bindTargets
              ++ [checkFramebufferStatus GL_FRAMEBUFFER]))
      with (calls w ++ issued1)
      by (unfold issued1, step, layerStep, attachLayer; now rewrite <- !app_assoc).
    fold complete1. unfold issued. destruct complete1.
    - cbv beta iota. rewrite bind_run, attachCheckClear_run. cbn [self calls].
      change (1 + 1) with 2.
      replace (((calls w ++ issued1) ++ [clear (clearMaskOf f)])
               ++ map (fun bindTarget =>
                         framebufferTextureLayer GL_FRAMEBUFFER bindTarget
                                                 (getTextureID source)
                                                 (getLevelIndex imageIndex) 2) bindTargets
               ++ [checkFramebufferStatus GL_FRAMEBUFFER])
        with (calls w ++ issued2)
        by (unfold issued2, step, layerStep, attachLayer; now rewrite <- !app_assoc).
      fold complete2. destruct complete2; cbv beta iota.
      + unfold ret, bind. cbv beta iota. rewrite UnbindAttachments_run.
        cbn [self calls andb]. now rewrite <- !app_assoc.
      + unfold ret. cbv beta iota. cbn [andb]. now rewrite <- !app_assoc.
    - unfold ret. cbv beta iota. cbn [andb]. now rewrite <- !app_assoc. }
  rewrite Erun. cbn [fst snd calls].
  split; [reflexivity | split; [reflexivity | split]].
  - unfold issued, clearedLayers, issued2, issued1.
    destruct complete1; [destruct complete2 |];
      rewrite <- ?app_assoc;
      rewrite clearedLayersFrom_quiet by exact Hq;
      rewrite Hcleared; simpl; rewrite ?Hcleared; simpl;
      rewrite <- (app_nil_r (unbindCalls bindTargets));
      rewrite clearedLayersFrom_quiet by apply unbindCalls_quiet; reflexivity.
  - intros layer. unfold issued, issued2, issued1.
    assert (Hu : attachedLayers (unbindCalls bindTargets) = []).
    { rewrite <- (app_nil_r (unbindCalls bindTargets)).
      now rewrite attachedLayers_quiet by apply unbindCalls_quiet. }
    destruct complete1; [destruct complete2 |];
      rewrite <- ?app_assoc;
      rewrite attachedLayers_quiet by exact Hq;
      rewrite Hattached; simpl; rewrite ?Hattached; simpl; rewrite Hu;
      rewrite ?app_nil_r; rewrite ?in_app_iff;
      intros Hin; repeat (destruct Hin as [Hin | Hin]);
      try (apply repeat_spec in Hin); auto; contradiction.
Qed.

Lemma clearRenderableTexture_layer_range_witness :
  let run :=
    clearRenderableTexture (testDeviceWith (incompleteAtLayer 2))
                           (testTexture TextureType_3D 9) GL_RGBA8 4
                           (mkImageIndex TextureTarget_3D 0 true 1 2) freshWorld in
  fst run = Ok false /\ clearedLayers (calls (snd run)) = [1].
Proof.
  intro run.
  destruct (clearRenderableTexture_layer_range
              (testDeviceWith (incompleteAtLayer 2)) (testTexture TextureType_3D 9)
              GL_RGBA8 TextureTarget_3D 0 freshWorld eq_refl)
    as [prologue [Hq [Hfst [Hcalls [Hcleared _]]]]].
  fold run in Hfst, Hcalls.
  cbn [framebuffer_status testDeviceWith calls freshWorld app] in Hfst, Hcalls, Hcleared.
  unfold incompleteAtLayer in Hfst, Hcalls, Hcleared.
  rewrite <- !app_assoc in Hfst, Hcalls, Hcleared.
  rewrite !(attachedLayers_quiet prologue) in Hfst, Hcalls, Hcleared by exact Hq.
  rewrite Hfst, Hcalls, Hcleared. split; reflexivity.
Defined.

(** ** The alpha block of the fragment shader *)

Ltac zero_guard :=
  match goal with
  | H : feqb (S754_zero ?s) _ = false |- _ => destruct s; vm_compute in H; discriminate H
  | H : feqb (float_of_int 0) _ = false |- _ => vm_compute in H; discriminate H
  end.

Ltac split_run :=
  cbv -[fmul fdiv feqb fltb fclamp float_of_int uint_mul uint_div Z.eqb f0];
  try match goal with
      | |- context [if feqb ?p ?q then _ else _] => destruct (feqb p q) eqn:?; split_run
      | |- context [if ?c then _ else _] => is_var c; destruct c; split_run
      end.

(** C6.  The fragment shader of every blit variant, read back from the text
    handed to the driver: the body of [main] is the discard of fragments
    outside the source, the sampling of [color], the premultiply block, the
    unmultiply block and two statements that write the output.  The one
    division of the text is in the unmultiply block.  Run on any fragment
    (any uniforms, texture coordinates and sampled color), the statements up
    to and including the unmultiply block never divide by zero: the
    divisions run are none, or the three of RGB by the sampled alpha, which
    is then not zero.  When the sampled alpha is exactly zero (of either
    sign, for a float) the unmultiply block changes nothing: the run with it
    is the run without it, and no division is run. *)
Theorem unmultiply_skipped_at_zero_alpha :
  forall std type,
    let source := fragmentShaderSource (shaderQualifiers std type) type in
    exists discardOutside sample multiply unmultiply rest,
      parseMain source = Some (discardOutside :: sample :: multiply :: unmultiply :: rest)
      /\ map divisionsIn [discardOutside; sample; multiply; unmultiply] = [0; 0; 0; 1]%nat
      /\ Forall (fun s => divisionsIn s = 0%nat) rest
      /\ forall (u_multiply_alpha u_unmultiply_alpha : bool) (v_texcoord : Vector2)
                (texel : Color (sampledScalar type)),
           let env :=
             fragmentInputs type u_multiply_alpha u_unmultiply_alpha v_texcoord texel in
           let before := [discardOutside; sample; multiply] in
           let run := execStmts env (before ++ [unmultiply]) in
           snd run <> Stuck
           /\ Forall (fun divisor => isZeroValue divisor = false) (fst run)
           /\ (fst run = [] \/ fst run = repeat (scalarValue type (ca texel)) 3)
           /\ (exactZero type (ca texel) -> run = execStmts env before /\ fst run = []).
Proof.
  intros std type source.
  destruct std, type.
  all: lazymatch goal with
       | |- context [parseMain ?src] =>
           let r := eval vm_compute in (parseMain src) in
           lazymatch r with
           | Some (?d :: ?s :: ?m :: ?u :: ?rest) => exists d, s, m, u, rest
           end
       end.
  all: split; [vm_compute; reflexivity |].
  all: split; [reflexivity |].
  all: split; [repeat constructor |].
  all: intros mul unmul [x y] [r g b a].
  all: split_run.
  all: (split; [discriminate | split; [| split]]).
  all: try (left; reflexivity).
  all: try (right; reflexivity).
  all: try (repeat constructor; fail).
  all: try (repeat constructor; assumption).
  all: try (repeat constructor;
            match goal with
            | |- (?n =? 0) = false =>
                destruct (Z.eqb_spec n 0) as [-> |]; [zero_guard | reflexivity]
            end).
  all: try (intros [s ->]; first [zero_guard | split; reflexivity]).
  all: try (intros ->; first [zero_guard | split; reflexivity]).
Qed.

Lemma unmultiply_skipped_at_zero_alpha_witness :
  let source :=
    fragmentShaderSource (shaderQualifiers STANDARD_GL_ES FLOAT_TO_UINT) FLOAT_TO_UINT in
  let texel := mkColor (float_of_int 3) (float_of_int 2) f1 (S754_zero true) in
  let env := fragmentInputs FLOAT_TO_UINT false true (mkVector2 f0 f1) texel in
  exists before unmultiply rest,
    parseMain source = Some (before ++ unmultiply :: rest)
    /\ execStmts env (before ++ [unmultiply]) = execStmts env before
    /\ fst (execStmts env (before ++ [unmultiply])) = [].
Proof.
  intros source texel env.
  destruct (unmultiply_skipped_at_zero_alpha STANDARD_GL_ES FLOAT_TO_UINT)
    as (d & s & m & u & rest & Hparse & _ & _ & Hrun).
  exists [d; s; m], u, rest. split; [exact Hparse |].
  exact (proj2 (proj2 (proj2 (Hrun false true (mkVector2 f0 f1) texel)))
               (ex_intro _ true eq_refl)).
Defined.

(** ** The scoped state guard *)

Lemma stateAfter_app l1 l2 s : stateAfter (l1 ++ l2) s = stateAfter l2 (stateAfter l1 s).
Proof. unfold stateAfter. apply fold_left_app. Qed.

Lemma applyCall_neutral c s : isNeutral c = true -> applyCall c s = s.
Proof.
  unfold isNeutral. intros H. destruct s.
  destruct c; simpl in *; try reflexivity; discriminate.
Qed.

Lemma stateAfter_neutral l s : forallb isNeutral l = true -> stateAfter l s = s.
Proof.
  revert s. induction l as [| c l IH]; intros s H; simpl in *; [reflexivity |].
  apply andb_prop in H. destruct H as [Hc Hl].
  unfold stateAfter in *. simpl. rewrite applyCall_neutral by exact Hc. now apply IH.
Qed.

Lemma stateAfter_guardCalls viewport keepState s :
  stateAfter (guardCalls viewport keepState ++ [resumeAllQueries]) s
  = guardedState viewport keepState s.
Proof.
  unfold guardCalls, guardedState, KEEP_SCISSOR. destruct s.
  destruct (Z.land keepState 1 =? 0); reflexivity.
Qed.

Lemma neutral_initializeResources dev : issues isNeutral (initializeResources dev).
Proof.
  apply (issues_weaken isResourceSetup); [| apply initializeResources_issues].
  unfold isNeutral. intros c; destruct c; simpl; congruence.
Qed.

Lemma neutral_getBlitProgram dev type : issues isNeutral (getBlitProgram dev type).
Proof.
  apply (issues_weaken isProgramBuild); [| apply getBlitProgram_issues].
  unfold isNeutral. intros c; destruct c; simpl; congruence.
Qed.

Lemma neutral_orphanScratchTextures : issues isNeutral orphanScratchTextures.
Proof. unfold orphanScratchTextures. repeat step_issues. Qed.

Ltac step_neutral :=
  lazymatch goal with
  | |- issues _ (initializeResources _) => apply neutral_initializeResources
  | |- issues _ (getBlitProgram _ _) => apply neutral_getBlitProgram
  | |- issues _ orphanScratchTextures => apply neutral_orphanScratchTextures
  | |- issues _ (willUseTextureUnit _ _) => apply willUseTextureUnit_issues; reflexivity
  | |- issues _ (setScratchTextureParameter _ _) =>
      apply setScratchTextureParameter_issues; [reflexivity | reflexivity]
  | |- _ => step_issues
  end.

Lemma succeeds_withScopedGLState {A} viewport keepState (body : M A) :
  succeeds body -> succeeds (withScopedGLState viewport keepState body).
Proof.
  intros Hb w. rewrite withScopedGLState_run.
  destruct (Hb (mkWorld (self w) (calls w ++ guardCalls viewport keepState))) as [a Ea].
  destruct (body _) as [r w2]. now exists a.
Qed.

Lemma succeeds_willUseTextureUnit dev u : succeeds (willUseTextureUnit dev u).
Proof. unfold willUseTextureUnit. apply succeeds_when, succeeds_call. Qed.

Lemma succeeds_setScratchTextureParameter param value :
  succeeds (setScratchTextureParameter param value).
Proof. unfold setScratchTextureParameter. repeat step_succeeds. Qed.

Lemma succeeds_orphanScratchTextures : succeeds orphanScratchTextures.
Proof. unfold orphanScratchTextures. repeat step_succeeds. Qed.

Ltac step_total :=
  lazymatch goal with
  | |- succeeds (withScopedGLState _ _ _) => apply succeeds_withScopedGLState
  | |- succeeds (willUseTextureUnit _ _) => apply succeeds_willUseTextureUnit
  | |- succeeds (setScratchTextureParameter _ _) => apply succeeds_setScratchTextureParameter
  | |- succeeds orphanScratchTextures => apply succeeds_orphanScratchTextures
  | |- succeeds (match ?x with Some _ => _ | None => _ end) => destruct x
  | |- _ => step_succeeds
  end.

Lemma guardOutcome_bind {A B} (opened : Result B -> bool) viewport keepState
      (m : M A) (k : A -> M B) :
  issues isNeutral m ->
  (forall e, opened (Failed e) = false) ->
  (forall a, guardOutcome opened viewport keepState (k a)) ->
  guardOutcome opened viewport keepState (bind m k).
Proof.
  intros Hm Hf Hk w. rewrite bind_run.
  destruct (Hm w) as [l1 [E1 F1]].
  destruct (m w) as [[a | e] w1]; cbn [snd] in E1.
  - destruct (Hk a w1) as [l2 [E2 H2]].
    exists (l1 ++ l2). split; [now rewrite E2, E1, app_assoc |].
    destruct (opened (fst (k a w1))).
    + destruct H2 as [[before [body (Ei & Fb & Fy)]] Hs]. split.
      * exists (l1 ++ before), body. rewrite Ei, forallb_app, F1, Fb.
        split; [now rewrite <- !app_assoc | now split].
      * intros s. rewrite stateAfter_app, (stateAfter_neutral l1) by exact F1. apply Hs.
    + now rewrite forallb_app, F1, H2.
  - exists l1. cbn [fst snd]. rewrite Hf. now split.
Qed.

Lemma guardOutcome_ret {A} (opened : Result A -> bool) viewport keepState (a : A) :
  opened (Ok a) = false -> guardOutcome opened viewport keepState (ret a).
Proof.
  intros H w. exists []. cbn [ret fst snd]. unfold ret. cbn [fst snd].
  rewrite H, app_nil_r. now split.
Qed.

Lemma guardOutcome_guard {A} (opened : Result A -> bool) viewport keepState (body : M A) :
  issues isNeutral body ->
  (forall w, opened (fst (body w)) = true) ->
  guardOutcome opened viewport keepState (withScopedGLState viewport keepState body).
Proof.
  intros Hb Ho w. rewrite withScopedGLState_run.
  specialize (Ho (mkWorld (self w) (calls w ++ guardCalls viewport keepState))).
  destruct (Hb (mkWorld (self w) (calls w ++ guardCalls viewport keepState))) as [l [E F]].
  destruct (body _) as [r w2]. cbn [fst snd self calls] in *.
  exists (guardCalls viewport keepState ++ l ++ [resumeAllQueries]).
  split; [rewrite E; now rewrite <- !app_assoc |].
  rewrite Ho. split.
  - exists [], l. now split.
  - intros s.
    rewrite stateAfter_app, stateAfter_app, (stateAfter_neutral l) by exact F.
    rewrite <- stateAfter_app. apply stateAfter_guardCalls.
Qed.

Lemma returnedOk_succeeds {A} (m : M A) :
  succeeds m -> forall w, returnedOk (fst (m w)) = true.
Proof. intros H w. destruct (H w) as [a Ea]. now rewrite Ea. Qed.

Ltac step_outcome :=
  lazymatch goal with
  | |- guardOutcome _ _ _ (bind _ _) =>
      apply guardOutcome_bind; [repeat step_neutral | intro; reflexivity | intro]
  | |- guardOutcome _ _ _ (ret _) => apply guardOutcome_ret; reflexivity
  | |- guardOutcome _ _ _ (withScopedGLState _ _ _) =>
      apply guardOutcome_guard; [repeat step_neutral |]
  | |- guardOutcome _ _ _ (if ?b then _ else _) => destruct b
  | |- guardOutcome _ _ _ (let '(_, _) := ?x in _) => destruct x
  end.

(** C7, as the code has it.  Each operation that opens the guard
    ([copySubImageToLUMAWorkaroundTexture], [copyImageToLUMAWorkaroundTexture],
    [blitColorBufferWithShader], [copySubTexture]) opens it exactly when it
    goes on to draw: when it returns a success (for [copySubTexture] the value
    [true], for the blit a success on a source area that is not clipped
    away).  Then, whatever the render state was, it is left as the guard's
    constructor forced it (scissor test off unless kept, the guard's viewport,
    depth range 0..1, blend and the per-fragment tests off, culling, polygon
    offset and rasterizer discard off, full color mask, transform feedback
    paused) with the queries, and only the queries, resumed by the
    destructor.  When the operation returns before the guard opens (an error,
    an incomplete destination, an empty source area), no call it made touches
    the render state. *)
Theorem guard_resumes_queries_only :
  forall dev context texture textureType target lumaFormat level destOffset sourceArea
         internalFormat source dest sourceAreaIn destAreaIn filter
         sourceTexture sourceLevel sourceComponentType destTexture destTarget destLevel
         destComponentType sourceSize destOffset' needsLumaWorkaround
         unpackFlipY unpackPremultiplyAlpha unpackUnmultiplyAlpha,
    let readSize := getSize (getReadColorbuffer source) in
    let clipped :=
      gl.ClipRectangle (gl.removeReversal sourceAreaIn)
                       (gl.mkRectangle 0 0 (gl.ewidth readSize) (gl.eheight readSize)) in
    guardOutcome returnedOk
                 (gl.mkRectangle 0 0 (gl.width sourceArea) (gl.height sourceArea)) 0
                 (copySubImageToLUMAWorkaroundTexture dev context texture textureType target
                                                      lumaFormat level destOffset sourceArea
                                                      source)
    /\ guardOutcome returnedOk
                    (gl.mkRectangle 0 0 (gl.width sourceArea) (gl.height sourceArea)) 0
                    (copyImageToLUMAWorkaroundTexture dev context texture textureType target
                                                      lumaFormat level sourceArea
                                                      internalFormat source)
    /\ guardOutcome (fun r => returnedOk r
                              && match clipped with Some _ => true | None => false end)
                    (gl.removeReversal destAreaIn) KEEP_SCISSOR
                    (blitColorBufferWithShader dev source dest sourceAreaIn destAreaIn filter)
    /\ guardOutcome returnedTrue
                    (gl.mkRectangle (gl.ox destOffset') (gl.oy destOffset')
                                    (gl.width sourceArea) (gl.height sourceArea)) 0
                    (copySubTexture dev context sourceTexture sourceLevel
                                    sourceComponentType destTexture destTarget destLevel
                                    destComponentType sourceSize sourceArea destOffset'
                                    needsLumaWorkaround lumaFormat unpackFlipY
                                    unpackPremultiplyAlpha unpackUnmultiplyAlpha).
Proof.
  intros.
  assert (Hsub : forall offset,
             guardOutcome returnedOk
               (gl.mkRectangle 0 0 (gl.width sourceArea) (gl.height sourceArea)) 0
               (copySubImageToLUMAWorkaroundTexture dev context texture textureType target
                  lumaFormat level offset sourceArea source)).
  { intros offset. unfold copySubImageToLUMAWorkaroundTexture. repeat step_outcome.
    apply returnedOk_succeeds. repeat step_total. }
  split; [apply Hsub | split; [| split]].
  - unfold copyImageToLUMAWorkaroundTexture. repeat step_outcome. apply Hsub.
  - unfold blitColorBufferWithShader, blitReversal. cbv beta iota zeta.
    fold readSize. fold clipped.
    apply guardOutcome_bind; [repeat step_neutral | intro; reflexivity | intros _].
    apply guardOutcome_bind; [repeat step_neutral | intro; reflexivity | intro].
    destruct clipped as [inBoundsSource |].
    + repeat step_outcome. intros w. rewrite andb_true_r.
      apply returnedOk_succeeds. repeat step_total.
    + apply guardOutcome_ret. reflexivity.
  - unfold copySubTexture. repeat step_outcome.
    intros w.
    match goal with
    | |- returnedTrue (fst (?body w)) = true =>
        assert (Hy : forall w0, fst (body w0) = Ok true); [| now rewrite Hy]
    end.
    clear w. intros w.
    unfold willUseTextureUnit.
    destruct (copySubTextureCoords sourceSize sourceArea unpackFlipY) as [scale offset].
    destruct (has_bindSampler dev), (Bool.eqb unpackPremultiplyAlpha unpackUnmultiplyAlpha);
      reflexivity.
Qed.

(** C7, as stated: the state the guard changed is back to its prior values
    when the operation returns.  It is not: after a blit on a device where
    blending was enabled, blending is disabled. *)
Lemma guard_state_not_reverted :
  let run :=
    blitColorBufferWithShader testDevice (testFramebuffer 7) (testFramebuffer 8)
                              (gl.mkRectangle 0 0 4 4) (gl.mkRectangle 0 0 4 4)
                              GL_NEAREST freshWorld in
  fst run = Ok tt
  /\ blend testRenderState = true
  /\ blend (stateAfter (calls (snd run)) testRenderState) = false
  /\ stateAfter (calls (snd run)) testRenderState <> testRenderState.
Proof.
  intro run.
  assert (E : blend (stateAfter (calls (snd run)) testRenderState) = false)
    by (vm_compute; reflexivity).
  repeat split; try (vm_compute; reflexivity); try exact E.
  intros H. rewrite H in E. discriminate E.
Qed.

(** ** Attachment points and mask of a clear *)

(** C8, as the code has it.  [PrepareForClear] never fails.  It binds the
    depth attachment exactly when the format has depth bits and the stencil
    attachment exactly when it has stencil bits, both for a depth-stencil
    format; it binds the color attachment exactly when it binds neither, so
    color excludes the other two.  One or two attachment points are bound,
    none twice, and the clear mask holds exactly the bits of the bound
    points. *)
Theorem PrepareForClear_targets_and_mask :
  forall dev sizedInternalFormat w,
    let f := GetSizedInternalFormatInfo dev sizedInternalFormat in
    exists bindTargets clearMask issued,
      PrepareForClear dev sizedInternalFormat w
      = (Ok (bindTargets, clearMask), mkWorld (self w) (calls w ++ issued))
      /\ (In GL_DEPTH_ATTACHMENT bindTargets <-> 0 < depthBits f)
      /\ (In GL_STENCIL_ATTACHMENT bindTargets <-> 0 < stencilBits f)
      /\ (In GL_COLOR_ATTACHMENT0 bindTargets
          <-> ~ In GL_DEPTH_ATTACHMENT bindTargets /\ ~ In GL_STENCIL_ATTACHMENT bindTargets)
      /\ (forall t, In t bindTargets ->
                    t = GL_COLOR_ATTACHMENT0 \/ t = GL_DEPTH_ATTACHMENT
                    \/ t = GL_STENCIL_ATTACHMENT)
      /\ NoDup bindTargets
      /\ (1 <= List.length bindTargets <= 2)%nat
      /\ clearMask
         = (if in_dec Z.eq_dec GL_COLOR_ATTACHMENT0 bindTargets then GL_COLOR_BUFFER_BIT else 0)
           + (if in_dec Z.eq_dec GL_DEPTH_ATTACHMENT bindTargets then GL_DEPTH_BUFFER_BIT else 0)
           + (if in_dec Z.eq_dec GL_STENCIL_ATTACHMENT bindTargets
              then GL_STENCIL_BUFFER_BIT else 0).
Proof.
  intros dev sizedInternalFormat w f.
  destruct (PrepareForClear_run dev sizedInternalFormat w) as [issued [Erun _]].
  fold f in Erun.
  exists (clearBindTargets f), (clearMaskOf f), issued.
  split; [exact Erun |].
  unfold clearBindTargets, clearMaskOf, bindColor, bindDepth, bindStencil.
  destruct (Z.ltb_spec 0 (depthBits f)) as [Hd | Hd];
    destruct (Z.ltb_spec 0 (stencilBits f)) as [Hs | Hs];
    cbv [negb andb app];
    (split; [| split; [| split; [| split; [| split; [| split]]]]]).
  all: try (vm_compute; reflexivity).
  all: try (simpl; lia).
  all: try (repeat constructor; simpl; intuition discriminate).
  all: try (simpl; split; intros; try lia; intuition (try discriminate; try lia)).
  all: try (simpl; intros t Ht; intuition auto).
Qed.

(** C8, as stated: exactly one kind of attachment point is bound for every
    sized format.  For GL_DEPTH24_STENCIL8 two are: depth and stencil. *)
Lemma depth_stencil_binds_two_points :
  fst (PrepareForClear testDevice GL_DEPTH24_STENCIL8 freshWorld)
  = Ok ([GL_DEPTH_ATTACHMENT; GL_STENCIL_ATTACHMENT],
        Z.lor GL_DEPTH_BUFFER_BIT GL_STENCIL_BUFFER_BIT)
  /\ List.length [GL_DEPTH_ATTACHMENT; GL_STENCIL_ATTACHMENT] <> 1%nat
  /\ GL_DEPTH_ATTACHMENT <> GL_STENCIL_ATTACHMENT.
Proof. repeat split; discriminate. Qed.

(** ** Orphaning of the scratch textures *)

Lemma storeAfter_app l1 l2 st : storeAfter (l1 ++ l2) st = storeAfter l2 (storeAfter l1 st).
Proof. unfold storeAfter. apply fold_left_app. Qed.

Lemma orphanScratchTextures_run w :
  orphanScratchTextures w = (Ok tt, mkWorld (self w) (calls w ++ orphanCalls (self w))).
Proof.
  unfold orphanScratchTextures, orphanCalls, scratchTextures.
  rewrite bind_getSelf. cbn [forEach flat_map].
  unfold bind, call, ret. cbn [self calls]. now rewrite <- !app_assoc.
Qed.

Lemma endsWith_bind {A B} tail (m : M A) (k : A -> M B) :
  (forall a, endsWith tail (k a)) -> endsWith tail (bind m k).
Proof.
  intros Hk w b w'. unfold bind.
  destruct (m w) as [[a | e] w1]; [apply Hk | discriminate].
Qed.

Lemma endsWith_orphanScratchTextures : endsWith orphanCalls orphanScratchTextures.
Proof.
  intros w a w'. rewrite orphanScratchTextures_run. intros H. inversion H; subst.
  now exists (calls w).
Qed.

Lemma endsWith_guard {A} tail viewport keepState (body : M A) :
  endsWith tail body ->
  endsWith (fun b => tail b ++ [resumeAllQueries]) (withScopedGLState viewport keepState body).
Proof.
  intros Hb w a w'. rewrite withScopedGLState_run.
  destruct (body _) as [r w2] eqn:E. intros H. inversion H; subst.
  destruct (Hb _ _ _ E) as [before Eb].
  exists before. cbn [self calls]. now rewrite Eb, app_assoc.
Qed.

Lemma copySubImageToLUMAWorkaroundTexture_ends
      dev context texture textureType target lumaFormat level destOffset sourceArea source :
  endsWith (fun b => orphanCalls b ++ [resumeAllQueries])
           (copySubImageToLUMAWorkaroundTexture dev context texture textureType target
                                                lumaFormat level destOffset sourceArea source).
Proof.
  unfold copySubImageToLUMAWorkaroundTexture.
  repeat lazymatch goal with
         | |- endsWith _ (bind _ _) => apply endsWith_bind; intro
         | |- endsWith _ (withScopedGLState _ _ _) => apply endsWith_guard
         | |- endsWith _ orphanScratchTextures => apply endsWith_orphanScratchTextures
         end.
Qed.

Lemma orphanCalls_store b st :
  let st' := storeAfter (orphanCalls b ++ [resumeAllQueries]) st in
  orphaned st' (fst (mScratchTextures b)) = true
  /\ orphaned st' (snd (mScratchTextures b)) = true.
Proof.
  destruct b as [[t0 t1] fbo vao vb progs].
  unfold orphanCalls, scratchTextures, storeAfter, orphaned, allocate, update.
  cbn [mScratchTextures fst snd flat_map app fold_left storeCall activeUnit bound2D levelSize].
  change (GL_TEXTURE_2D =? GL_TEXTURE_2D) with true. cbv beta iota.
  unfold allocate, update.
  cbn [activeUnit bound2D levelSize storeCall].
  rewrite !Z.eqb_refl.
  destruct (t0 =? t1); split; reflexivity.
Qed.

(** The LUMA copy, which parks its images in both scratch textures, leaves
    both orphaned: whatever was allocated before, each has a base level of
    size 0 x 0 once the copy has returned successfully. *)
Lemma copySubImageToLUMAWorkaroundTexture_orphans
      dev context texture textureType target lumaFormat level destOffset sourceArea source
      w w' st :
  copySubImageToLUMAWorkaroundTexture dev context texture textureType target lumaFormat
                                      level destOffset sourceArea source w
  = (Ok tt, w') ->
  let store := storeAfter (calls w') st in
  orphaned store (fst (mScratchTextures (self w'))) = true
  /\ orphaned store (snd (mScratchTextures (self w'))) = true.
Proof.
  intros Hrun store.
  destruct (copySubImageToLUMAWorkaroundTexture_ends _ _ _ _ _ _ _ _ _ _ _ _ _ Hrun)
    as [before E].
  unfold store. rewrite E, storeAfter_app. apply orphanCalls_store.
Qed.

Lemma storeAfter_no_allocation l st :
  forallb (fun c => negb (isAllocation c)) l = true ->
  levelSize (storeAfter l st) = levelSize st.
Proof.
  revert st. induction l as [| c l IH]; intros st H; [reflexivity |].
  simpl in H. apply andb_prop in H. destruct H as [Hc Hl].
  unfold storeAfter in *. simpl. rewrite IH by exact Hl.
  destruct c; simpl in Hc; try discriminate; try reflexivity.
  simpl. destruct type; reflexivity.
Qed.

Lemma storeAfter_copy st framebuffer texture format sx sy w h :
  levelSize (storeAfter [ bindFramebuffer GL_READ_FRAMEBUFFER framebuffer;
                          bindTexture TextureType_2D texture;
                          copyTexImage2D GL_TEXTURE_2D 0 format sx sy w h 0 ] st)
            texture 0
  = (w, h).
Proof.
  unfold storeAfter. cbn [fold_left storeCall].
  change (GL_TEXTURE_2D =? GL_TEXTURE_2D) with true. cbv beta iota.
  unfold allocate, update. cbn [activeUnit bound2D levelSize].
  now rewrite !Z.eqb_refl.
Qed.

Lemma blit_unfold dev source dest sourceAreaIn destAreaIn filter w w1 blitProgram w2
      inBoundsSource :
  initializeResources dev w = (Ok tt, w1) ->
  getBlitProgram dev FLOAT_TO_FLOAT w1 = (Ok blitProgram, w2) ->
  gl.ClipRectangle
    (gl.removeReversal sourceAreaIn)
    (gl.mkRectangle 0 0 (gl.ewidth (getSize (getReadColorbuffer source)))
                    (gl.eheight (getSize (getReadColorbuffer source))))
  = Some inBoundsSource ->
  exists continue : M unit,
    issues (fun c => negb (isAllocation c)) continue
    /\ blitColorBufferWithShader dev source dest sourceAreaIn destAreaIn filter w
       = continue
           (mkWorld (self w2)
                    (calls w2
                     ++ [ bindFramebuffer GL_READ_FRAMEBUFFER (getFramebufferID source);
                          bindTexture TextureType_2D (fst (mScratchTextures (self w2)));
                          copyTexImage2D GL_TEXTURE_2D 0
                                         (getFormat (getReadColorbuffer source))
                                         (gl.x inBoundsSource) (gl.y inBoundsSource)
                                         (gl.width inBoundsSource)
                                         (gl.height inBoundsSource) 0 ])).
Proof.
  intros Ei Ep Hclip.
  unfold blitColorBufferWithShader, blitReversal. cbv beta iota zeta.
  rewrite bind_run, Ei. cbv beta iota.
  rewrite bind_run, Ep. cbv beta iota.
  rewrite Hclip.
  rewrite bind_getSelf, !bind_call. cbn [self calls].
  rewrite <- !app_assoc. cbn [app].
  eexists. split; [| reflexivity].
  repeat lazymatch goal with
         | |- issues _ (withScopedGLState _ _ _) =>
             apply issues_withScopedGLState;
             [intros c; destruct c; simpl; congruence |]
         | |- issues _ (willUseTextureUnit _ _) =>
             apply willUseTextureUnit_issues; reflexivity
         | |- issues _ (setScratchTextureParameter _ _) =>
             apply setScratchTextureParameter_issues; [reflexivity | reflexivity]
         | |- _ => step_issues
         end.
Qed.

(** Whenever the clipped source is not empty, [blitColorBufferWithShader]
    returns with the first scratch texture still holding the copy of the
    source: its base level has the extent of the clipped source. *)
Lemma blit_keeps_scratch_allocated dev source dest sourceAreaIn destAreaIn filter w
      inBoundsSource st :
  shadersCompile dev ->
  gl.ClipRectangle
    (gl.removeReversal sourceAreaIn)
    (gl.mkRectangle 0 0 (gl.ewidth (getSize (getReadColorbuffer source)))
                    (gl.eheight (getSize (getReadColorbuffer source))))
  = Some inBoundsSource ->
  let prologue := snd ((initializeResources dev ;; getBlitProgram dev FLOAT_TO_FLOAT) w) in
  let scratch := fst (mScratchTextures (self prologue)) in
  let run := blitColorBufferWithShader dev source dest sourceAreaIn destAreaIn filter w in
  let store := storeAfter (calls (snd run)) st in
  levelSize store scratch 0 = (gl.width inBoundsSource, gl.height inBoundsSource)
  /\ orphaned store scratch = false.
Proof.
  intros Hc Hclip prologue scratch run store.
  destruct (initializeResources_succeeds dev w) as [[] Ei].
  destruct (initializeResources dev w) as [r1 w1] eqn:E1. simpl in Ei. subst r1.
  destruct (getBlitProgram_succeeds dev FLOAT_TO_FLOAT Hc w1) as [blitProgram Ep].
  destruct (getBlitProgram dev FLOAT_TO_FLOAT w1) as [r2 w2] eqn:E2. simpl in Ep. subst r2.
  assert (Ew : prologue = w2).
  { unfold prologue. rewrite bind_run, E1. cbv beta iota. now rewrite E2. }
  destruct (blit_unfold dev source dest sourceAreaIn destAreaIn filter w w1 blitProgram w2
                        inBoundsSource E1 E2 Hclip) as [continue [Hi Hrun]].
  assert (Hsize :
    levelSize store scratch 0 = (gl.width inBoundsSource, gl.height inBoundsSource)).
  { unfold store, run, scratch. rewrite Hrun, Ew.
    match goal with |- context [continue ?w0] => destruct (Hi w0) as [l [El Fl]] end.
    rewrite El. cbn [calls].
    rewrite storeAfter_app, (storeAfter_no_allocation l) by exact Fl.
    rewrite storeAfter_app. apply storeAfter_copy. }
  split; [exact Hsize |].
  unfold orphaned. rewrite Hsize.
  apply ClipRectangle_extent in Hclip.
  apply andb_false_iff. left. apply Z.eqb_neq. lia.
Qed.

(** C9 at the failing input.  [blitColorBufferWithShader] copies the clipped
    source into the first scratch texture and returns without calling
    [orphanScratchTextures]: after a 4 x 4 blit on a fresh helper the first
    scratch texture still holds a 4 x 4 base level. *)
Theorem blit_leaves_scratch_texture_allocated :
  let run :=
    blitColorBufferWithShader testDevice (testFramebuffer 7) (testFramebuffer 8)
                              (gl.mkRectangle 0 0 4 4) (gl.mkRectangle 0 0 4 4)
                              GL_NEAREST freshWorld in
  let store := storeAfter (calls (snd run)) emptyStore in
  let scratch := fst (mScratchTextures (self (snd run))) in
  fst run = Ok tt
  /\ levelSize store scratch 0 = (4, 4)
  /\ orphaned store scratch = false
  /\ forallb (fun c => match c with
                       | texImage2D _ _ _ _ _ _ _ _ => false
                       | _ => true
                       end) (calls (snd run)) = true.
Proof. vm_compute. repeat split; reflexivity. Qed.

(** ** The two LUMA workaround copies *)

(** C10.  [copyImageToLUMAWorkaroundTexture] is the allocation of the
    destination level (storage of the source area's width and height, in the
    given internal format, typed with the framebuffer's implementation read
    type) followed by [copySubImageToLUMAWorkaroundTexture] with the same
    texture, target, LUMA format, level and source area and with destination
    offset (0, 0, 0), run from the state the allocation leaves: same result,
    same calls after the allocation. *)
Theorem copyImage_is_allocation_then_copySubImage :
  forall dev context texture textureType target lumaFormat level sourceArea
         internalFormat source w,
    let allocation :=
      allocateLevelStorage dev context texture textureType target level sourceArea
                           internalFormat source w in
    let queried :=
      calls w ++ [ bindTexture textureType texture;
                   getImplementationColorReadType (getFramebufferID source) ] in
    copyImageToLUMAWorkaroundTexture dev context texture textureType target lumaFormat
                                     level sourceArea internalFormat source w
    = match allocation with
      | (Ok _, allocated) =>
          copySubImageToLUMAWorkaroundTexture dev context texture textureType target
                                              lumaFormat level (gl.mkOffset 0 0 0)
                                              sourceArea source allocated
      | (Failed e, w') => (Failed e, w')
      end
    /\ allocation
       = match color_read_type dev queried with
         | Ok readType =>
             (Ok tt,
              mkWorld (self w)
                      (queried
                       ++ [ setPixelUnpackState defaultPixelUnpackState;
                            setPixelUnpackBuffer (getPixelUnpackBuffer context);
                            texImage2D (ToGLenum target) (static_cast_GLint level)
                                       internalFormat
                                       (gl.width sourceArea) (gl.height sourceArea) 0
                                       (GetUnsizedFormat dev internalFormat) readType ]))
         | Failed e => (Failed e, mkWorld (self w) queried)
         end.
Proof.
  intros. subst allocation queried.
  unfold copyImageToLUMAWorkaroundTexture, allocateLevelStorage.
  rewrite !bind_call. rewrite !bind_run. unfold tryCall. cbn [self calls].
  rewrite <- !app_assoc. cbn [app].
  destruct (color_read_type dev _) as [readType | e].
  - rewrite !bind_call. unfold call. cbn [self calls].
    rewrite <- !app_assoc. cbn [app]. split; reflexivity.
  - split; reflexivity.
Qed.

(** * Further properties of the helper *)

(** ** More rules for running straight-line code *)

Lemma bind_when {B} (b : bool) (m : M unit) (k : unit -> M B) w :
  bind (when b m) k w = if b then bind m k w else k tt w.
Proof. destruct b; reflexivity. Qed.

Lemma bind_modifySelf {B} f (k : unit -> M B) w :
  bind (modifySelf f) k w = k tt (mkWorld (f (self w)) (calls w)).
Proof. reflexivity. Qed.


Lemma forEach_two_calls {A} (f g : A -> GLCall) (xs : list A) w :
  forEach xs (fun a => call (f a) ;; call (g a)) w
  = (Ok tt, mkWorld (self w) (calls w ++ flat_map (fun a => [f a; g a]) xs)).
Proof.
  revert w. induction xs as [| a xs IH]; intros w; simpl.
  - unfold ret. rewrite app_nil_r. now destruct w.
  - rewrite bind_run. unfold bind at 1, call at 1 2. cbn [self calls].
    rewrite IH. cbn [self calls]. now rewrite <- !app_assoc.
Qed.

Lemma world_eta w : mkWorld (self w) (calls w) = w.
Proof. now destruct w. Qed.

(** ** Scratch resources: allocated once, kept afterwards *)

Lemma initializeResources_ready_noop dev w :
  resourcesReady (self w) -> initializeResources dev w = (Ok tt, w).
Proof.
  intros (H0 & H1 & H2 & H3 & H4).
  apply Z.eqb_neq in H0, H1, H2, H3, H4.
  unfold initializeResources.
  rewrite bind_getSelf, H0, bind_when.
  rewrite bind_getSelf, H1, bind_when.
  rewrite bind_getSelf, H2, bind_when.
  rewrite bind_getSelf, H3, bind_when.
  rewrite bind_getSelf, H4. reflexivity.
Qed.

Ltac simp_self :=
  cbn [self calls fst snd mScratchTextures mScratchFBO mVAO mVertexBuffer mBlitPrograms
            set_mScratchTextures set_mScratchFBO set_mVAO set_mVertexBuffer
            set_mBlitPrograms].

Lemma initializeResources_self dev w :
  let b := self w in
  let b' := self (snd (initializeResources dev w)) in
  let fresh before after :=
    before = 0 -> exists l c, after = generated_name dev (l ++ [c]) in
  fst (initializeResources dev w) = Ok tt
  /\ mBlitPrograms b' = mBlitPrograms b
  /\ keptOrWasZero (fst (mScratchTextures b)) (fst (mScratchTextures b'))
  /\ keptOrWasZero (snd (mScratchTextures b)) (snd (mScratchTextures b'))
  /\ keptOrWasZero (mScratchFBO b) (mScratchFBO b')
  /\ keptOrWasZero (mVertexBuffer b) (mVertexBuffer b')
  /\ keptOrWasZero (mVAO b) (mVAO b')
  /\ fresh (fst (mScratchTextures b)) (fst (mScratchTextures b'))
  /\ fresh (snd (mScratchTextures b)) (snd (mScratchTextures b'))
  /\ fresh (mScratchFBO b) (mScratchFBO b')
  /\ fresh (mVertexBuffer b) (mVertexBuffer b')
  /\ fresh (mVAO b) (mVAO b').
Proof.
  destruct w as [[[t0 t1] fbo vao vb progs] log].
  unfold keptOrWasZero. simp_self.
  unfold initializeResources.
  rewrite bind_getSelf, bind_when. simp_self.
  destruct (Z.eqb_spec t0 0) as [E0 | E0]; cbv beta iota.
  1: rewrite bind_assoc, bind_ask, bind_modifySelf.
  all: rewrite bind_getSelf, bind_when; simp_self.
  all: destruct (Z.eqb_spec t1 0) as [E1 | E1]; cbv beta iota.
  all: try rewrite bind_assoc, bind_ask, bind_modifySelf.
  all: rewrite bind_getSelf, bind_when; simp_self.
  all: destruct (Z.eqb_spec fbo 0) as [E2 | E2]; cbv beta iota.
  all: try rewrite bind_assoc, bind_ask, bind_modifySelf.
  all: rewrite bind_getSelf, bind_when; simp_self.
  all: destruct (Z.eqb_spec vb 0) as [E3 | E3]; cbv beta iota.
  all: try rewrite bind_assoc, bind_ask, bind_assoc, bind_modifySelf, bind_assoc, !bind_call.
  all: rewrite bind_getSelf; unfold when; simp_self.
  all: destruct (Z.eqb_spec vao 0) as [E4 | E4]; cbv beta iota.
  all: try rewrite bind_ask, bind_modifySelf, !bind_call, bind_ask, forEach_two_calls.
  all: unfold ret; simp_self.
  all: repeat split; auto; try (intros; congruence); intros _; eexists _, _; reflexivity.
Qed.

(** X1.  Once [initializeResources] has run on a driver that never hands out
    the name 0, all five scratch handles are allocated and running it again
    makes no call and changes nothing. *)
Theorem initializeResources_idempotent :
  forall dev w,
    namesNonZero dev ->
    let w1 := snd (initializeResources dev w) in
    resourcesReady (self w1) /\ initializeResources dev w1 = (Ok tt, w1).
Proof.
  intros dev w Hn w1.
  assert (Hready : resourcesReady (self w1)).
  { destruct (initializeResources_self dev w)
      as (_ & _ & K0 & K1 & K2 & K3 & K4 & F0 & F1 & F2 & F3 & F4).
    fold w1 in K0, K1, K2, K3, K4, F0, F1, F2, F3, F4.
    unfold keptOrWasZero in *.
    assert (Hz : forall before after,
               (before = 0 \/ after = before) ->
               (before = 0 -> exists l c, after = generated_name dev (l ++ [c])) ->
               after <> 0).
    { intros before after K F. destruct (Z.eq_dec before 0) as [E | E].
      - destruct (F E) as [l [c ->]]. apply Hn.
      - destruct K as [K | K]; congruence. }
    repeat split; eapply Hz; eauto. }
  split; [exact Hready | now apply initializeResources_ready_noop].
Qed.

Lemma testDevice_names status : namesNonZero (testDeviceWith status).
Proof. intros l c. simpl. rewrite length_app. simpl. lia. Qed.

Lemma initializeResources_idempotent_witness :
  let w1 := snd (initializeResources testDevice freshWorld) in
  resourcesReady (self w1) /\ initializeResources testDevice w1 = (Ok tt, w1).
Proof.
  apply (initializeResources_idempotent testDevice freshWorld).
  intros l c. simpl. rewrite length_app. simpl. lia.
Defined.

(** X2.  [initializeResources] never fails, never replaces a scratch handle
    that is already allocated, and leaves the program cache alone. *)
Theorem initializeResources_keeps_handles :
  forall dev w,
    let b := self w in
    let b' := self (snd (initializeResources dev w)) in
    fst (initializeResources dev w) = Ok tt
    /\ mBlitPrograms b' = mBlitPrograms b
    /\ keptOrWasZero (fst (mScratchTextures b)) (fst (mScratchTextures b'))
    /\ keptOrWasZero (snd (mScratchTextures b)) (snd (mScratchTextures b'))
    /\ keptOrWasZero (mScratchFBO b) (mScratchFBO b')
    /\ keptOrWasZero (mVertexBuffer b) (mVertexBuffer b')
    /\ keptOrWasZero (mVAO b) (mVAO b').
Proof.
  intros dev w b b'.
  destruct (initializeResources_self dev w) as (R & P & K0 & K1 & K2 & K3 & K4 & _).
  repeat split; assumption.
Qed.

(** ** The program cache: one build per variant *)

Section SelfRules.

Context {A B : Type}.
Variable I : BlitGL -> Prop.

Lemma keepsSelf_bind (m : M A) (k : A -> M B) :
  keepsSelf I m -> (forall a, keepsSelf I (k a)) -> keepsSelf I (bind m k).
Proof.
  intros Hm Hk w Hw. unfold bind. specialize (Hm w Hw).
  destruct (m w) as [[a | e] w1]; simpl in Hm; [now apply Hk | exact Hm].
Qed.

Lemma keepsSelf_ret (a : A) : keepsSelf I (ret a).
Proof. intros w Hw. exact Hw. Qed.

Lemma keepsSelf_fail (e : Error) : keepsSelf I (@fail A e).
Proof. intros w Hw. exact Hw. Qed.

Lemma keepsSelf_ask c (f : list GLCall -> A) : keepsSelf I (ask c f).
Proof. intros w Hw. exact Hw. Qed.

End SelfRules.

Lemma keepsSelf_call I c : keepsSelf I (call c).
Proof. intros w Hw. exact Hw. Qed.

Lemma keepsSelf_getSelf I : keepsSelf I getSelf.
Proof. intros w Hw. exact Hw. Qed.

Lemma keepsSelf_modifySelf (I : BlitGL -> Prop) f :
  (forall b, I b -> I (f b)) -> keepsSelf I (modifySelf f).
Proof. intros H w Hw. now apply H. Qed.

Lemma keepsSelf_CheckCompileStatus I dev shader :
  keepsSelf I (CheckCompileStatus dev shader).
Proof.
  unfold CheckCompileStatus. apply keepsSelf_bind; [apply keepsSelf_ask | intro a].
  destruct (a =? GL_FALSE); [apply keepsSelf_fail | apply keepsSelf_ret].
Qed.

Lemma keepsSelf_CheckLinkStatus I dev prog :
  keepsSelf I (CheckLinkStatus dev prog).
Proof.
  unfold CheckLinkStatus. apply keepsSelf_bind; [apply keepsSelf_ask | intro a].
  destruct (a =? GL_FALSE); [apply keepsSelf_fail | apply keepsSelf_ret].
Qed.

Lemma BlitProgramType_eqb_eq a b : BlitProgramType_eqb a b = true <-> a = b.
Proof. destruct a, b; simpl; split; congruence. Qed.

Lemma BlitProgramType_eqb_refl a : BlitProgramType_eqb a a = true.
Proof. now destruct a. Qed.

(** The steps of a build other than [createProgram] keep any property of the
    helper that the location updates of the entry keep. *)
Ltac step_keeps :=
  lazymatch goal with
  | |- keepsSelf _ (bind _ _) => apply keepsSelf_bind; [| intro]
  | |- keepsSelf _ (ret _) => apply keepsSelf_ret
  | |- keepsSelf _ (call _) => apply keepsSelf_call
  | |- keepsSelf _ (ask _ _) => apply keepsSelf_ask
  | |- keepsSelf _ getSelf => apply keepsSelf_getSelf
  | |- keepsSelf _ (CheckCompileStatus _ _) => apply keepsSelf_CheckCompileStatus
  | |- keepsSelf _ (CheckLinkStatus _ _) => apply keepsSelf_CheckLinkStatus
  | |- keepsSelf _ (modifyProgram _ _) => apply keepsSelf_modifySelf
  | |- keepsSelf _ (if ?b then _ else _) => destruct b
  end.

Lemma getBlitProgram_keeps dev type (I : BlitGL -> Prop) :
  (forall b f, I b ->
     I (set_mBlitPrograms
          (fun t => if BlitProgramType_eqb t type then f (mBlitPrograms b t)
                    else mBlitPrograms b t) b)) ->
  keepsSelf I (getBlitProgram dev type).
Proof.
  intros HI. unfold getBlitProgram.
  repeat step_keeps; intros b Hb; apply HI; exact Hb.
Qed.

Lemma getBlitProgram_hit dev type w :
  program (mBlitPrograms (self w) type) <> 0 ->
  getBlitProgram dev type w = (Ok (mBlitPrograms (self w) type), w).
Proof.
  intros H. apply Z.eqb_neq in H.
  unfold getBlitProgram. rewrite bind_getSelf, H, bind_ret, bind_getSelf. reflexivity.
Qed.

Lemma getBlitProgram_returns_entry dev type w blitProgram w' :
  getBlitProgram dev type w = (Ok blitProgram, w') ->
  blitProgram = mBlitPrograms (self w') type.
Proof.
  unfold getBlitProgram. rewrite bind_getSelf, bind_run.
  match goal with |- context [match ?m w with _ => _ end] => destruct (m w) as [[u | e] w1] end.
  - rewrite bind_getSelf. unfold ret. intros H. now inversion H.
  - discriminate.
Qed.

Lemma getBlitProgram_miss_program dev type w :
  program (mBlitPrograms (self w) type) = 0 ->
  program (mBlitPrograms (self (snd (getBlitProgram dev type w))) type)
  = generated_name dev (calls w ++ [createProgram]).
Proof.
  intros H. unfold getBlitProgram.
  rewrite bind_getSelf, H. change (0 =? 0) with true. cbv iota.
  rewrite bind_assoc, bind_ask, bind_assoc. unfold modifyProgram at 1.
  rewrite bind_modifySelf.
  set (prog := generated_name dev (calls w ++ [createProgram])).
  match goal with
  | |- context [snd (?m ?w0)] =>
      assert (K : keepsSelf (fun b => program (mBlitPrograms b type) = prog) m);
      [| apply (K w0)]
  end.
  - repeat step_keeps; intros b Hb; simp_self;
      rewrite BlitProgramType_eqb_refl; exact Hb.
  - simp_self. now rewrite BlitProgramType_eqb_refl.
Qed.

Section FailureRules.

Context {A B : Type}.
Variable P : Error -> Prop.

Lemma failsWith_bind (m : M A) (k : A -> M B) :
  failsWith P m -> (forall a, failsWith P (k a)) -> failsWith P (bind m k).
Proof.
  intros Hm Hk w e w'. unfold bind.
  destruct (m w) as [[a | e1] w1] eqn:E.
  - apply Hk.
  - intros H. inversion H; subst. eapply Hm; eauto.
Qed.

Lemma failsWith_ret (a : A) : failsWith P (ret a).
Proof. intros w e w' H. discriminate H. Qed.

Lemma failsWith_ask c (f : list GLCall -> A) : failsWith P (ask c f).
Proof. intros w e w' H. discriminate H. Qed.

Lemma failsWith_fail (e : Error) : P e -> failsWith P (@fail A e).
Proof. intros He w e' w' H. inversion H; subst. exact He. Qed.

End FailureRules.

Lemma failsWith_call P c : failsWith P (call c).
Proof. intros w e w' H. discriminate H. Qed.

Lemma failsWith_getSelf P : failsWith P getSelf.
Proof. intros w e w' H. discriminate H. Qed.

Lemma failsWith_modifySelf P f : failsWith P (modifySelf f).
Proof. intros w e w' H. discriminate H. Qed.

Ltac step_failsWith :=
  lazymatch goal with
  | |- failsWith _ (bind _ _) => apply failsWith_bind; [| intro]
  | |- failsWith _ (ret _) => apply failsWith_ret
  | |- failsWith _ (fail _) => apply failsWith_fail; reflexivity
  | |- failsWith _ (call _) => apply failsWith_call
  | |- failsWith _ (ask _ _) => apply failsWith_ask
  | |- failsWith _ getSelf => apply failsWith_getSelf
  | |- failsWith _ (modifySelf _) => apply failsWith_modifySelf
  | |- failsWith _ (modifyProgram _ _) => apply failsWith_modifySelf
  | |- failsWith _ (if ?b then _ else _) => destruct b
  end.

Lemma getBlitProgram_fails_out_of_memory dev type :
  failsWith (fun e => errorCode e = GL_OUT_OF_MEMORY) (getBlitProgram dev type).
Proof.
  unfold getBlitProgram, CheckCompileStatus, CheckLinkStatus. repeat step_failsWith.
Qed.

(** X3.  A program is built once per variant: whenever [getBlitProgram]
    returns a program (on a driver that never hands out the name 0), the
    program is not 0, it is the entry now in the cache, and asking for the
    same variant again returns it without a single GL call and without
    changing the helper. *)
Theorem getBlitProgram_built_once :
  forall dev type w blitProgram w',
    namesNonZero dev ->
    getBlitProgram dev type w = (Ok blitProgram, w') ->
    program blitProgram <> 0
    /\ blitProgram = mBlitPrograms (self w') type
    /\ getBlitProgram dev type w' = (Ok blitProgram, w').
Proof.
  intros dev type w blitProgram w' Hn Hrun.
  pose proof (getBlitProgram_returns_entry dev type w blitProgram w' Hrun) as Hentry.
  assert (Hprog : program blitProgram <> 0).
  { destruct (Z.eq_dec (program (mBlitPrograms (self w) type)) 0) as [E | E].
    - pose proof (getBlitProgram_miss_program dev type w E) as Hm.
      rewrite Hrun in Hm. simpl in Hm. rewrite Hentry, Hm. apply Hn.
    - rewrite (getBlitProgram_hit dev type w E) in Hrun. inversion Hrun; subst. exact E. }
  split; [exact Hprog | split; [exact Hentry |]].
  rewrite Hentry in Hprog |- *. now apply getBlitProgram_hit.
Qed.

Lemma getBlitProgram_built_once_witness :
  let first := getBlitProgram testDevice FLOAT_TO_UINT freshWorld in
  exists blitProgram,
    fst first = Ok blitProgram
    /\ program blitProgram <> 0
    /\ getBlitProgram testDevice FLOAT_TO_UINT (snd first) = (Ok blitProgram, snd first).
Proof.
  intro first.
  destruct first as [[blitProgram | e] w'] eqn:E; [| vm_compute in E; discriminate E].
  exists blitProgram. split; [reflexivity |].
  destruct (getBlitProgram_built_once testDevice FLOAT_TO_UINT freshWorld blitProgram w'
                                      (testDevice_names _) E) as (Hp & _ & Hhit).
  split; assumption.
Defined.

(** X4.  [getBlitProgram] touches nothing of the helper but the cache entry
    of the variant asked for: the scratch handles and the entries of the other
    variants are as before, whether the build succeeds, fails or is skipped. *)
Theorem getBlitProgram_frame :
  forall dev type w,
    sameButEntry type (self w) (self (snd (getBlitProgram dev type w))).
Proof.
  intros dev type w.
  apply (getBlitProgram_keeps dev type (sameButEntry type (self w))).
  - intros b f (H0 & H1 & H2 & H3 & H4). unfold sameButEntry. simp_self.
    repeat split; auto.
    intros t. rewrite BlitProgramType_eqb_refl.
    destruct (BlitProgramType_eqb t type) eqn:E.
    + apply BlitProgramType_eqb_eq in E. now subst.
    + rewrite H4, E. reflexivity.
  - unfold sameButEntry. repeat split; auto.
    intros t. destruct (BlitProgramType_eqb t type) eqn:E; [| reflexivity].
    apply BlitProgramType_eqb_eq in E. now subst.
Qed.

(** X5.  A failed build stays in the cache.  When [getBlitProgram] has to
    build and the build fails, the error is GL_OUT_OF_MEMORY, the program name
    obtained from [createProgram] is left in the entry, and the next request
    for the variant returns that entry as a success, without building. *)
Theorem getBlitProgram_failed_build_is_cached :
  forall dev type w e w',
    namesNonZero dev ->
    program (mBlitPrograms (self w) type) = 0 ->
    getBlitProgram dev type w = (Failed e, w') ->
    errorCode e = GL_OUT_OF_MEMORY
    /\ program (mBlitPrograms (self w') type) = generated_name dev (calls w ++ [createProgram])
    /\ getBlitProgram dev type w' = (Ok (mBlitPrograms (self w') type), w').
Proof.
  intros dev type w e w' Hn Hzero Hrun.
  split; [exact (getBlitProgram_fails_out_of_memory dev type w e w' Hrun) |].
  pose proof (getBlitProgram_miss_program dev type w Hzero) as Hm.
  rewrite Hrun in Hm. simpl in Hm.
  split; [exact Hm |].
  apply getBlitProgram_hit. rewrite Hm. apply Hn.
Qed.

Lemma getBlitProgram_failed_build_is_cached_witness :
  let first := getBlitProgram brokenCompilerDevice FLOAT_TO_FLOAT freshWorld in
  exists e,
    fst first = Failed e
    /\ errorCode e = GL_OUT_OF_MEMORY
    /\ getBlitProgram brokenCompilerDevice FLOAT_TO_FLOAT (snd first)
       = (Ok (mBlitPrograms (self (snd first)) FLOAT_TO_FLOAT), snd first).
Proof.
  intro first.
  destruct first as [[blitProgram | e] w'] eqn:E; [vm_compute in E; discriminate E |].
  exists e. split; [reflexivity |].
  assert (Hn : namesNonZero brokenCompilerDevice).
  { intros l c. simpl. rewrite length_app. simpl. lia. }
  destruct (getBlitProgram_failed_build_is_cached
              brokenCompilerDevice FLOAT_TO_FLOAT freshWorld e w' Hn eq_refl E)
    as (He & _ & Hhit).
  split; assumption.
Defined.

Lemma CheckCompileStatus_issues_any p dev shader :
  p (getShaderiv shader GL_COMPILE_STATUS) = true -> issues p (CheckCompileStatus dev shader).
Proof.
  intros H. unfold CheckCompileStatus.
  apply issues_bind; [now apply issues_ask | intro a].
  destruct (a =? GL_FALSE); [apply issues_fail | apply issues_ret].
Qed.

Lemma CheckLinkStatus_issues_any p dev prog :
  p (getProgramiv prog GL_LINK_STATUS) = true -> issues p (CheckLinkStatus dev prog).
Proof.
  intros H. unfold CheckLinkStatus.
  apply issues_bind; [now apply issues_ask | intro a].
  destruct (a =? GL_FALSE); [apply issues_fail | apply issues_ret].
Qed.

(** X6.  The shader text and the program build agree, for every variant on
    both flavours of GL: the only sources [getBlitProgram] hands to the driver
    are the variant's vertex and fragment text, and each of the five uniforms
    it looks up is declared ("uniform <type> <name>;") in one of them. *)
Theorem getBlitProgram_uniforms_declared :
  forall dev type,
    issues (agreesWithSources (standard dev) type) (getBlitProgram dev type).
Proof.
  intros dev type. unfold getBlitProgram.
  destruct (standard dev), type;
    repeat lazymatch goal with
           | |- issues _ (CheckCompileStatus _ _) =>
               apply CheckCompileStatus_issues_any; reflexivity
           | |- issues _ (CheckLinkStatus _ _) =>
               apply CheckLinkStatus_issues_any; reflexivity
           | |- issues _ (call (shaderSource _ _)) =>
               apply issues_call; vm_compute; reflexivity
           | |- issues _ (ask (getUniformLocation _ _) _) =>
               apply issues_ask; vm_compute; reflexivity
           | |- _ => step_issues
           end.
Qed.

(** ** The native sub-image copy *)

(** X7.  [copyTexSubImage] never fails.  It attaches the source level to the
    scratch framebuffer and checks it; the result is [true] exactly when the
    framebuffer is complete, and only then the destination is bound and the
    one native copy is issued.  No program is built, nothing is drawn, and the
    source level is left attached to the scratch framebuffer. *)
Theorem copyTexSubImage_behaviour :
  forall dev source sourceLevel dest destTarget destLevel sourceArea destOffset w,
    let w1 := snd (initializeResources dev w) in
    let check :=
      [ bindFramebuffer GL_FRAMEBUFFER (mScratchFBO (self w1));
        framebufferTexture2D GL_FRAMEBUFFER GL_COLOR_ATTACHMENT0 GL_TEXTURE_2D
                             (getTextureID source) (static_cast_GLint sourceLevel);
        checkFramebufferStatus GL_FRAMEBUFFER ] in
    let complete :=
      framebuffer_status dev (calls w1 ++ check) =? GL_FRAMEBUFFER_COMPLETE in
    let copy :=
      [ bindTexture (getType dest) (getTextureID dest);
        copyTexSubImage2D (ToGLenum destTarget) (static_cast_GLint destLevel)
                          (gl.ox destOffset) (gl.oy destOffset)
                          (gl.x sourceArea) (gl.y sourceArea)
                          (gl.width sourceArea) (gl.height sourceArea) ] in
    copyTexSubImage dev source sourceLevel dest destTarget destLevel sourceArea destOffset w
    = (Ok complete,
       mkWorld (self w1) (calls w1 ++ check ++ if complete then copy else []))
    /\ forallb (fun c => negb (isProgramBuild c) && negb (isDraw c) && isNeutral c)
               (check ++ copy) = true.
Proof.
  intros. split; [| reflexivity].
  destruct (run_total _ _ w (initializeResources_succeeds dev) (initializeResources_issues dev))
    as [[] [w1' [setup [Ei _]]]].
  assert (Ew : w1 = w1') by (unfold w1; now rewrite Ei). clearbody w1. subst w1'.
  unfold copyTexSubImage.
  rewrite bind_run, Ei. cbv beta iota.
  rewrite bind_getSelf, !bind_call, bind_ask. cbn [self calls].
  rewrite <- !app_assoc. cbn [app]. fold check. fold complete.
  destruct complete; cbn [negb].
  - rewrite !bind_call. unfold ret. cbn [self calls].
    now rewrite <- !app_assoc.
  - unfold ret. now rewrite app_nil_r.
Qed.

(** ** Clears *)

Lemma clear_prologue dev sizedInternalFormat w :
  let f := GetSizedInternalFormatInfo dev sizedInternalFormat in
  exists b prologue,
    forallb (fun c => isQuiet c && negb (isStatusCheck c)) prologue = true
    /\ (forall s, stateAfter prologue s = clearedState (bindColor f) s)
    /\ (initializeResources dev ;;
        prepared <- PrepareForClear dev sizedInternalFormat ;;
        b <- getSelf ;;
        call (bindFramebuffer GL_FRAMEBUFFER (mScratchFBO b)) ;;
        ret prepared) w
       = (Ok (clearBindTargets f, clearMaskOf f), mkWorld b (calls w ++ prologue)).
Proof.
  intros f.
  destruct (run_total _ _ w (initializeResources_succeeds dev) (initializeResources_issues dev))
    as [[] [w1 [setup [Ei [Es Fs]]]]].
  assert (Hprep : exists lc,
             PrepareForClear dev sizedInternalFormat w1
             = (Ok (clearBindTargets f, clearMaskOf f), mkWorld (self w1) (calls w1 ++ lc))
             /\ forallb (fun c => isQuiet c && negb (isStatusCheck c)) lc = true
             /\ forall s, stateAfter lc s = clearedState (bindColor f) s).
  { unfold PrepareForClear, SetClearState, clearMaskOf. fold f.
    destruct (bindColor f), (bindDepth f), (bindStencil f);
      unfold bind, call, ret; simpl; repeat rewrite <- app_assoc; simpl;
      eexists; (split; [reflexivity | split; [reflexivity | intros []; reflexivity]]). }
  destruct Hprep as [lc [Ep [Qc Sc]]].
  exists (self w1), (setup ++ lc ++ [bindFramebuffer GL_FRAMEBUFFER (mScratchFBO (self w1))]).
  assert (Qs : forallb (fun c => isQuiet c && negb (isStatusCheck c)) setup = true).
  { rewrite forallb_forall in *. intros c Hc. specialize (Fs c Hc).
    destruct c; simpl in *; congruence. }
  assert (Ns : forallb isNeutral setup = true).
  { rewrite forallb_forall in *. intros c Hc. specialize (Fs c Hc).
    unfold isNeutral. destruct c; simpl in *; congruence. }
  split; [| split].
  - rewrite !forallb_app, Qs, Qc. reflexivity.
  - intros s. rewrite !stateAfter_app, (stateAfter_neutral setup) by exact Ns.
    rewrite Sc. unfold stateAfter. simpl. now destruct s.
  - rewrite bind_run, Ei. cbv beta iota.
    rewrite bind_run, Ep. cbv beta iota.
    rewrite bind_getSelf, bind_call. unfold ret. cbn [self calls].
    rewrite Es. now rewrite <- !app_assoc.
Qed.

(** X8.  [clearRenderbuffer] never fails and never asks whether the scratch
    framebuffer is complete: it attaches the renderbuffer to every attachment
    point the format calls for, clears once with the format's mask, and
    detaches the same points in the same order. *)
Theorem clearRenderbuffer_behaviour :
  forall dev renderbufferID sizedInternalFormat w,
    let f := GetSizedInternalFormatInfo dev sizedInternalFormat in
    let bindTargets := clearBindTargets f in
    exists b prologue,
      forallb (fun c => isQuiet c && negb (isStatusCheck c)) prologue = true
      /\ clearRenderbuffer dev renderbufferID sizedInternalFormat w
         = (Ok tt,
            mkWorld b
                    (calls w ++ prologue
                     ++ map (fun bindTarget =>
                               framebufferRenderbuffer GL_FRAMEBUFFER bindTarget
                                                       GL_RENDERBUFFER renderbufferID)
                            bindTargets
                     ++ [clear (clearMaskOf f)]
                     ++ map (fun bindTarget =>
                               framebufferRenderbuffer GL_FRAMEBUFFER bindTarget
                                                       GL_RENDERBUFFER 0)
                            bindTargets)).
Proof.
  intros dev renderbufferID sizedInternalFormat w f bindTargets.
  destruct (clear_prologue dev sizedInternalFormat w) as [b [prologue [Hq [_ Hrun]]]].
  fold f in Hrun. exists b, prologue. split; [exact Hq |].
  unfold clearRenderbuffer.
  rewrite bind_run in Hrun. rewrite bind_run.
  destruct (initializeResources dev w) as [[[] | e] w1]; [| discriminate Hrun].
  cbv beta iota in Hrun |- *.
  rewrite bind_run in Hrun. rewrite bind_run.
  destruct (PrepareForClear dev sizedInternalFormat w1) as [[prepared | e] w2];
    [| discriminate Hrun].
  cbv beta iota in Hrun |- *.
  rewrite bind_getSelf, bind_call in Hrun. unfold ret in Hrun. inversion Hrun; subst.
  rewrite bind_getSelf, bind_call. cbn [fst snd self calls].
  rewrite bind_run, forEach_calls. cbv beta iota. rewrite bind_call.
  rewrite forEach_calls. cbn [self calls].
  match goal with H : _ = calls w ++ prologue |- _ => rewrite H end.
  now rewrite <- !app_assoc.
Qed.

(** What is left of [clearRenderableTexture] once the clear state is set and
    the scratch framebuffer bound. *)
Lemma clearRenderableTexture_after_prologue dev source sizedInternalFormat numTextureLayers
      imageIndex w :
  let f := GetSizedInternalFormatInfo dev sizedInternalFormat in
  exists b prologue,
    forallb (fun c => isQuiet c && negb (isStatusCheck c)) prologue = true
    /\ (forall s, stateAfter prologue s = clearedState (bindColor f) s)
    /\ clearRenderableTexture dev source sizedInternalFormat numTextureLayers imageIndex w
       = (returned <-
            (if UseTexImage2D (getType source)
             then
               attachCheckClear dev (clearBindTargets f) (clearMaskOf f) (fun bindTarget =>
                 framebufferTexture2D GL_FRAMEBUFFER bindTarget
                                      (ToGLenum (getTarget imageIndex))
                                      (getTextureID source) (getLevelIndex imageIndex))
             else
               if has_framebufferTexture dev && negb (hasLayer imageIndex)
               then
                 attachCheckClear dev (clearBindTargets f) (clearMaskOf f) (fun bindTarget =>
                   framebufferTexture GL_FRAMEBUFFER bindTarget (getTextureID source)
                                      (getLevelIndex imageIndex))
               else
                 clearLayers dev source imageIndex (clearBindTargets f) (clearMaskOf f)
                             (if hasLayer imageIndex then getLayerIndex imageIndex else 0)
                             (if hasLayer imageIndex then getLayerCount imageIndex
                              else numTextureLayers)) ;;
          match returned with
          | Some r => ret r
          | None => UnbindAttachments GL_FRAMEBUFFER (clearBindTargets f) ;; ret true
          end) (mkWorld b (calls w ++ prologue)).
Proof.
  intros f.
  destruct (clear_prologue dev sizedInternalFormat w) as [b [prologue [Hq [Hs Hrun]]]].
  fold f in Hrun, Hs. exists b, prologue. split; [exact Hq | split; [exact Hs |]].
  unfold clearRenderableTexture.
  rewrite bind_run in Hrun. rewrite bind_run.
  destruct (initializeResources dev w) as [[[] | e] w1]; [| discriminate Hrun].
  cbv beta iota in Hrun |- *.
  rewrite bind_run in Hrun. rewrite bind_run.
  destruct (PrepareForClear dev sizedInternalFormat w1) as [[prepared | e] w2];
    [| discriminate Hrun].
  cbv beta iota in Hrun |- *.
  rewrite bind_getSelf, bind_call in Hrun. unfold ret in Hrun. inversion Hrun; subst.
  rewrite bind_getSelf, bind_call. cbn [fst snd self calls].
  match goal with H : _ = calls w ++ prologue |- _ => rewrite H end.
  reflexivity.
Qed.

(** The per-layer loop, for any list of layers: the layers cleared are a
    prefix of the list; the loop leaves the function (with [false], after
    unbinding) exactly when it stops short. *)
Lemma clearLayers_loop dev source imageIndex bindTargets clearMask firstLayer :
  bindTargets <> [] ->
  forall (xs : list Z) w attached,
  exists k issued,
    (k <= List.length xs)%nat
    /\ forEachReturning xs (fun layer : Z =>
         attachCheckClear dev bindTargets clearMask (fun bindTarget =>
           framebufferTextureLayer GL_FRAMEBUFFER bindTarget (getTextureID source)
                                   (getLevelIndex imageIndex) (layer + firstLayer))) w
       = (Ok (if (k =? List.length xs)%nat then None else Some false),
          mkWorld (self w) (calls w ++ issued))
    /\ clearedLayersFrom attached issued
       = map (fun layer => layer + firstLayer) (firstn k xs)
    /\ (forall l, In l (attachedLayers issued) ->
                  In l (map (fun layer => layer + firstLayer) (firstn (S k) xs)))
    /\ ((k < List.length xs)%nat -> exists before, issued = before ++ unbindCalls bindTargets).
Proof.
  intros Hne xs. induction xs as [| x xs IH]; intros w attached.
  - exists 0%nat, []. simpl. unfold ret. rewrite app_nil_r, world_eta.
    repeat split; auto; try contradiction. intros H. inversion H.
  - cbn [forEachReturning]. rewrite bind_run, attachCheckClear_run. cbn [self calls].
    set (step := layerStep source imageIndex bindTargets (x + firstLayer)).
    replace (map (fun bindTarget =>
                    framebufferTextureLayer GL_FRAMEBUFFER bindTarget (getTextureID source)
                                            (getLevelIndex imageIndex) (x + firstLayer))
                 bindTargets ++ [checkFramebufferStatus GL_FRAMEBUFFER])
      with step by reflexivity.
    destruct (framebuffer_status dev (calls w ++ step) =? GL_FRAMEBUFFER_COMPLETE).
    + cbv beta iota.
      destruct (IH (mkWorld (self w) ((calls w ++ step) ++ [clear clearMask]))
                   (Some (x + firstLayer)))
        as [k [issued (Hk & Hrun & Hcl & Hat & Hend)]].
      exists (S k), (step ++ [clear clearMask] ++ issued).
      split; [simpl; lia |].
      split; [| split; [| split]].
      * rewrite Hrun. cbn [self calls]. cbn [List.length Nat.eqb].
        now rewrite <- !app_assoc.
      * unfold step, layerStep. rewrite <- app_assoc.
        rewrite clearedLayersFrom_attach by exact Hne.
        cbn [app clearedLayersFrom firstn map]. f_equal. exact Hcl.
      * intros l. unfold step. rewrite attachedLayers_step. cbn [app attachedLayers].
        rewrite in_app_iff. intros [Hin | Hin].
        -- apply repeat_spec in Hin. subst. left. reflexivity.
        -- right. change (firstn (S k) xs) with (firstn (S k) xs).
           apply Hat in Hin. exact Hin.
      * intros Hlt. destruct Hend as [before Hb]; [simpl in Hlt; lia |].
        exists (step ++ [clear clearMask] ++ before). rewrite Hb.
        now rewrite <- !app_assoc.
    + cbv beta iota. exists 0%nat, (step ++ unbindCalls bindTargets).
      split; [simpl; lia |].
      split; [| split; [| split]].
      * unfold ret. cbn [List.length Nat.eqb]. now rewrite <- !app_assoc.
      * unfold step, layerStep. rewrite <- app_assoc.
        rewrite clearedLayersFrom_attach by exact Hne.
        cbn [app clearedLayersFrom].
        rewrite <- (app_nil_r (unbindCalls bindTargets)).
        now rewrite clearedLayersFrom_quiet by apply unbindCalls_quiet.
      * intros l. unfold step. rewrite attachedLayers_step.
        rewrite <- (app_nil_r (unbindCalls bindTargets)).
        rewrite attachedLayers_quiet by apply unbindCalls_quiet.
        cbn [attachedLayers]. rewrite app_nil_r. intros Hin.
        apply repeat_spec in Hin. subst. left. reflexivity.
      * intros _. now exists step.
Qed.

(** The per-layer loop with its log: which checks were passed and which one
    stopped it. *)
Lemma clearLayers_loop_log dev source imageIndex bindTargets clearMask firstLayer :
  forall (xs : list Z) w,
  let layers := map (fun layer : Z => layer + firstLayer) xs in
  exists k,
    (k <= List.length xs)%nat
    /\ forEachReturning xs (fun layer : Z =>
         attachCheckClear dev bindTargets clearMask (fun bindTarget =>
           framebufferTextureLayer GL_FRAMEBUFFER bindTarget (getTextureID source)
                                   (getLevelIndex imageIndex) (layer + firstLayer))) w
       = (Ok (if (k =? List.length xs)%nat then None else Some false),
          mkWorld (self w)
                  (calls w
                   ++ clearedSteps source imageIndex bindTargets clearMask (firstn k layers)
                   ++ stoppedStep source imageIndex bindTargets layers k
                   ++ (if (k =? List.length xs)%nat then [] else unbindCalls bindTargets)))
    /\ (forall j layer,
           (j < k)%nat -> nth_error layers j = Some layer ->
           framebuffer_status dev
             (calls w
              ++ clearedSteps source imageIndex bindTargets clearMask (firstn j layers)
              ++ layerStep source imageIndex bindTargets layer)
           = GL_FRAMEBUFFER_COMPLETE)
    /\ (forall layer,
           nth_error layers k = Some layer ->
           framebuffer_status dev
             (calls w
              ++ clearedSteps source imageIndex bindTargets clearMask (firstn k layers)
              ++ layerStep source imageIndex bindTargets layer)
           <> GL_FRAMEBUFFER_COMPLETE).
Proof.
  intros xs. induction xs as [| x xs IH]; intros w layers.
  - exists 0%nat. cbn [forEachReturning List.length Nat.eqb]. unfold ret.
    subst layers. cbn [map firstn]. unfold stoppedStep, clearedSteps.
    cbn [nth_error flat_map app]. rewrite app_nil_r, world_eta.
    split; [lia |]. split; [reflexivity |]. split.
    + intros j layer Hj. inversion Hj.
    + intros layer H. discriminate H.
  - cbn [forEachReturning]. rewrite bind_run, attachCheckClear_run. cbn [self calls].
    set (step := layerStep source imageIndex bindTargets (x + firstLayer)).
    replace (map (fun bindTarget =>
                    framebufferTextureLayer GL_FRAMEBUFFER bindTarget (getTextureID source)
                                            (getLevelIndex imageIndex) (x + firstLayer))
                 bindTargets ++ [checkFramebufferStatus GL_FRAMEBUFFER])
      with step by reflexivity.
    destruct (Z.eqb_spec (framebuffer_status dev (calls w ++ step)) GL_FRAMEBUFFER_COMPLETE)
      as [Hc | Hc].
    + cbv beta iota.
      destruct (IH (mkWorld (self w) ((calls w ++ step) ++ [clear clearMask])))
        as [k (Hk & Hrun & Hok & Hstop)].
      exists (S k). split; [simpl; lia |].
      subst layers. cbn [map firstn nth_error List.length Nat.eqb].
      unfold stoppedStep in *. cbn [nth_error].
      unfold clearedSteps in *. cbn [flat_map]. fold step.
      cbn [self calls] in Hrun, Hok, Hstop.
      split; [| split].
      * rewrite Hrun. f_equal. f_equal. now rewrite <- !app_assoc.
      * intros j layer Hj Hn. destruct j as [| j].
        -- cbn [nth_error] in Hn. inversion Hn; subst. cbn [firstn flat_map app].
           exact Hc.
        -- cbn [nth_error] in Hn. cbn [firstn flat_map]. fold step.
           specialize (Hok j layer ltac:(lia) Hn).
           rewrite <- !app_assoc in Hok. rewrite <- !app_assoc. exact Hok.
      * intros layer Hn. specialize (Hstop layer Hn).
        rewrite <- !app_assoc in Hstop. rewrite <- !app_assoc. exact Hstop.
    + cbv beta iota. exists 0%nat. split; [simpl; lia |].
      subst layers. cbn [map firstn nth_error List.length Nat.eqb].
      unfold stoppedStep, clearedSteps. cbn [nth_error flat_map app]. fold step.
      unfold ret. split; [| split].
      * f_equal. f_equal. now rewrite <- !app_assoc.
      * intros j layer Hj. inversion Hj.
      * intros layer Hn. inversion Hn; subst. exact Hc.
Qed.

Lemma clearedLayersFrom_steps source imageIndex bindTargets clearMask :
  bindTargets <> [] ->
  forall layers attached rest,
    (forall a, clearedLayersFrom a rest = []) ->
    clearedLayersFrom attached
      (clearedSteps source imageIndex bindTargets clearMask layers ++ rest)
    = layers.
Proof.
  intros Hne layers. induction layers as [| layer layers IH]; intros attached rest Hrest.
  - apply Hrest.
  - unfold clearedSteps. cbn [flat_map]. fold (clearedSteps source imageIndex bindTargets
                                                 clearMask layers).
    unfold layerStep. rewrite <- !app_assoc.
    rewrite clearedLayersFrom_attach by exact Hne.
    cbn [app clearedLayersFrom]. f_equal. now apply IH.
Qed.

Lemma attachedLayers_steps source imageIndex bindTargets clearMask layers rest l :
  In l (attachedLayers (clearedSteps source imageIndex bindTargets clearMask layers ++ rest)) ->
  In l layers \/ In l (attachedLayers rest).
Proof.
  induction layers as [| layer layers IH].
  - now right.
  - unfold clearedSteps. cbn [flat_map]. fold (clearedSteps source imageIndex bindTargets
                                                 clearMask layers).
    rewrite <- !app_assoc. rewrite attachedLayers_step. cbn [app attachedLayers].
    rewrite in_app_iff. intros [H | H].
    + apply repeat_spec in H. subst. left. now left.
    + destruct (IH H) as [H1 | H1]; [left; now right | now right].
Qed.

Lemma firstn_S_In {A} (x : A) k l :
  In x (firstn k l) \/ nth_error l k = Some x -> In x (firstn (S k) l).
Proof.
  revert k. induction l as [| a l IH]; intros k [H | H].
  - now rewrite firstn_nil in H.
  - destruct k; discriminate H.
  - destruct k as [| k]; [inversion H |]. cbn [firstn] in H. destruct H as [H | H].
    + now left.
    + right. apply IH. now left.
  - destruct k as [| k]; cbn [nth_error] in H.
    + inversion H. now left.
    + right. apply IH. now right.
Qed.

Lemma stoppedStep_cleared source imageIndex bindTargets layers k attached :
  bindTargets <> [] ->
  clearedLayersFrom attached
    (stoppedStep source imageIndex bindTargets layers k ++ unbindCalls bindTargets)
  = [].
Proof.
  intros Hne. unfold stoppedStep.
  assert (U : forall a, clearedLayersFrom a (unbindCalls bindTargets) = []).
  { intros a. rewrite <- (app_nil_r (unbindCalls bindTargets)).
    now rewrite clearedLayersFrom_quiet by apply unbindCalls_quiet. }
  destruct (nth_error layers k) as [layer |]; [| apply U].
  unfold layerStep. rewrite <- !app_assoc.
  rewrite clearedLayersFrom_attach by exact Hne. cbn [app clearedLayersFrom]. apply U.
Qed.

Lemma stoppedStep_attached source imageIndex bindTargets layers k l :
  In l (attachedLayers
          (stoppedStep source imageIndex bindTargets layers k ++ unbindCalls bindTargets)) ->
  nth_error layers k = Some l.
Proof.
  unfold stoppedStep.
  assert (U : attachedLayers (unbindCalls bindTargets) = []).
  { rewrite <- (app_nil_r (unbindCalls bindTargets)).
    now rewrite attachedLayers_quiet by apply unbindCalls_quiet. }
  destruct (nth_error layers k) as [layer |].
  - rewrite attachedLayers_step, U, app_nil_r. intros H.
    apply repeat_spec in H. now subst.
  - cbn [app]. rewrite U. intros [].
Qed.

(** X9.  On the per-layer path, for any layer range, [clearRenderableTexture]
    walks the layers in order and stops at the first one on which the
    framebuffer is reported incomplete.  With [k] the number of layers
    cleared: each of the first [k] layers was attached, reported complete at
    its check and cleared; layer [k], if the range has one, was attached and
    reported incomplete, and nothing was cleared or attached after it; the
    attachment points are then unbound and the result is [true] exactly when
    the whole range was cleared.  An empty range (a count of zero or less)
    is a success that clears nothing. *)
Theorem clearRenderableTexture_clears_prefix :
  forall dev source sizedInternalFormat numTextureLayers imageIndex w,
    UseTexImage2D (getType source) = false ->
    has_framebufferTexture dev && negb (hasLayer imageIndex) = false ->
    let f := GetSizedInternalFormatInfo dev sizedInternalFormat in
    let bindTargets := clearBindTargets f in
    let layers := layersInRange numTextureLayers imageIndex in
    let cleared := clearedSteps source imageIndex bindTargets (clearMaskOf f) in
    let check := layerStep source imageIndex bindTargets in
    exists k b prologue,
      let stopped := stoppedStep source imageIndex bindTargets layers k in
      let issued := prologue ++ cleared (firstn k layers) ++ stopped ++ unbindCalls bindTargets in
      (k <= List.length layers)%nat
      /\ forallb (fun c => isQuiet c && negb (isStatusCheck c)) prologue = true
      /\ clearRenderableTexture dev source sizedInternalFormat numTextureLayers imageIndex w
         = (Ok (k =? List.length layers)%nat, mkWorld b (calls w ++ issued))
      /\ (forall j layer,
             (j < k)%nat -> nth_error layers j = Some layer ->
             framebuffer_status dev
               (calls w ++ prologue ++ cleared (firstn j layers) ++ check layer)
             = GL_FRAMEBUFFER_COMPLETE)
      /\ (forall layer,
             nth_error layers k = Some layer ->
             framebuffer_status dev
               (calls w ++ prologue ++ cleared (firstn k layers) ++ check layer)
             <> GL_FRAMEBUFFER_COMPLETE)
      /\ clearedLayers issued = firstn k layers
      /\ (forall l, In l (attachedLayers issued) -> In l (firstn (S k) layers)).
Proof.
  intros dev source sizedInternalFormat numTextureLayers imageIndex w H3D Hpath
         f bindTargets layers cleared check.
  destruct (clearRenderableTexture_after_prologue
              dev source sizedInternalFormat numTextureLayers imageIndex w)
    as [b [prologue [Hq [_ Hrun]]]].
  fold f in Hrun. fold bindTargets in Hrun.
  assert (Hquiet : forallb isQuiet prologue = true).
  { rewrite forallb_forall in *. intros c Hc. specialize (Hq c Hc).
    now apply andb_prop in Hq. }
  rewrite H3D, Hpath in Hrun. cbv iota in Hrun. unfold clearLayers in Hrun.
  rewrite bind_run in Hrun.
  match type of Hrun with
  | context [forEachReturning (range ?cnt)
               (fun layer =>
                  attachCheckClear _ _ _
                    (fun bindTarget =>
                       framebufferTextureLayer _ _ _ _ (layer + ?fl))) ?w0] =>
      assert (Hlayers : layers = map (fun layer : Z => layer + fl) (range cnt))
        by reflexivity;
      destruct (clearLayers_loop_log dev source imageIndex bindTargets (clearMaskOf f)
                  fl (range cnt) w0)
        as [k (Hk & Hloop & Hok & Hstop)];
      assert (Hlen : List.length layers = List.length (range cnt))
        by (rewrite Hlayers; now rewrite length_map)
  end.
  rewrite <- Hlayers in Hloop, Hok, Hstop.
  rewrite <- Hlen in Hk, Hloop.
  cbn [self calls] in Hloop, Hok, Hstop.
  fold cleared in Hloop, Hok, Hstop. fold check in Hok, Hstop.
  rewrite Hloop in Hrun. clear Hloop.
  exists k, b, prologue. intros stopped issued.
  assert (Hne : bindTargets <> []) by apply clearBindTargets_nonempty.
  split; [exact Hk |]. split; [exact Hq |].
  split; [| split; [| split; [| split]]].
  - destruct (Nat.eqb_spec k (List.length layers)) as [Ek | Ek]; cbv iota in Hrun.
    + rewrite bind_run, UnbindAttachments_run in Hrun. unfold ret in Hrun.
      cbn [self calls] in Hrun. rewrite Hrun. f_equal. f_equal.
      unfold issued, stopped. rewrite app_nil_r. now rewrite <- !app_assoc.
    + unfold ret in Hrun. rewrite Hrun. f_equal. f_equal.
      unfold issued, stopped. now rewrite <- !app_assoc.
  - intros j layer Hj Hn. specialize (Hok j layer Hj Hn).
    rewrite <- !app_assoc in Hok. exact Hok.
  - intros layer Hn. specialize (Hstop layer Hn).
    rewrite <- !app_assoc in Hstop. exact Hstop.
  - unfold issued, clearedLayers. rewrite clearedLayersFrom_quiet by exact Hquiet.
    unfold cleared. apply clearedLayersFrom_steps; [exact Hne |].
    intros a. now apply stoppedStep_cleared.
  - intros l. unfold issued. rewrite attachedLayers_quiet by exact Hquiet.
    unfold cleared. intros H. apply attachedLayers_steps in H.
    apply firstn_S_In. destruct H as [H | H]; [now left | right].
    now apply stoppedStep_attached in H.
Qed.

Lemma clearRenderableTexture_clears_prefix_witness :
  let dev := testDeviceWith (incompleteAtLayer 7) in
  let source := testTexture TextureType_2DArray 9 in
  let imageIndex := mkImageIndex TextureTarget_2DArray 0 true 5 4 in
  let run := clearRenderableTexture dev source GL_DEPTH24_STENCIL8 0 imageIndex freshWorld in
  exists k,
    (k <= 4)%nat
    /\ fst run = Ok (k =? 4)%nat
    /\ clearedLayers (calls (snd run)) = firstn k [5; 6; 7; 8].
Proof.
  intros dev source imageIndex run.
  destruct (clearRenderableTexture_clears_prefix
              dev source GL_DEPTH24_STENCIL8 0 imageIndex freshWorld eq_refl eq_refl)
    as (k & b & prologue & Hk & _ & Hrun & _ & _ & Hcl & _).
  exists k. split; [exact Hk |].
  unfold run. rewrite Hrun. split; [reflexivity | exact Hcl].
Defined.

(** X10.  Whatever the texture, the format and the layer range,
    [clearRenderableTexture] returns a value, never an error, and the last
    thing it does, on success and on failure alike, is to detach every
    attachment point the format calls for. *)
Theorem clearRenderableTexture_always_unbinds :
  forall dev source sizedInternalFormat numTextureLayers imageIndex w,
    let f := GetSizedInternalFormatInfo dev sizedInternalFormat in
    exists r b before,
      clearRenderableTexture dev source sizedInternalFormat numTextureLayers imageIndex w
      = (Ok r, mkWorld b (before ++ unbindCalls (clearBindTargets f))).
Proof.
  intros dev source sizedInternalFormat numTextureLayers imageIndex w f.
  destruct (clearRenderableTexture_after_prologue
              dev source sizedInternalFormat numTextureLayers imageIndex w)
    as [b [prologue [_ [_ Hrun]]]].
  fold f in Hrun. rewrite Hrun. clear Hrun.
  assert (Hsingle : forall attach w0,
    exists r before,
      (returned <- attachCheckClear dev (clearBindTargets f) (clearMaskOf f) attach ;;
       match returned with
       | Some r => ret r
       | None => UnbindAttachments GL_FRAMEBUFFER (clearBindTargets f) ;; ret true
       end) w0
      = (Ok r, mkWorld (self w0) (before ++ unbindCalls (clearBindTargets f)))).
  { intros attach w0. rewrite bind_run, attachCheckClear_run.
    destruct (_ =? GL_FRAMEBUFFER_COMPLETE); cbv beta iota.
    - rewrite bind_run, UnbindAttachments_run. unfold ret. cbn [self calls].
      now eexists _, _.
    - unfold ret. now eexists _, _. }
  destruct (UseTexImage2D (getType source)).
  - destruct (Hsingle (fun bindTarget =>
                         framebufferTexture2D GL_FRAMEBUFFER bindTarget
                                              (ToGLenum (getTarget imageIndex))
                                              (getTextureID source)
                                              (getLevelIndex imageIndex))
                      (mkWorld b (calls w ++ prologue))) as [r [before E]].
    exists r, b, before. exact E.
  - destruct (has_framebufferTexture dev && negb (hasLayer imageIndex)).
    + destruct (Hsingle (fun bindTarget =>
                           framebufferTexture GL_FRAMEBUFFER bindTarget
                                              (getTextureID source)
                                              (getLevelIndex imageIndex))
                        (mkWorld b (calls w ++ prologue))) as [r [before E]].
      exists r, b, before. exact E.
    + unfold clearLayers. rewrite bind_run.
      match goal with
      | |- context [forEachReturning (range ?cnt)
                      (fun layer =>
                         attachCheckClear _ _ _
                           (fun bindTarget =>
                              framebufferTextureLayer _ _ _ _ (layer + ?fl))) ?w0] =>
          destruct (clearLayers_loop dev source imageIndex (clearBindTargets f)
                      (clearMaskOf f) fl (clearBindTargets_nonempty f) (range cnt) w0 None)
            as [k [issued (Hk & Hloop & _ & _ & Hend)]];
          rewrite Hloop;
          destruct (Nat.eqb_spec k (List.length (range cnt))) as [Ek | Ek]
      end.
      * rewrite bind_run, UnbindAttachments_run. unfold ret. cbn [self calls].
        now eexists _, _, _.
      * destruct Hend as [before Hb]; [lia |].
        unfold ret. cbn [self calls]. rewrite Hb, app_assoc.
        now eexists _, _, _.
Qed.

(** X11.  On the two paths of [clearRenderableTexture] that attach once (a
    2D-class texture, or a whole level where the driver allows it and no layer
    is asked for) there is one completeness check; the clear is issued exactly
    when the framebuffer is complete, and the result says whether it was. *)
Theorem clearRenderableTexture_single_attachment :
  forall dev source sizedInternalFormat numTextureLayers imageIndex w,
    UseTexImage2D (getType source)
    || (has_framebufferTexture dev && negb (hasLayer imageIndex)) = true ->
    let f := GetSizedInternalFormatInfo dev sizedInternalFormat in
    let attach bindTarget :=
      if UseTexImage2D (getType source)
      then framebufferTexture2D GL_FRAMEBUFFER bindTarget (ToGLenum (getTarget imageIndex))
                                (getTextureID source) (getLevelIndex imageIndex)
      else framebufferTexture GL_FRAMEBUFFER bindTarget (getTextureID source)
                              (getLevelIndex imageIndex) in
    exists b prologue,
      forallb (fun c => isQuiet c && negb (isStatusCheck c)) prologue = true
      /\ let checked :=
           calls w ++ prologue ++ map attach (clearBindTargets f)
           ++ [checkFramebufferStatus GL_FRAMEBUFFER] in
         let complete := framebuffer_status dev checked =? GL_FRAMEBUFFER_COMPLETE in
         clearRenderableTexture dev source sizedInternalFormat numTextureLayers imageIndex w
         = (Ok complete,
            mkWorld b (checked ++ (if complete then [clear (clearMaskOf f)] else [])
                       ++ unbindCalls (clearBindTargets f))).
Proof.
  intros dev source sizedInternalFormat numTextureLayers imageIndex w Hpath f attach.
  destruct (clearRenderableTexture_after_prologue
              dev source sizedInternalFormat numTextureLayers imageIndex w)
    as [b [prologue [Hq [_ Hrun]]]].
  fold f in Hrun. exists b, prologue. split; [exact Hq |].
  intros checked complete. rewrite Hrun. clear Hrun.
  assert (Hsingle : forall attach0,
    map attach0 (clearBindTargets f) = map attach (clearBindTargets f) ->
    (returned <- attachCheckClear dev (clearBindTargets f) (clearMaskOf f) attach0 ;;
     match returned with
     | Some r => ret r
     | None => UnbindAttachments GL_FRAMEBUFFER (clearBindTargets f) ;; ret true
     end) (mkWorld b (calls w ++ prologue))
    = (Ok complete,
       mkWorld b (checked ++ (if complete then [clear (clearMaskOf f)] else [])
                  ++ unbindCalls (clearBindTargets f)))).
  { intros attach0 Ha. rewrite bind_run, attachCheckClear_run. cbn [self calls].
    rewrite Ha.
    replace ((calls w ++ prologue) ++ map attach (clearBindTargets f)
             ++ [checkFramebufferStatus GL_FRAMEBUFFER])
      with checked by (unfold checked; now rewrite <- !app_assoc).
    fold complete. destruct complete; cbv beta iota.
    - rewrite bind_run, UnbindAttachments_run. unfold ret. cbn [self calls].
      now rewrite <- !app_assoc.
    - unfold ret. reflexivity. }
  unfold attach in *. destruct (UseTexImage2D (getType source)).
  - now apply Hsingle.
  - simpl in Hpath. rewrite Hpath. now apply Hsingle.
Qed.

Lemma clearRenderableTexture_single_attachment_witness :
  exists b prologue,
    clearRenderableTexture incompleteDevice (testTexture TextureType_CubeMap 9) GL_RGBA8 1
                           (mkImageIndex TextureTarget_CubeMapNegativeY 0 false 0 0)
                           freshWorld
    = (Ok false,
       mkWorld b (prologue
                  ++ [ framebufferTexture2D GL_FRAMEBUFFER GL_COLOR_ATTACHMENT0
                                            (ToGLenum TextureTarget_CubeMapNegativeY) 9 0;
                       checkFramebufferStatus GL_FRAMEBUFFER;
                       framebufferRenderbuffer GL_FRAMEBUFFER GL_COLOR_ATTACHMENT0
                                               GL_RENDERBUFFER 0 ])).
Proof.
  destruct (clearRenderableTexture_single_attachment
              incompleteDevice (testTexture TextureType_CubeMap 9) GL_RGBA8 1
              (mkImageIndex TextureTarget_CubeMapNegativeY 0 false 0 0) freshWorld eq_refl)
    as [b [prologue [_ E]]].
  exists b, prologue. simpl in E. rewrite <- app_assoc in E. exact E.
Defined.

Lemma issues_forEachReturning {A R} p (xs : list A) (body : A -> M (option R)) :
  (forall a, issues p (body a)) -> issues p (forEachReturning xs body).
Proof.
  intros Hb. induction xs as [| a xs IH]; cbn [forEachReturning].
  - apply issues_ret.
  - apply issues_bind; [apply Hb | intros [r |]; [apply issues_ret | exact IH]].
Qed.

Lemma neutral_UnbindAttachments bindTargets :
  issues isNeutral (UnbindAttachments GL_FRAMEBUFFER bindTargets).
Proof. unfold UnbindAttachments. repeat step_issues. Qed.

Lemma neutral_attachCheckClear dev bindTargets clearMask attach :
  (forall t, isNeutral (attach t) = true) ->
  issues isNeutral (attachCheckClear dev bindTargets clearMask attach).
Proof.
  intros Ha. unfold attachCheckClear.
  apply issues_bind; [apply issues_forEach; intro; now apply issues_call | intros _].
  apply issues_bind; [now apply issues_ask | intro status].
  destruct (status =? GL_FRAMEBUFFER_COMPLETE).
  - repeat step_issues.
  - apply issues_bind; [apply neutral_UnbindAttachments | intro; apply issues_ret].
Qed.

Lemma stateAfter_map_neutral {A} (g : A -> GLCall) xs s :
  (forall a, isNeutral (g a) = true) -> stateAfter (map g xs) s = s.
Proof.
  intros H. apply stateAfter_neutral. apply forallb_forall.
  intros c Hc. apply in_map_iff in Hc. destruct Hc as [a [<- _]]. apply H.
Qed.

(** X12.  Of the render state the scoped guard addresses, the three clears
    change two items and leave them changed: the scissor test is disabled
    and, when the color buffer is among the buffers cleared, the color mask is
    set to all channels.  Viewport, depth range, blending, the per-fragment
    tests, culling, polygon offset, rasterizer discard and the pause state of
    transform feedback and queries are as before.  (The clear values and the
    depth mask are not part of that state.) *)
Theorem clears_leave_scissor_disabled :
  forall dev source sizedInternalFormat numTextureLayers imageIndex renderbufferID
         framebufferID,
    let f := GetSizedInternalFormatInfo dev sizedInternalFormat in
    transforms
      (clearRenderableTexture dev source sizedInternalFormat numTextureLayers imageIndex)
      (fun before after => after = clearedState (bindColor f) before)
    /\ transforms (clearRenderbuffer dev renderbufferID sizedInternalFormat)
                  (fun before after => after = clearedState (bindColor f) before)
    /\ transforms (clearFramebuffer framebufferID)
                  (fun before after => after = clearedState true before).
Proof.
  intros dev source sizedInternalFormat numTextureLayers imageIndex renderbufferID
         framebufferID f.
  split; [| split].
  - intros w.
    destruct (clearRenderableTexture_after_prologue
                dev source sizedInternalFormat numTextureLayers imageIndex w)
      as [b [prologue [_ [Hs Hrun]]]].
    fold f in Hs, Hrun. rewrite Hrun. clear Hrun.
    match goal with
    | |- context [snd (?rest ?w0)] =>
        assert (Hn : issues isNeutral rest); [| destruct (Hn w0) as [l [El Fl]]]
    end.
    { apply issues_bind.
      - destruct (UseTexImage2D (getType source));
          [| destruct (has_framebufferTexture dev && negb (hasLayer imageIndex))].
        + now apply neutral_attachCheckClear.
        + now apply neutral_attachCheckClear.
        + unfold clearLayers. apply issues_forEachReturning. intro.
          now apply neutral_attachCheckClear.
      - intros [r |]; [apply issues_ret |].
        apply issues_bind; [apply neutral_UnbindAttachments | intro; apply issues_ret]. }
    exists (prologue ++ l). split.
    + rewrite El. cbn [calls]. now rewrite app_assoc.
    + intros s. rewrite stateAfter_app, Hs. now apply stateAfter_neutral.
  - intros w.
    destruct (clear_prologue dev sizedInternalFormat w) as [b [prologue [_ [Hs Hrun]]]].
    fold f in Hs, Hrun.
    unfold clearRenderbuffer.
    rewrite bind_run in Hrun. rewrite bind_run.
    destruct (initializeResources dev w) as [[[] | e] w1]; [| discriminate Hrun].
    cbv beta iota in Hrun |- *.
    rewrite bind_run in Hrun. rewrite bind_run.
    destruct (PrepareForClear dev sizedInternalFormat w1) as [[prepared | e] w2];
      [| discriminate Hrun].
    cbv beta iota in Hrun |- *.
    rewrite bind_getSelf, bind_call in Hrun. unfold ret in Hrun. inversion Hrun; subst.
    rewrite bind_getSelf, bind_call. cbn [fst snd self calls].
    rewrite bind_run, forEach_calls. cbv beta iota. rewrite bind_call.
    rewrite forEach_calls. cbn [snd self calls].
    match goal with H : _ = calls w ++ prologue |- _ => rewrite H end.
    eexists. split; [rewrite <- !app_assoc; reflexivity |].
    intros s. rewrite stateAfter_app, Hs.
    rewrite !stateAfter_app. rewrite stateAfter_map_neutral by reflexivity.
    rewrite (stateAfter_neutral [_]) by reflexivity.
    now rewrite stateAfter_map_neutral by reflexivity.
  - intros w. unfold clearFramebuffer, SetClearState.
    unfold bind, call, ret. cbn [snd self calls].
    eexists. split; [rewrite <- !app_assoc; reflexivity |].
    intros []. reflexivity.
Qed.

(** ** [copySubTexture]: the alpha uniforms *)




(** ** Failures of the shader operations *)

Lemma failsClean_bind {A B} p (m : M A) (k : A -> M B) :
  issues p m -> (forall a, failsClean p (k a)) -> failsClean p (bind m k).
Proof.
  intros Hm Hk w e w'. rewrite bind_run.
  destruct (Hm w) as [l1 [E1 F1]].
  destruct (m w) as [[a | e1] w1]; cbn [snd] in E1; intros H.
  - destruct (Hk a w1 e w' H) as [l2 [E2 F2]].
    exists (l1 ++ l2). rewrite E2, E1, app_assoc, forallb_app, F1, F2. auto.
  - inversion H; subst. now exists l1.
Qed.

Lemma failsClean_succeeds {A} p (m : M A) : succeeds m -> failsClean p m.
Proof.
  intros Hs w e w' H. destruct (Hs w) as [a Ea]. rewrite H in Ea. discriminate Ea.
Qed.

Lemma harmless_initializeResources dev : issues isHarmless (initializeResources dev).
Proof.
  apply (issues_weaken isResourceSetup); [| apply initializeResources_issues].
  intros c H. destruct c; try discriminate H; reflexivity.
Qed.

Lemma harmless_getBlitProgram dev type : issues isHarmless (getBlitProgram dev type).
Proof.
  apply (issues_weaken isProgramBuild); [| apply getBlitProgram_issues].
  intros c H. destruct c; try discriminate H; reflexivity.
Qed.

Ltac step_clean :=
  lazymatch goal with
  | |- failsClean _ (bind (initializeResources _) _) =>
      apply failsClean_bind; [apply harmless_initializeResources | intro]
  | |- failsClean _ (bind (getBlitProgram _ _) _) =>
      apply failsClean_bind; [apply harmless_getBlitProgram | intro]
  | |- failsClean _ (bind (call _) _) =>
      apply failsClean_bind; [apply issues_call; reflexivity | intro]
  | |- failsClean _ (bind (ask _ _) _) =>
      apply failsClean_bind; [apply issues_ask; reflexivity | intro]
  | |- failsClean _ (bind (tryCall _ _) _) =>
      apply failsClean_bind; [apply issues_try; reflexivity | intro]
  | |- failsClean _ (bind getSelf _) =>
      apply failsClean_bind; [apply issues_getSelf | intro]
  | |- failsClean _ (bind (when _ (call _)) _) =>
      apply failsClean_bind; [apply issues_when, issues_call; reflexivity | intro]
  | |- failsClean _ (if ?b then _ else _) => destruct b
  end.

Lemma harmless_weaken c : isHarmless c = true -> isNeutral c && negb (isCopyOrDraw c) = true.
Proof. unfold isHarmless. intros H. apply andb_prop in H. tauto. Qed.

(** X14.  The shader operations fail before they do anything that shows.
    When [copySubImageToLUMAWorkaroundTexture], [blitColorBufferWithShader]
    or [copySubTexture] returns an error, no call it made touched the render
    state, copied or drew anything, or allocated texture storage: every
    failure comes before the state guard opens and before the first copy.
    [copyImageToLUMAWorkaroundTexture] is weaker: on an error nothing was
    copied or drawn and no render state was touched, but the destination
    level may already have been reallocated. *)
Theorem shader_operations_fail_before_drawing :
  forall dev context texture textureType target lumaFormat level destOffset sourceArea
         internalFormat source dest sourceAreaIn destAreaIn filter
         sourceTexture sourceLevel sourceComponentType destTexture destTarget destLevel
         destComponentType sourceSize destOffset' needsLumaWorkaround
         unpackFlipY unpackPremultiplyAlpha unpackUnmultiplyAlpha,
    failsClean isHarmless
               (copySubImageToLUMAWorkaroundTexture dev context texture textureType target
                                                    lumaFormat level destOffset sourceArea
                                                    source)
    /\ failsClean isHarmless
                  (blitColorBufferWithShader dev source dest sourceAreaIn destAreaIn filter)
    /\ failsClean isHarmless
                  (copySubTexture dev context sourceTexture sourceLevel sourceComponentType
                                  destTexture destTarget destLevel destComponentType
                                  sourceSize sourceArea destOffset' needsLumaWorkaround
                                  lumaFormat unpackFlipY unpackPremultiplyAlpha
                                  unpackUnmultiplyAlpha)
    /\ failsClean (fun c => isNeutral c && negb (isCopyOrDraw c))
                  (copyImageToLUMAWorkaroundTexture dev context texture textureType target
                                                    lumaFormat level sourceArea
                                                    internalFormat source).
Proof.
  intros.
  assert (Hsub : failsClean isHarmless
                   (copySubImageToLUMAWorkaroundTexture dev context texture textureType
                      target lumaFormat level destOffset sourceArea source)
                 /\ failsClean isHarmless
                      (copySubImageToLUMAWorkaroundTexture dev context texture textureType
                         target lumaFormat level (gl.mkOffset 0 0 0) sourceArea source)).
  { split; unfold copySubImageToLUMAWorkaroundTexture; repeat step_clean;
      apply failsClean_succeeds; repeat step_total. }
  split; [exact (proj1 Hsub) | split; [| split]].
  - unfold blitColorBufferWithShader. repeat step_clean.
    apply failsClean_succeeds. repeat step_total.
  - unfold copySubTexture. repeat step_clean.
    all: apply failsClean_succeeds; repeat step_total.
  - unfold copyImageToLUMAWorkaroundTexture.
    apply failsClean_bind; [apply issues_call; reflexivity | intro].
    apply failsClean_bind; [apply issues_try; reflexivity | intro].
    apply failsClean_bind; [apply issues_call; reflexivity | intro].
    apply failsClean_bind; [apply issues_call; reflexivity | intro].
    apply failsClean_bind; [apply issues_call; reflexivity | intro].
    intros w e w' H. destruct (proj2 Hsub w e w' H) as [l [El Fl]].
    exists l. split; [exact El |].
    rewrite forallb_forall in *. intros c Hc. apply harmless_weaken. auto.
Qed.

Lemma shader_operations_fail_before_drawing_witness :
  let run :=
    copySubTexture brokenCompilerDevice (mkContext None) (testTexture TextureType_2D 5) 0
                   GL_FLOAT (testTexture TextureType_2D 6) TextureTarget_2D 0 GL_FLOAT
                   (gl.mkExtents 4 4 1) (gl.mkRectangle 0 0 4 4) (gl.mkOffset 0 0 0)
                   false GL_NONE false true false freshWorld in
  (exists e, fst run = Failed e) /\ forallb isHarmless (calls (snd run)) = true.
Proof.
  intro run.
  destruct (shader_operations_fail_before_drawing
              brokenCompilerDevice (mkContext None) 0 TextureType_2D TextureTarget_2D
              GL_NONE 0 (gl.mkOffset 0 0 0) (gl.mkRectangle 0 0 4 4) GL_RGBA8
              (testFramebuffer 1) (testFramebuffer 2)
              (gl.mkRectangle 0 0 4 4) (gl.mkRectangle 0 0 4 4) GL_NEAREST
              (testTexture TextureType_2D 5) 0 GL_FLOAT (testTexture TextureType_2D 6)
              TextureTarget_2D 0 GL_FLOAT (gl.mkExtents 4 4 1) (gl.mkOffset 0 0 0)
              false false true false)
    as (_ & _ & T & _).
  specialize (T freshWorld). fold run in T.
  destruct run as [[a | e] w'] eqn:E; [vm_compute in E; discriminate E |].
  split; [now exists e |].
  destruct (T e w' eq_refl) as [l [El Fl]].
  cbn [snd]. rewrite El. exact Fl.
Defined.
